(** * Calibration trajectory engine of the Elite robot extension

    Shallow embedding of [src/cpp_extensions/elite_ext.cpp]:
    - [PoseMath]: [Vec3], [matrixToRotVec], [rotVecToMatrix];
    - [Geometry]: the 9-point grid, the pyramid targets and the dither pose;
    - [Engine]: the move / wait / capture / record loops of
      [EliteCalibration::run_calibration] and
      [EliteCalibration::run_3d_calibration];
    - [Accounting]: the sleeping time, the file and the calls of the pose
      provider of a run;
    - [Controller]: the class [EliteRobotController], in its two versions;
    - [Vision]: the region of interest and the match filter of the vision
      extension.

    A C++ [double] is modelled by a real number of [R]: arithmetic is exact,
    rounding is not modelled.  [std::sqrt], [std::sin], [std::cos] and
    [std::acos] are the functions [sqrt], [sin], [cos] and [acos] of the
    standard library of reals.  The reals have no infinity and no NaN: a
    statement about a function of [PoseMath] that is meant for every input
    of the code carries the bound on the input under which no intermediate
    double overflows and no operation is undefined.

    What C++ leaves undefined is not given a behaviour.  The write past the
    end of the six-cell dither pose ends the dither step ([Geometry.PastEnd])
    and the run that makes it ([Engine.Undefined]); a conversion to [int]
    that is out of range has no value ([Controller.trunc]). *)

From Stdlib Require Import Reals Lra Lia List Bool Arith ZArith String RNsatz.
Import ListNotations.

Local Open Scope R_scope.

(** ** Comparisons of doubles, as booleans *)

Definition Rltb (a b : R) : bool := if Rlt_dec a b then true else false.
Definition Rleb (a b : R) : bool := if Rle_dec a b then true else false.
Definition Rgtb (a b : R) : bool := Rltb b a.
Definition Rgeb (a b : R) : bool := Rleb b a.

(** ** PoseMath: axis-angle and rotation matrices *)

Module PoseMath.

(** [struct Vec3 { double x, y, z; ... }] *)
Record Vec3 : Type := mkVec3 { x : R; y : R; z : R }.

Definition add (a o : Vec3) : Vec3 := mkVec3 (x a + x o) (y a + y o) (z a + z o).
Definition sub (a o : Vec3) : Vec3 := mkVec3 (x a - x o) (y a - y o) (z a - z o).
Definition scale (a : Vec3) (s : R) : Vec3 := mkVec3 (x a * s) (y a * s) (z a * s).
Definition dot (a o : Vec3) : R := x a * x o + y a * y o + z a * z o.
Definition cross (a o : Vec3) : Vec3 :=
  mkVec3 (y a * z o - z a * y o) (z a * x o - x a * z o) (x a * y o - y a * x o).
Definition length (a : Vec3) : R := sqrt (x a * x a + y a * y a + z a * z a).

Definition normalize (a : Vec3) : Vec3 :=
  let l := length a in
  if Rltb l 1e-9 then mkVec3 0 0 1
  else mkVec3 (x a / l) (y a / l) (z a / l).

(** [matrixToRotVec]: the vectors X, Y, Z are the columns of the matrix
    (r11 = X.x, r21 = X.y, r31 = X.z, ...). *)
Definition matrixToRotVec (X Y Z : Vec3) : list R :=
  let r11 := x X in let r12 := x Y in let r13 := x Z in
  let r21 := y X in let r22 := y Y in let r23 := y Z in
  let r31 := z X in let r32 := z Y in let r33 := z Z in
  let trace := r11 + r22 + r33 in
  if Rgeb trace (3.0 - 1e-6) then [0; 0; 0]
  else
    let '(theta, axis) :=
      if Rleb trace (-1.0 + 1e-6) then
        (3.141592653589793,
         if Rgtb r11 r22 && Rgtb r11 r33 then
           mkVec3 (sqrt ((r11 + 1) / 2))
                  ((r12 + r21) / (2 * sqrt ((r11 + 1) / 2)))
                  ((r13 + r31) / (2 * sqrt ((r11 + 1) / 2)))
         else if Rgtb r22 r33 then
           mkVec3 ((r12 + r21) / (2 * sqrt ((r22 + 1) / 2)))
                  (sqrt ((r22 + 1) / 2))
                  ((r23 + r32) / (2 * sqrt ((r22 + 1) / 2)))
         else
           mkVec3 ((r13 + r31) / (2 * sqrt ((r33 + 1) / 2)))
                  ((r23 + r32) / (2 * sqrt ((r33 + 1) / 2)))
                  (sqrt ((r33 + 1) / 2)))
      else
        let theta := acos ((trace - 1.0) / 2.0) in
        let s := 2.0 * sin theta in
        (theta, mkVec3 ((r32 - r23) / s) ((r13 - r31) / s) ((r21 - r12) / s))
    in
    let axis := normalize axis in
    [x axis * theta; y axis * theta; z axis * theta].

(** [rotVecToMatrix]: the three output references X, Y, Z are returned as a
    triple. *)
Definition rotVecToMatrix (rx ry rz : R) : Vec3 * Vec3 * Vec3 :=
  let theta := sqrt (rx * rx + ry * ry + rz * rz) in
  if Rltb theta 1e-6 then
    (mkVec3 1 0 0, mkVec3 0 1 0, mkVec3 0 0 1)
  else
    let kx := rx / theta in
    let ky := ry / theta in
    let kz := rz / theta in
    let c := cos theta in
    let s := sin theta in
    let v := 1 - c in
    (mkVec3 (kx * kx * v + c) (kx * ky * v - kz * s) (kx * kz * v + ky * s),
     mkVec3 (kx * ky * v + kz * s) (ky * ky * v + c) (ky * kz * v - kx * s),
     mkVec3 (kx * kz * v - ky * s) (ky * kz * v + kx * s) (kz * kz * v + c)).

(** The composition the round-trip property speaks of: a matrix, given by its
    three vectors, is converted to a rotation vector and back. *)
Definition roundtrip (X Y Z : Vec3) : Vec3 * Vec3 * Vec3 :=
  match matrixToRotVec X Y Z with
  | [rx; ry; rz] => rotVecToMatrix rx ry rz
  | _ => (X, Y, Z)
  end.

(** The functions of this module compute on exact reals.  In the code the
    sum of squares under a square root is a double, and overflows to
    infinity above about 1.8e308.  [in_range] bounds the components of a
    vector so that its squared length stays far below that. *)
Definition in_range (a : Vec3) : Prop :=
  Rabs (x a) <= 1e150 /\ Rabs (y a) <= 1e150 /\ Rabs (z a) <= 1e150.

(** The diagonal entry under the square root of the branch
    [trace <= -1 + 1e-6] of [matrixToRotVec], by the two tests of that
    branch. *)
Definition selected_diagonal (X Y Z : Vec3) : R :=
  if Rgtb (x X) (y Y) && Rgtb (x X) (z Z) then x X
  else if Rgtb (y Y) (z Z) then y Y
  else z Z.

(** Orthonormal, right-handed triple of vectors: a rotation matrix. *)
Definition is_rotation (X Y Z : Vec3) : Prop :=
  dot X X = 1 /\ dot Y Y = 1 /\ dot Z Z = 1 /\
  dot X Y = 0 /\ dot X Z = 0 /\ dot Y Z = 0 /\
  cross X Y = Z.

Definition trace (X Y Z : Vec3) : R := x X + y Y + z Z.

Definition vec_within (eps : R) (a b : Vec3) : Prop :=
  Rabs (x a - x b) <= eps /\ Rabs (y a - y b) <= eps /\ Rabs (z a - z b) <= eps.

(** Every entry of the two matrices differs by at most [eps]. *)
Definition mat_within (eps : R) (M N : Vec3 * Vec3 * Vec3) : Prop :=
  let '(X, Y, Z) := M in
  let '(X', Y', Z') := N in
  vec_within eps X X' /\ vec_within eps Y Y' /\ vec_within eps Z Z'.

(** The matrix whose columns are the rows of the given one. *)
Definition transpose (M : Vec3 * Vec3 * Vec3) : Vec3 * Vec3 * Vec3 :=
  let '(X, Y, Z) := M in
  (mkVec3 (x X) (x Y) (x Z), mkVec3 (y X) (y Y) (y Z), mkVec3 (z X) (z Y) (z Z)).

(** Rotation matrix of the half turn about the unit axis [k]: 2 k k^T - I,
    given by its columns. *)
Definition half_turn (k : Vec3) : Vec3 * Vec3 * Vec3 :=
  (mkVec3 (2 * x k * x k - 1) (2 * x k * y k) (2 * x k * z k),
   mkVec3 (2 * y k * x k) (2 * y k * y k - 1) (2 * y k * z k),
   mkVec3 (2 * z k * x k) (2 * z k * y k) (2 * z k * z k - 1)).

Definition rotvec_of (M : Vec3 * Vec3 * Vec3) : list R :=
  let '(X, Y, Z) := M in matrixToRotVec X Y Z.

(** Two vectors are parallel (up to sign and length) when their cross product
    vanishes. *)
Definition parallel (a b : Vec3) : Prop := cross a b = mkVec3 0 0 0.

Definition vec_of_list (l : list R) : Vec3 :=
  mkVec3 (nth 0 l 0) (nth 1 l 0) (nth 2 l 0).

(** Quarter turn about the z axis, by its columns. *)
Definition quarter_turn_z : Vec3 * Vec3 * Vec3 :=
  (mkVec3 0 1 0, mkVec3 (-1) 0 0, mkVec3 0 0 1).

(** Rotation by [theta] about the z axis, by its columns. *)
Definition rotation_z (theta : R) : Vec3 * Vec3 * Vec3 :=
  (mkVec3 (cos theta) (sin theta) 0, mkVec3 (- sin theta) (cos theta) 0, mkVec3 0 0 1).

(** A unit axis that is not a coordinate axis. *)
Definition axis_4_3_0 : Vec3 := mkVec3 (4 / 5) (3 / 5) 0.

Definition is_rotation_matrix (M : Vec3 * Vec3 * Vec3) : Prop :=
  let '(X, Y, Z) := M in is_rotation X Y Z.

Definition trace_of (M : Vec3 * Vec3 * Vec3) : R :=
  let '(X, Y, Z) := M in trace X Y Z.

Definition roundtrip_of (M : Vec3 * Vec3 * Vec3) : Vec3 * Vec3 * Vec3 :=
  let '(X, Y, Z) := M in roundtrip X Y Z.

End PoseMath.

(** ** Geometry: the generated target points *)

Module Geometry.

(** [vector6d_t] is the SDK's [std::array<double, 6>]: x, y, z in metres and
    the rotation vector rx, ry, rz in radians.  The array has exactly six
    cells, so it is a record of six doubles read and written by index. *)
Record vector6d_t : Type := mkPose {
  v0 : R; v1 : R; v2 : R; v3 : R; v4 : R; v5 : R
}.

Definition zero_pose : vector6d_t := mkPose 0 0 0 0 0 0.

(** [p[i]], for an index inside the array. *)
Definition get (p : vector6d_t) (i : nat) : R :=
  match i with
  | 0%nat => v0 p
  | 1%nat => v1 p
  | 2%nat => v2 p
  | 3%nat => v3 p
  | 4%nat => v4 p
  | 5%nat => v5 p
  | _ => 0
  end.

(** [p[i] = v], for an index inside the array. *)
Definition set_at (p : vector6d_t) (i : nat) (v : R) : vector6d_t :=
  match i with
  | 0%nat => mkPose v (v1 p) (v2 p) (v3 p) (v4 p) (v5 p)
  | 1%nat => mkPose (v0 p) v (v2 p) (v3 p) (v4 p) (v5 p)
  | 2%nat => mkPose (v0 p) (v1 p) v (v3 p) (v4 p) (v5 p)
  | 3%nat => mkPose (v0 p) (v1 p) (v2 p) v (v4 p) (v5 p)
  | 4%nat => mkPose (v0 p) (v1 p) (v2 p) (v3 p) v (v5 p)
  | 5%nat => mkPose (v0 p) (v1 p) (v2 p) (v3 p) (v4 p) v
  | _ => p
  end.

Definition GRID_STEP : R := 0.05.
Definition MOVE_SPEED : R := 0.2.
Definition MOVE_ACCEL : R := 0.5.

Definition steps : list R := [- GRID_STEP; 0; GRID_STEP].

(** The nested loops [for dz : steps] / [for dy : steps] of
    [run_calibration]. *)
Definition grid_points (center_pose : vector6d_t) : list vector6d_t :=
  let cy := get center_pose 1 in
  let cz := get center_pose 2 in
  flat_map
    (fun dz =>
       map (fun dy =>
              let p := center_pose in
              let p := set_at p 1 (cy + dy) in
              let p := set_at p 2 (cz + dz) in
              p)
           steps)
    steps.

(** The direction table of [run_3d_calibration]. *)
Record axes : Type := mkAxes {
  ax_h : nat;
  ax_w1 : nat;
  ax_w2 : nat;
  ax_r1 : nat;
  ax_r2 : nat;
  h_sign : R
}.

Definition direction_axes (direction : string) : axes :=
  if String.eqb direction "Z+" then mkAxes 2 0 1 3 4 1.0
  else if String.eqb direction "Z-" then mkAxes 2 0 1 3 4 (-1.0)
  else if String.eqb direction "Y+" then mkAxes 1 0 2 3 5 1.0
  else if String.eqb direction "Y-" then mkAxes 1 0 2 3 5 (-1.0)
  else if String.eqb direction "X+" then mkAxes 0 1 2 4 5 1.0
  else if String.eqb direction "X-" then mkAxes 0 1 2 4 5 (-1.0)
  else mkAxes 2 0 1 3 4 1.0.

Definition supported_directions : list string :=
  ["X+"; "X-"; "Y+"; "Y-"; "Z+"; "Z-"]%string.

(** [corner_signs[k][0]] and [corner_signs[k][1]], for k = 0..3. *)
Definition corner_signs (k : nat) : R * R :=
  match k with
  | 0%nat => (-1.0, -1.0)
  | 1%nat => (-1.0, 1.0)
  | 2%nat => (1.0, 1.0)
  | _ => (1.0, -1.0)
  end.

(** [ratio]: [(double)i / (double)(layers - 1)] when [layers > 1], else 0. *)
Definition layer_ratio (layers : Z) (i : nat) : R :=
  if (1 <? layers)%Z then IZR (Z.of_nat i) / IZR (layers - 1) else 0.0.

(** Body of the inner loop over the corners: the base target of corner [k]
    of layer [i]. *)
Definition target_point (center_pose : vector6d_t) (a : axes) (layers : Z)
    (base_width_m top_width_m height_m : R) (i k : nat) : vector6d_t :=
  let ratio := layer_ratio layers i in
  let layer_z_offset := height_m * ratio * h_sign a in
  let current_width := base_width_m - (base_width_m - top_width_m) * ratio in
  let half_w := current_width / 2.0 in
  let p := center_pose in
  let p := set_at p (ax_h a) (get p (ax_h a) + layer_z_offset) in
  let d_w1 := fst (corner_signs k) * half_w in
  let d_w2 := snd (corner_signs k) * half_w in
  let p := set_at p (ax_w1 a) (get p (ax_w1 a) + d_w1) in
  let p := set_at p (ax_w2 a) (get p (ax_w2 a) + d_w2) in
  let p := set_at p 3 (get center_pose 3) in
  let p := set_at p 4 (get center_pose 4) in
  let p := set_at p 5 (get center_pose 5) in
  p.

(** The loops [for i < layers] / [for k < 4] filling [targets]; the widths
    and the height are given in millimetres, as the entry point takes them. *)
Definition pyramid_targets (center_pose : vector6d_t) (direction : string)
    (layers : Z) (base_width top_width height : R) : list vector6d_t :=
  let base_width_m := base_width / 1000.0 in
  let top_width_m := top_width / 1000.0 in
  let height_m := height / 1000.0 in
  let a := direction_axes direction in
  flat_map
    (fun i =>
       map (target_point center_pose a layers base_width_m top_width_m height_m i)
           (seq 0 4))
    (seq 0 (Z.to_nat layers)).

(** The dither pose is built by compound assignments [p_dither[i] += d] on a
    six-cell array.  An index below 6 updates the cell.  An index of 6 or more
    is a write past the end of the array, which C++ leaves undefined: the
    model stops there.  It keeps the index and the value of that write and
    the array as it was when the statement was reached, and executes none of
    the statements that follow. *)
Inductive dither_store : Type :=
| Cells (p : vector6d_t)
| PastEnd (i : nat) (d : R) (p : vector6d_t).

(** The array: after all the writes, or when the write past the end was
    reached. *)
Definition cells (s : dither_store) : vector6d_t :=
  match s with
  | Cells p => p
  | PastEnd _ _ p => p
  end.

(** The write past the end of the array, if one was reached. *)
Definition stray (s : dither_store) : list (nat * R) :=
  match s with
  | Cells _ => []
  | PastEnd i d _ => [(i, d)]
  end.

Definition add_at (i : nat) (d : R) (s : dither_store) : dither_store :=
  match s with
  | Cells p =>
      if (i <? 6)%nat then Cells (set_at p i (get p i + d)) else PastEnd i d p
  | PastEnd _ _ _ => s
  end.

(** Every index the dither step writes with the axes [a] is inside the
    array. *)
Definition in_bounds (a : axes) : bool :=
  ((ax_r1 a <? 6) && (ax_r2 a <? 6) && (ax_r2 a + 1 <? 6))%nat.

Definition tilt_magnitude (layers : Z) (tilt_angle : R) (layer_idx : nat) : R :=
  let ratio := if (1 <? layers)%Z
               then IZR (Z.of_nat layer_idx) / IZR (layers - 1) else 0.0 in
  (tilt_angle / 57.29578) * (1.0 - ratio * 0.6).

(** Step 2 of the motion loop of [run_3d_calibration]: [p_dither] for the
    target of index [i]. *)
Definition dither (layers : Z) (tilt_angle : R) (a : axes) (i : nat)
    (target : vector6d_t) : dither_store :=
  let layer_idx := (i / 4)%nat in
  let corner_idx := (i mod 4)%nat in
  let p_dither := Cells target in
  let tilt := tilt_magnitude layers tilt_angle layer_idx in
  let sign_w1 := fst (corner_signs corner_idx) in
  let sign_w2 := snd (corner_signs corner_idx) in
  let sign_modifier :=
    if ((corner_idx =? 1) || (corner_idx =? 3))%nat then -1.0 else 1.0 in
  let p_dither := add_at (ax_r1 a) (- sign_w2 * tilt * sign_modifier) p_dither in
  let p_dither := add_at (ax_r2 a) (- sign_w1 * tilt * sign_modifier) p_dither in
  let p_dither :=
    add_at (ax_r2 a + 1)
           ((if (corner_idx mod 2 =? 0)%nat then 2.0 else -2.0) * (1.0 / 57.29578))
           p_dither in
  let p_dither := add_at 2 0.0001 p_dither in
  p_dither.

(** The offsets, in millimetres, of the nine grid points: (dy, dz) with dz in
    the outer loop and dy in the inner one. *)
Definition grid9_offsets_mm : list (R * R) :=
  [(-50, -50); (0, -50); (50, -50);
   (-50, 0); (0, 0); (50, 0);
   (-50, 50); (0, 50); (50, 50)].

(** The value added by the secondary rotation: +2 or -2 degrees, by the
    parity of the corner. *)
Definition secondary_rotation (i : nat) : R :=
  (if ((i mod 4) mod 2 =? 0)%nat then 2.0 else -2.0) * (1.0 / 57.29578).

(** What the spec says of the translation of the dither pose: there is a
    dither pose, its two width components are those of the base point, and
    its height component is the one that carries the shift. *)
Definition shift_on_height_axis (direction : string) (layers : Z)
    (tilt_angle : R) (i : nat) (target : vector6d_t) : Prop :=
  let a := direction_axes direction in
  match dither layers tilt_angle a i target with
  | Cells d =>
      get d (ax_w1 a) = get target (ax_w1 a) /\
      get d (ax_w2 a) = get target (ax_w2 a) /\
      get d (ax_h a) = get target (ax_h a) + 0.0001
  | PastEnd _ _ _ => False
  end.

End Geometry.

(** ** Engine: the move / wait / capture / record loops *)

Module Engine.

Import Geometry.

(** What a callback can throw.  The handlers of the two runs are
    [catch (const std::exception &e)]: they take an exception derived from
    [std::exception] (a failure of a Python callable reaches C++ as pybind11's
    [error_already_set], which is one) and let any other pass. *)
Inductive cpp_exception : Type :=
| StdException (what : string)
| ForeignException.

Inductive call_result : Type :=
| Returned
| Raised (e : cpp_exception).

(** [movel(<pose>, a=<a>, v=<v>)] sent through [primary->sendScript]. *)
Inductive script : Type :=
| movel (pose : vector6d_t) (a v : R).

(** Messages handed to the log sink.  Messages that print numbers keep the
    numbers instead of their decimal rendering. *)
Inductive log_entry : Type :=
| LogText (msg : string)
| LogInfo (layers : Z) (base_width top_width height tilt_angle : R) (direction : string)
| LogMoving (point_idx : nat)
| LogProcessing (point_idx total : nat)
| LogPointData (point_idx : nat) (pose : vector6d_t)
| LogCaptureError (prefix what : string)
| LogSaved (prefix filename : string).

(** The collaborators of one run.  The pose callback and the log sink are
    taken to return; the capture callback may raise. *)
Record env : Type := mkEnv {
  connected : bool;            (* dashboard and primary are non-null *)
  power_on_ok : bool;          (* result of dashboard->powerOn() *)
  brake_release_ok : bool;     (* result of dashboard->brakeRelease() *)
  capture_callback : option (nat -> call_result);
  (* [get_pose_callback]: the answer to the n-th call (from 0), in mm / deg *)
  get_pose_callback : option (nat -> list R);
  file_opens : bool            (* outfile.is_open() *)
}.

(** The state a run acts on: the number of pose polls made so far, the
    scripts sent, the log, the local [data_lines] (one row per record, kept as
    the point number and the six values), the capture calls made, the milli-
    seconds slept and the file written. *)
Record world : Type := mkWorld {
  polls : nat;
  scripts : list script;
  log : list log_entry;
  data_lines : list (nat * vector6d_t);
  captured : list nat;
  clock_ms : nat;
  file : option (string * list (nat * vector6d_t))
}.

Definition initial_world : world := mkWorld 0 [] [] [] [] 0 None.

(** A computation completes, or leaves by an exception, or reaches a
    statement that C++ leaves undefined (the write past the end of
    [p_dither]); of what the program does from there on the model says
    nothing. *)
Inductive outcome (A : Type) : Type :=
| Done (a : A) (w : world)
| Thrown (e : cpp_exception) (w : world)
| Undefined.
Arguments Done {A} a w.
Arguments Thrown {A} e w.
Arguments Undefined {A}.

Definition M (A : Type) : Type := world -> outcome A.

Definition ret {A : Type} (a : A) : M A := fun w => Done a w.

Definition bind {A B : Type} (m : M A) (k : A -> M B) : M B :=
  fun w => match m w with
           | Done a w' => k a w'
           | Thrown e w' => Thrown e w'
           | Undefined => Undefined
           end.

Declare Scope engine_scope.
Delimit Scope engine_scope with engine.
Notation "x <- m ;; k" := (bind m (fun x => k))
  (at level 61, m at next level, right associativity) : engine_scope.
Notation "m ;;; k" := (bind m (fun _ => k))
  (at level 61, right associativity) : engine_scope.
Local Open Scope engine_scope.

(** The lambda [log] of both runs: the message goes to [log_callback], or to
    [std::cout] when that callback is null; either sink is the list [log]. *)
Definition write_log (e : log_entry) : M unit :=
  fun w => Done tt (mkWorld (polls w) (scripts w) (log w ++ [e]) (data_lines w)
                            (captured w) (clock_ms w) (file w)).

Definition log_text (msg : string) : M unit := write_log (LogText msg).

Definition sendScript (s : script) : M unit :=
  fun w => Done tt (mkWorld (polls w) (scripts w ++ [s]) (log w) (data_lines w)
                            (captured w) (clock_ms w) (file w)).

Definition sleep_ms (ms : nat) : M unit :=
  fun w => Done tt (mkWorld (polls w) (scripts w) (log w) (data_lines w)
                            (captured w) (clock_ms w + ms) (file w)).

Definition push_data_line (point_idx : nat) (pose : vector6d_t) : M unit :=
  fun w => Done tt (mkWorld (polls w) (scripts w) (log w)
                            (data_lines w ++ [(point_idx, pose)])
                            (captured w) (clock_ms w) (file w)).

(** Conversion of an answer of the pose callback: mm -> m, deg -> rad. *)
Definition pose_m_rad (p : list R) : vector6d_t :=
  if (List.length p <? 6)%nat then zero_pose
  else mkPose (nth 0 p 0 / 1000.0) (nth 1 p 0 / 1000.0) (nth 2 p 0 / 1000.0)
              (nth 3 p 0 / 57.29578) (nth 4 p 0 / 57.29578) (nth 5 p 0 / 57.29578).

(** The lambda [get_current_pose_m_rad] of both runs. *)
Definition get_current_pose_m_rad (e : env) : M vector6d_t :=
  fun w =>
    match get_pose_callback e with
    | None => Done zero_pose w
    | Some f =>
        Done (pose_m_rad (f (polls w)))
             (mkWorld (S (polls w)) (scripts w) (log w) (data_lines w)
                      (captured w) (clock_ms w) (file w))
    end.

(** [capture_callback(point_idx)] *)
Definition call_capture (cb : nat -> call_result) (point_idx : nat) : M unit :=
  fun w =>
    let w' := mkWorld (polls w) (scripts w) (log w) (data_lines w)
                      (captured w ++ [point_idx]) (clock_ms w) (file w) in
    match cb point_idx with
    | Returned => Done tt w'
    | Raised e => Thrown e w'
    end.

(** [try { body } catch (const std::exception &e) { handler(e.what()) }] *)
Definition try_catch_std (body : M unit) (handler : string -> M unit) : M unit :=
  fun w => match body w with
           | Done a w' => Done a w'
           | Thrown (StdException what) w' => handler what w'
           | Thrown ForeignException w' => Thrown ForeignException w'
           | Undefined => Undefined
           end.

(** The guarded capture of both runs; [prefix] is the text logged before
    [e.what()]. *)
Definition trigger_capture (e : env) (prefix : string) (point_idx : nat) : M unit :=
  match capture_callback e with
  | Some cb =>
      try_catch_std (call_capture cb point_idx)
                    (fun what => write_log (LogCaptureError prefix what))
  | None => ret tt
  end.

(** [sqrt(sum_{k<3} pow(cur[k] - target[k], 2))], accumulated from 0. *)
Definition translation_distance (cur target : vector6d_t) : R :=
  sqrt (0 + (get cur 0 - get target 0) ^ 2
          + (get cur 1 - get target 1) ^ 2
          + (get cur 2 - get target 2) ^ 2).

Definition rotation_distance (cur target : vector6d_t) : R :=
  sqrt (0 + (get cur 3 - get target 3) ^ 2
          + (get cur 4 - get target 4) ^ 2
          + (get cur 5 - get target 5) ^ 2).

(** The pose [get_current_pose_m_rad] hands out when [n] calls of the
    callback have been made, and the number of calls made after it. *)
Definition seen (e : env) (n : nat) : vector6d_t :=
  match get_pose_callback e with
  | None => zero_pose
  | Some f => pose_m_rad (f n)
  end.

Definition next_poll (e : env) (n : nat) : nat :=
  match get_pose_callback e with
  | None => n
  | Some _ => S n
  end.

Definition set_polls_clock (w : world) (p c : nat) : world :=
  mkWorld p (scripts w) (log w) (data_lines w) (captured w) c (file w).

(** The test of the base-move wait on the pose of poll [n]. *)
Definition close_to (e : env) (target : vector6d_t) (n : nat) : bool :=
  Rltb (translation_distance (seen e n) target) 0.002.

(** A pose provider that answers (1000, 0, 0, 0, 0, 0) mm twice and the
    origin from then on, and the collaborators built on it. *)
Definition arrives_on_third_poll (n : nat) : list R :=
  if (n <? 2)%nat then [1000; 0; 0; 0; 0; 0] else [0; 0; 0; 0; 0; 0].

Definition third_poll_env : env :=
  mkEnv true true true None (Some arrives_on_third_poll) true.

(** The wait loops: [while (timeout > 0) { poll; if (close) break; sleep; timeout--; }].
    The value returned is [timeout] as the loop leaves it: positive after a
    [break], 0 when the attempts are exhausted. *)
Fixpoint wait_translation (e : env) (target : vector6d_t) (timeout : nat) : M nat :=
  match timeout with
  | O => ret O
  | S t =>
      cur <- get_current_pose_m_rad e ;;
      if Rltb (translation_distance cur target) 0.002 then ret timeout
      else sleep_ms 100 ;;; wait_translation e target t
  end.

Fixpoint wait_dither (e : env) (target : vector6d_t) (timeout : nat) : M nat :=
  match timeout with
  | O => ret O
  | S t =>
      cur <- get_current_pose_m_rad e ;;
      if Rltb (translation_distance cur target) 0.002
         && Rltb (rotation_distance cur target) 0.05
      then ret timeout
      else sleep_ms 100 ;;; wait_dither e target t
  end.

(** How the spec names the two ways a wait ends; the code tests
    [timeout <= 0]. *)
Inductive wait_status : Type := Converged | TimedOut.

Definition status_of (timeout : nat) : wait_status :=
  if (timeout <=? 0)%nat then TimedOut else Converged.

(** [Save Data]: the header and one line per record. *)
Definition save_data (e : env) (filename saved_prefix failed_prefix : string) : M unit :=
  fun w =>
    if file_opens e then
      write_log (LogSaved saved_prefix filename)
        (mkWorld (polls w) (scripts w) (log w) (data_lines w) (captured w)
                 (clock_ms w) (Some (filename, data_lines w)))
    else write_log (LogSaved failed_prefix filename) w.

(** Body of the motion loop of [run_calibration] for [points[i]]; the boolean
    tells whether the loop goes on ([false] is the [break]). *)
Definition grid_point (e : env) (i : nat) (p : vector6d_t) : M bool :=
  let point_idx := (i + 1)%nat in
  write_log (LogMoving point_idx) ;;;
  sendScript (movel p MOVE_ACCEL MOVE_SPEED) ;;;
  timeout <- wait_translation e p 100 ;;
  if (timeout <=? 0)%nat then
    log_text "Timeout waiting for robot to reach point" ;;; ret false
  else
    sleep_ms 500 ;;;
    current_pose <- get_current_pose_m_rad e ;;
    push_data_line point_idx current_pose ;;;
    write_log (LogPointData point_idx current_pose) ;;;
    log_text "Triggering Camera Capture (Callback)..." ;;;
    trigger_capture e "Capture callback error: " point_idx ;;;
    log_text "Capture Done." ;;;
    ret true.

Fixpoint grid_loop (e : env) (i : nat) (points : list vector6d_t) : M unit :=
  match points with
  | [] => ret tt
  | p :: rest =>
      continue <- grid_point e i p ;;
      if continue then grid_loop e (S i) rest else ret tt
  end.

Definition run_calibration (e : env) : M unit :=
  if negb (connected e) then log_text "Error: Not connected (nullptr check)"
  else if negb (power_on_ok e) then log_text "Failed to power on"
  else if negb (brake_release_ok e) then log_text "Failed to release brake"
  else
    log_text "[C++] Starting 9-Point Calibration (YOZ Plane, Lens X+)..." ;;;
    log_text "Using External Pose Data from Python (RTSI Bypass)" ;;;
    center_pose <- get_current_pose_m_rad e ;;
    grid_loop e 0 (grid_points center_pose) ;;;
    save_data e "workspace/calibration_data.txt"
              "Calibration data saved to: " "Failed to open file for writing: " ;;;
    log_text "Calibration finished. Returning to center..." ;;;
    sendScript (movel center_pose 0.5 0.2).

(** The array [p_dither] once step 2 has run: the six cells when every
    write was inside the array, and no result when a write went past its
    end. *)
Definition written (s : dither_store) : M vector6d_t :=
  fun w => match s with
           | Cells p => Done p w
           | PastEnd _ _ _ => Undefined
           end.

(** Body of the motion loop of [run_3d_calibration] for [targets[i]]. *)
Definition pyramid_point (e : env) (layers : Z) (tilt_angle : R) (a : axes)
    (total i : nat) (target : vector6d_t) : M unit :=
  let point_idx := (i + 1)%nat in
  write_log (LogProcessing point_idx total) ;;;
  sendScript (movel target MOVE_ACCEL MOVE_SPEED) ;;;
  _ <- wait_translation e target 200 ;;
  p_dither <- written (dither layers tilt_angle a i target) ;;
  log_text " - Adjusting Orientation..." ;;;
  sendScript (movel p_dither 0.5 0.1) ;;;
  _ <- wait_dither e p_dither 50 ;;
  sleep_ms 1500 ;;;
  current_pose <- get_current_pose_m_rad e ;;
  push_data_line point_idx current_pose ;;;
  write_log (LogPointData point_idx current_pose) ;;;
  log_text "Triggering Capture..." ;;;
  trigger_capture e "Capture error: " point_idx ;;;
  log_text " - Restoring..." ;;;
  sendScript (movel target MOVE_ACCEL MOVE_SPEED) ;;;
  _ <- wait_translation e target 50 ;;
  ret tt.

Fixpoint pyramid_loop (e : env) (layers : Z) (tilt_angle : R) (a : axes)
    (total i : nat) (targets : list vector6d_t) : M unit :=
  match targets with
  | [] => ret tt
  | target :: rest =>
      pyramid_point e layers tilt_angle a total i target ;;;
      pyramid_loop e layers tilt_angle a total (S i) rest
  end.

Definition run_3d_calibration (layers : Z)
    (base_width top_width height tilt_angle : R) (direction : string)
    (e : env) : M unit :=
  if negb (connected e) then log_text "Error: Not connected (nullptr check)"
  else if negb (power_on_ok e) then log_text "Failed to power on"
  else if negb (brake_release_ok e) then log_text "Failed to release brake"
  else
    log_text "[C++] Starting 3D Pyramid Calibration..." ;;;
    write_log (LogInfo layers base_width top_width height tilt_angle direction) ;;;
    center_pose <- get_current_pose_m_rad e ;;
    let targets :=
      pyramid_targets center_pose direction layers base_width top_width height in
    pyramid_loop e layers tilt_angle (direction_axes direction)
                 (List.length targets) 0 targets ;;;
    save_data e "workspace/calibration_3d_data.txt"
              "3D Calibration data saved to: " "Failed to open file: " ;;;
    log_text "Calibration finished. Returning to center..." ;;;
    sendScript (movel center_pose 0.5 0.2).

(** *** Vocabulary of the statements about the runs *)

(** The capture callback raises nothing but exceptions derived from
    [std::exception]. *)
Definition std_only (e : env) : Prop :=
  forall cb idx, capture_callback e = Some cb -> cb idx <> Raised ForeignException.

(** A world without its log: polls, scripts, records, capture calls, clock
    and file. *)
Definition erase_log (w : world) : world :=
  mkWorld (polls w) (scripts w) [] (data_lines w) (captured w) (clock_ms w) (file w).

(** What the guarded capture of point [idx] adds to the log and to the
    capture calls. *)
Definition capture_log (e : env) (prefix : string) (idx : nat) : list log_entry :=
  match capture_callback e with
  | Some cb =>
      match cb idx with
      | Raised (StdException what) => [LogCaptureError prefix what]
      | _ => []
      end
  | None => []
  end.

Definition capture_calls (e : env) (idx : nat) : list nat :=
  match capture_callback e with
  | Some _ => [idx]
  | None => []
  end.

(** The world once the move to [points[i]] is announced and sent. *)
Definition moving_to (i : nat) (p : vector6d_t) (w : world) : world :=
  mkWorld (polls w) (scripts w ++ [movel p MOVE_ACCEL MOVE_SPEED])
          (log w ++ [LogMoving (i + 1)]) (data_lines w) (captured w)
          (clock_ms w) (file w).

(** The world once the base-move wait has run out: the timeout is logged. *)
Definition timed_out (w : world) : world :=
  mkWorld (polls w) (scripts w)
          (log w ++ [LogText "Timeout waiting for robot to reach point"])
          (data_lines w) (captured w) (clock_ms w) (file w).

(** The world at the entry of the motion loop of [run_calibration]: the two
    opening messages are logged and the centre pose is polled. *)
Definition grid_started (e : env) (w : world) : world :=
  mkWorld (next_poll e (polls w)) (scripts w)
          (log w ++ [LogText "[C++] Starting 9-Point Calibration (YOZ Plane, Lens X+)...";
                     LogText "Using External Pose Data from Python (RTSI Bypass)"])
          (data_lines w) (captured w) (clock_ms w) (file w).

(** The points [points[i]], [points[i+1]], ... are processed one after the
    other without a [break], from world [w] to world [w']. *)
Inductive grid_passes (e : env) : nat -> list vector6d_t -> world -> world -> Prop :=
| passes_nil (i : nat) (w : world) : grid_passes e i [] w w
| passes_cons (i : nat) (p : vector6d_t) (rest : list vector6d_t) (w w1 w2 : world) :
    grid_point e i p w = Done true w1 ->
    grid_passes e (S i) rest w1 w2 ->
    grid_passes e i (p :: rest) w w2.

(** The records of the points i+1, i+2, ..., each sampled at the given poll. *)
Fixpoint records_from (e : env) (i : nat) (samples : list nat) : list (nat * vector6d_t) :=
  match samples with
  | [] => []
  | s :: rest => ((i + 1)%nat, seen e s) :: records_from e (S i) rest
  end.

(** The scripts sent for the targets of index i, i+1, ...: base move, dither
    move, restoring move. *)
Fixpoint pyramid_scripts (layers : Z) (tilt_angle : R) (a : axes) (i : nat)
    (targets : list vector6d_t) : list script :=
  match targets with
  | [] => []
  | target :: rest =>
      [movel target MOVE_ACCEL MOVE_SPEED;
       movel (cells (dither layers tilt_angle a i target)) 0.5 0.1;
       movel target MOVE_ACCEL MOVE_SPEED]
      ++ pyramid_scripts layers tilt_angle a (S i) rest
  end.

(** The pose callback is absent, or each of its answers has fewer than six
    values. *)
Definition pose_callback_unusable (e : env) : Prop :=
  match get_pose_callback e with
  | None => True
  | Some f => forall n, (List.length (f n) < 6)%nat
  end.

(** What is expected of the grid run when the pose callback is missing: the run
    goes through its nine points and records each of them. *)
Definition grid_run_completes (e : env) : Prop :=
  exists wf, run_calibration e initial_world = Done tt wf /\
             map fst (data_lines wf) = seq 1 9.

(** Collaborators with no pose callback and no capture callback. *)
Definition no_pose_env : env := mkEnv true true true None None true.

(** A capture callback that fails at point 2, and a pose provider that
    stays at the origin. *)
Definition fails_at_2 (idx : nat) : call_result :=
  if (idx =? 2)%nat then Raised (StdException "camera busy") else Returned.

Definition failing_capture_env : env :=
  mkEnv true true true (Some fails_at_2) (Some (fun _ => [0; 0; 0; 0; 0; 0])) true.

(** A pose provider that reports the origin once and the first grid point
    (0, -50, -50) mm from then on. *)
Definition stuck_at_first (n : nat) : list R :=
  if (n =? 0)%nat then [0; 0; 0; 0; 0; 0] else [0; -50; -50; 0; 0; 0].

Definition stuck_env : env := mkEnv true true true None (Some stuck_at_first) true.

End Engine.

(** ** Accounting of a run: what it costs and what it leaves alone *)

Module Accounting.

Import Geometry Engine.

(** The world a computation ends in, when it completes or throws; a
    computation that reaches undefined behaviour has none. *)
Definition world_of {A : Type} (o : outcome A) : option world :=
  match o with
  | Done _ w => Some w
  | Thrown _ w => Some w
  | Undefined => None
  end.

(** The computation stays defined and sleeps at most [c] milliseconds,
    whether it completes or throws. *)
Definition sleeps_at_most {A : Type} (m : M A) (c : nat) : Prop :=
  forall w, exists w', world_of (m w) = Some w' /\
                       (clock_ms w <= clock_ms w' <= clock_ms w + c)%nat.

(** The computation stays defined and leaves the file as it is, whether it
    completes or throws. *)
Definition keeps_file {A : Type} (m : M A) : Prop :=
  forall w, exists w', world_of (m w) = Some w' /\ file w' = file w.

(** The test of the dither wait on the pose of poll [n]: translation and
    rotation both within tolerance. *)
Definition settled (e : env) (target : vector6d_t) (n : nat) : bool :=
  Rltb (translation_distance (seen e n) target) 0.002
  && Rltb (rotation_distance (seen e n) target) 0.05.

(** *** The polls of a run

    The pose provider is asked at three places: in the waits, for the centre
    pose and for the pose that is recorded.  The functions below follow the
    loops of the two runs and count the calls made, so that the call whose
    answer is recorded at a point can be named. *)

(** A base-move wait of [timeout] attempts that starts when [n] calls have
    been made: the attempts left when it ends, and the calls made by then. *)
Fixpoint translation_wait_end (e : env) (target : vector6d_t) (timeout n : nat)
    : nat * nat :=
  match timeout with
  | O => (O, n)
  | S t =>
      if close_to e target n then (timeout, next_poll e n)
      else translation_wait_end e target t (next_poll e n)
  end.

(** The same for a dither wait. *)
Fixpoint dither_wait_end (e : env) (target : vector6d_t) (timeout n : nat)
    : nat * nat :=
  match timeout with
  | O => (O, n)
  | S t =>
      if settled e target n then (timeout, next_poll e n)
      else dither_wait_end e target t (next_poll e n)
  end.

(** The motion loop of [run_calibration], entered at [points] when [n] calls
    have been made: for each point reached before the first base-move
    timeout, the number of the call whose answer is recorded (the call made
    once the wait has broken off and the settle time has passed). *)
Fixpoint grid_samples (e : env) (points : list vector6d_t) (n : nat) : list nat :=
  match points with
  | [] => []
  | p :: rest =>
      let wait := translation_wait_end e p 100 n in
      if (fst wait <=? 0)%nat then []
      else snd wait :: grid_samples e rest (next_poll e (snd wait))
  end.

(** One turn of the motion loop of [run_3d_calibration], for [targets[i]],
    entered when [n] calls have been made: the number of the call whose
    answer is recorded (the call made after the base-move wait, the dither
    wait and the stabilization), and the calls made when the restoring wait
    has ended. *)
Definition pyramid_point_polls (e : env) (layers : Z) (tilt_angle : R) (a : axes)
    (i : nat) (target : vector6d_t) (n : nat) : nat * nat :=
  let n1 := snd (translation_wait_end e target 200 n) in
  let p_dither := cells (dither layers tilt_angle a i target) in
  let n2 := snd (dither_wait_end e p_dither 50 n1) in
  (n2, snd (translation_wait_end e target 50 (next_poll e n2))).

(** The motion loop of [run_3d_calibration], entered at [targets[i]] when [n]
    calls have been made: for each target, the number of the call whose
    answer is recorded. *)
Fixpoint pyramid_samples (e : env) (layers : Z) (tilt_angle : R) (a : axes)
    (i : nat) (targets : list vector6d_t) (n : nat) : list nat :=
  match targets with
  | [] => []
  | target :: rest =>
      let turn := pyramid_point_polls e layers tilt_angle a i target n in
      fst turn :: pyramid_samples e layers tilt_angle a (S i) rest (snd turn)
  end.

(** What the spec says of a capture callback that raises during the pyramid
    run: no exception reaches the caller and the run ends with all its
    4 * layers records. *)
Definition capture_failure_absorbed (e : env) (layers : Z)
    (base_width top_width height tilt_angle : R) (direction : string) : Prop :=
  exists wf,
    run_3d_calibration layers base_width top_width height tilt_angle direction e
                       initial_world
    = Done tt wf /\
    map fst (data_lines wf) = seq 1 (Z.to_nat layers * 4).

(** A pose provider under which every base move of the grid arrives at once:
    it answers the centre (0,0,0,0,0,0) first and then, twice each, the nine
    grid points in millimetres. *)
Definition obedient_provider (n : nat) : list R :=
  match n with
  | O => [0; 0; 0; 0; 0; 0]
  | S m =>
      let o := nth (m / 2) grid9_offsets_mm (0, 0) in
      [0; fst o; snd o; 0; 0; 0]
  end.

Definition obedient_env : env :=
  mkEnv true true true None (Some obedient_provider) true.

(** The same provider, with the capture callback that fails at point 2. *)
Definition obedient_failing_env : env :=
  mkEnv true true true (Some fails_at_2) (Some obedient_provider) true.

(** A capture callback that throws something that is not a std::exception
    at the first point. *)
Definition foreign_env : env :=
  mkEnv true true true (Some (fun _ => Raised ForeignException)) None true.

End Accounting.

(** ** Controller: the class [EliteRobotController] *)

Module Controller.

Import Geometry.

(** An SDK call returns a value or throws. *)
Inductive call (A : Type) : Type :=
| Returns (a : A)
| Throws.
Arguments Returns {A} a.
Arguments Throws {A}.

(** How the SDK answers during one [connect]: the three constructors, the
    three [connect] calls, [powerOn] and [brakeRelease]. *)
Record sdk : Type := mkSdk {
  new_dashboard : call unit;
  new_primary : call unit;
  new_rtsi : call unit;
  dashboard_connect : call bool;
  primary_connect : call bool;
  rtsi_connect : call bool;
  dashboard_powerOn : call bool;
  dashboard_brakeRelease : call bool
}.

(** The scripts handed to [primary->sendScript], with their numbers kept
    instead of their decimal rendering. *)
Inductive command : Type :=
| MoveLAdd (offsets : vector6d_t) (a v : R)   (* movel(pose_add(get_actual_tcp_pose(), [..]), a=.., v=..) *)
| MoveL (pose : vector6d_t) (a v : R)         (* movel([..], a=.., v=..) *)
| StopJ (deceleration : R).                   (* stopj(2.0) *)

(** The members of the class.  A [unique_ptr] is kept as the boolean "is
    not null"; [sent] and [speed_scaling] list the calls made on the primary
    port and on the dashboard, oldest first. *)
Record controller : Type := mkController {
  robot_ip : string;
  dashboard : bool;
  primary : bool;
  rtsi : bool;
  is_connected : bool;
  global_speed : R;
  sent : list command;
  speed_scaling : list (option Z)
}.

(** The constructor: null pointers, [is_connected = false],
    [global_speed = 0.5]. *)
Definition initial : controller :=
  mkController "" false false false false 0.5 [] [].

(** A method either returns or dereferences a null pointer. *)
Inductive result (A : Type) : Type :=
| Value (a : A)
| NullDeref.
Arguments Value {A} a.
Arguments NullDeref {A}.

(** [connect]: the body of the [try] leaves by the first call that throws,
    and [catch (...)] returns false with the members as they are then. *)
Definition connect (ip : string) (k : sdk) (c : controller) : bool * controller :=
  let c := mkController ip (dashboard c) (primary c) (rtsi c) (is_connected c)
                        (global_speed c) (sent c) (speed_scaling c) in
  match new_dashboard k with
  | Throws => (false, c)
  | Returns _ =>
  let c := mkController ip true (primary c) (rtsi c) (is_connected c)
                        (global_speed c) (sent c) (speed_scaling c) in
  match new_primary k with
  | Throws => (false, c)
  | Returns _ =>
  let c := mkController ip true true (rtsi c) (is_connected c)
                        (global_speed c) (sent c) (speed_scaling c) in
  match new_rtsi k with
  | Throws => (false, c)
  | Returns _ =>
  let c := mkController ip true true true (is_connected c)
                        (global_speed c) (sent c) (speed_scaling c) in
  match dashboard_connect k with
  | Throws => (false, c)
  | Returns db_ok =>
  match primary_connect k with
  | Throws => (false, c)
  | Returns pri_ok =>
  match rtsi_connect k with
  | Throws => (false, c)
  | Returns rtsi_ok =>
      if db_ok && pri_ok then
        let c := mkController ip true true true true
                              (global_speed c) (sent c) (speed_scaling c) in
        match dashboard_powerOn k with
        | Throws => (false, c)
        | Returns _ =>
            match dashboard_brakeRelease k with
            | Throws => (false, c)
            | Returns _ => (true, c)
            end
        end
      else (false, c)
  end end end end end end.

Definition disconnect (c : controller) : controller :=
  mkController (robot_ip c) (dashboard c) (primary c) (rtsi c) false
               (global_speed c) (sent c) (speed_scaling c).

Definition isConnected (c : controller) : bool := is_connected c.

(** [getPosition]: [rtsi_up] is the answer of [rtsi->isConnected()] and
    [pose] that of [rtsi->getActualTCPPose()], in m and rad. *)
Definition getPosition (rtsi_up : bool) (pose : list R) (c : controller) : list R :=
  if negb (rtsi c) || negb rtsi_up then []
  else if (List.length pose <? 6)%nat then []
  else [nth 0 pose 0 * 1000.0; nth 1 pose 0 * 1000.0; nth 2 pose 0 * 1000.0;
        nth 3 pose 0 * 57.29578; nth 4 pose 0 * 57.29578; nth 5 pose 0 * 57.29578].

Definition getRobotState (c : controller) : string :=
  if negb (dashboard c) then "Unknown"
  else if is_connected c then "Connected" else "Disconnected".

(** [(int)percent]: the conversion truncates towards zero.  When the
    truncated value does not fit a 32-bit [int], C++ leaves the result of the
    conversion undefined, and the model gives none. *)
Definition trunc (r : R) : option Z :=
  let t := if Rle_dec 0 r then Int_part r else (- Int_part (- r))%Z in
  if ((-2147483648 <=? t) && (t <=? 2147483647))%Z then Some t else None.

Definition setSpeed (percent : R) (c : controller) : controller :=
  let speed := Rmax 0.01 (Rmin 1.0 (percent / 100.0)) in
  mkController (robot_ip c) (dashboard c) (primary c) (rtsi c) (is_connected c)
               speed (sent c)
               (if dashboard c then speed_scaling c ++ [trunc percent]
                else speed_scaling c).

(** [primary->sendScript(script)], whose answer is [accepted]. *)
Definition sendScript (cmd : command) (accepted : bool) (c : controller)
  : bool * controller :=
  (accepted,
   mkController (robot_ip c) (dashboard c) (primary c) (rtsi c) (is_connected c)
                (global_speed c) (sent c ++ [cmd]) (speed_scaling c)).

(** [jog] as [elite_ext.cpp] has it: the current pose is read through [rtsi]
    without a null test, and only the axes 0, 1, 2 get an offset. *)
Definition jog (axis direction : Z) (distance_mm : R) (pose : list R)
    (accepted : bool) (c : controller) : result (bool * controller) :=
  if negb (is_connected c) || negb (primary c) then Value (false, c)
  else if negb (rtsi c) then NullDeref
  else if (List.length pose <? 6)%nat then Value (false, c)
  else
    let dist_m := distance_mm / 1000.0 in
    let speed_val := global_speed c in
    let offsets := zero_pose in
    let offsets :=
      if ((0 <=? axis) && (axis <? 3))%Z
      then set_at offsets (Z.to_nat axis) (IZR direction * dist_m)
      else offsets in
    Value (sendScript (MoveLAdd offsets 0.5 speed_val) accepted c).

(** [jog] as the separate implementation file of the class has it: no pose
    is read, and the six axes 0..5 get an offset. *)
Definition jog6 (axis direction : Z) (distance_mm : R)
    (accepted : bool) (c : controller) : bool * controller :=
  if negb (is_connected c) || negb (primary c) then (false, c)
  else
    let dist_m := distance_mm / 1000.0 in
    let speed_val := global_speed c in
    let offsets := zero_pose in
    let offsets :=
      if ((0 <=? axis) && (axis <? 6))%Z
      then set_at offsets (Z.to_nat axis) (IZR direction * dist_m)
      else offsets in
    sendScript (MoveLAdd offsets 0.5 speed_val) accepted c.

Definition moveTo (x y z rx ry rz : R) (accepted : bool) (c : controller)
  : bool * controller :=
  if negb (is_connected c) || negb (primary c) then (false, c)
  else
    sendScript (MoveL (mkPose (x / 1000.0) (y / 1000.0) (z / 1000.0)
                              (rx / 57.29578) (ry / 57.29578) (rz / 57.29578))
                      0.5 (global_speed c))
               accepted c.

Definition stop (accepted : bool) (c : controller) : bool * controller :=
  if negb (primary c) then (false, c)
  else sendScript (StopJ 2.0) accepted c.

(** The calls a user of the class can make, with the answers of the SDK. *)
Inductive operation : Type :=
| OpConnect (ip : string) (k : sdk)
| OpDisconnect
| OpSetSpeed (percent : R)
| OpJog (axis direction : Z) (distance_mm : R) (pose : list R) (accepted : bool)
| OpMoveTo (x y z rx ry rz : R) (accepted : bool)
| OpStop (accepted : bool).

(** One call; [None] when it dereferences a null pointer. *)
Definition apply_operation (o : operation) (c : controller) : option controller :=
  match o with
  | OpConnect ip k => Some (snd (connect ip k c))
  | OpDisconnect => Some (disconnect c)
  | OpSetSpeed percent => Some (setSpeed percent c)
  | OpJog axis direction distance_mm pose accepted =>
      match jog axis direction distance_mm pose accepted c with
      | Value r => Some (snd r)
      | NullDeref => None
      end
  | OpMoveTo x y z rx ry rz accepted => Some (snd (moveTo x y z rx ry rz accepted c))
  | OpStop accepted => Some (snd (stop accepted c))
  end.

Fixpoint run_operations (ops : list operation) (c : controller) : option controller :=
  match ops with
  | [] => Some c
  | o :: rest =>
      match apply_operation o c with
      | Some c' => run_operations rest c'
      | None => None
      end
  end.

(** [is_connected] is only true when the three pointers are set. *)
Definition pointers_behind_flag (c : controller) : Prop :=
  is_connected c = true -> dashboard c = true /\ primary c = true /\ rtsi c = true.

(** The speed a command carries, when it carries one. *)
Definition command_speed (cmd : command) : option R :=
  match cmd with
  | MoveLAdd _ _ v => Some v
  | MoveL _ _ v => Some v
  | StopJ _ => None
  end.

(** The speed is within [0.01, 1], and so is the speed of every command
    sent. *)
Definition speed_in_range (c : controller) : Prop :=
  0.01 <= global_speed c <= 1 /\
  forall cmd v, In cmd (sent c) -> command_speed cmd = Some v -> 0.01 <= v <= 1.

(** An SDK under which [connect] succeeds, and one whose dashboard refuses. *)
Definition sdk_ok : sdk :=
  mkSdk (Returns tt) (Returns tt) (Returns tt)
        (Returns true) (Returns true) (Returns false) (Returns false) (Returns true).

Definition sdk_refused : sdk :=
  mkSdk (Returns tt) (Returns tt) (Returns tt)
        (Returns false) (Returns true) (Returns true) (Returns true) (Returns true).

End Controller.

(** ** Vision: the region of interest and the match filter of the vision
    extension ([roi_edge_detection], [template_matching]) *)

Module Vision.

(** The four [int] parameters roi_x, roi_y, roi_width, roi_height. *)
Record roi : Type := mkRoi {
  roi_x : Z;
  roi_y : Z;
  roi_width : Z;
  roi_height : Z
}.

(** [Clamp ROI]: the four assignments made on an image of [cols] columns and
    [rows] rows. *)
Definition clamp_roi (cols rows : Z) (r : roi) : roi :=
  let x := Z.max 0 (Z.min (roi_x r) (cols - 1)) in
  let y := Z.max 0 (Z.min (roi_y r) (rows - 1)) in
  let w := Z.min (roi_width r) (cols - x) in
  let h := Z.min (roi_height r) (rows - y) in
  mkRoi x y w h.

(** The region [template_matching] works on: the whole image when the width
    or the height asked for is not positive, the clamped region otherwise. *)
Definition template_roi (cols rows : Z) (r : roi) : roi :=
  if ((roi_width r <=? 0) || (roi_height r <=? 0))%Z
  then mkRoi 0 0 cols rows
  else clamp_roi cols rows r.

(** The test of one score; [sqdiff] tells whether the method is TM_SQDIFF or
    TM_SQDIFF_NORMED.  A [float] is a real number here. *)
Definition match_found (sqdiff : bool) (threshold val : R) : bool :=
  if sqdiff then Rleb val (1.0 - threshold) else Rgeb val threshold.

(** The loop over x of the multiple-match branch, on one row of the result
    matrix, from column [x] on. *)
Fixpoint scan_row (sqdiff : bool) (threshold : R) (rx ry : Z) (y x : Z)
    (row : list R) : list (Z * Z * R) :=
  match row with
  | [] => []
  | val :: rest =>
      (if match_found sqdiff threshold val then [((x + rx)%Z, (y + ry)%Z, val)] else [])
      ++ scan_row sqdiff threshold rx ry y (x + 1) rest
  end.

(** The loop over y, from row [y] on. *)
Fixpoint scan_rows (sqdiff : bool) (threshold : R) (rx ry : Z) (y : Z)
    (result : list (list R)) : list (Z * Z * R) :=
  match result with
  | [] => []
  | row :: rest =>
      scan_row sqdiff threshold rx ry y 0 row
      ++ scan_rows sqdiff threshold rx ry (y + 1) rest
  end.

(** The matches of the multiple-match branch for the result matrix of
    [cv::matchTemplate], given by its rows. *)
Definition multiple_matches (sqdiff : bool) (threshold : R) (r : roi)
    (result : list (list R)) : list (Z * Z * R) :=
  scan_rows sqdiff threshold (roi_x r) (roi_y r) 0 result.

(** The single-match branch; the extremes and their places are the answer of
    [cv::minMaxLoc]. *)
Definition single_match (sqdiff : bool) (threshold : R) (r : roi)
    (min_val max_val : R) (min_loc max_loc : Z * Z) : list (Z * Z * R) :=
  let confidence := if sqdiff then 1.0 - min_val else max_val in
  if Rgeb confidence threshold then
    let loc := if sqdiff then min_loc else max_loc in
    [((fst loc + roi_x r)%Z, (snd loc + roi_y r)%Z, confidence)]
  else [].

End Vision.

(** * Properties *)

(** ** Comparisons *)

Lemma Rltb_true (a b : R) : a < b -> Rltb a b = true.
Proof. intro H. unfold Rltb. destruct (Rlt_dec a b); [reflexivity | contradiction]. Qed.

Lemma Rltb_false (a b : R) : b <= a -> Rltb a b = false.
Proof. intro H. unfold Rltb. destruct (Rlt_dec a b); [lra | reflexivity]. Qed.

Lemma Rleb_true (a b : R) : a <= b -> Rleb a b = true.
Proof. intro H. unfold Rleb. destruct (Rle_dec a b); [reflexivity | contradiction]. Qed.

Lemma Rleb_false (a b : R) : b < a -> Rleb a b = false.
Proof. intro H. unfold Rleb. destruct (Rle_dec a b); [lra | reflexivity]. Qed.

Lemma Rltb_true_lt (a b : R) : Rltb a b = true -> a < b.
Proof. unfold Rltb. destruct (Rlt_dec a b); [lra | discriminate]. Qed.

Lemma Rltb_nspec_le (a b : R) : Rltb a b = false -> b <= a.
Proof. unfold Rltb. destruct (Rlt_dec a b); [discriminate | lra]. Qed.

Lemma Rleb_nspec_lt (a b : R) : Rleb a b = false -> b < a.
Proof. unfold Rleb. destruct (Rle_dec a b); [discriminate | lra]. Qed.

Lemma Rleb_spec_le (a b : R) : Rleb a b = true -> a <= b.
Proof. unfold Rleb. destruct (Rle_dec a b); [lra | discriminate]. Qed.

Lemma Rltb_sqrt (a b : R) : 0 <= a -> 0 <= b -> Rltb (sqrt a) b = Rltb a (b * b).
Proof.
  intros Ha Hb. unfold Rltb.
  destruct (Rlt_dec (sqrt a) b) as [H | H]; destruct (Rlt_dec a (b * b)) as [H' | H'];
    try reflexivity; exfalso.
  - apply H'. rewrite <- (sqrt_sqrt a Ha).
    apply Rmult_le_0_lt_compat; auto using sqrt_pos.
  - apply H. rewrite <- (sqrt_square b Hb). apply sqrt_lt_1; auto.
    apply Rmult_le_pos; assumption.
Qed.

(** ** PoseMath *)

Section PoseMathFacts.

Import PoseMath.

Lemma sqrt_of_square (a b : R) : 0 <= b -> a = b * b -> sqrt a = b.
Proof. intros Hb ->. apply sqrt_square, Hb. Qed.

Lemma matrixToRotVec_quarter_turn_z :
  rotvec_of quarter_turn_z = [0; 0; PI / 2].
Proof.
  unfold rotvec_of, quarter_turn_z, matrixToRotVec; cbn [x y z].
  unfold Rgeb, Rgtb. rewrite Rleb_false by lra. rewrite Rleb_false by lra.
  replace ((0 + 0 + 1 - 1.0) / 2.0) with 0 by lra.
  rewrite acos_0, sin_PI2.
  unfold normalize, length; cbn [x y z].
  assert (Hl : sqrt ((0 - 0) / (2.0 * 1) * ((0 - 0) / (2.0 * 1)) +
                     (0 - 0) / (2.0 * 1) * ((0 - 0) / (2.0 * 1)) +
                     (1 - -1) / (2.0 * 1) * ((1 - -1) / (2.0 * 1))) = 1).
  { apply sqrt_of_square; lra. }
  rewrite Hl. rewrite Rltb_false by lra. cbn [x y z].
  repeat (apply f_equal2; [lra | ]); reflexivity.
Qed.

Lemma rotVecToMatrix_quarter_turn_z :
  rotVecToMatrix 0 0 (PI / 2) = transpose quarter_turn_z.
Proof.
  pose proof PI2_1 as Hone.
  unfold rotVecToMatrix, transpose, quarter_turn_z; cbn [x y z].
  assert (Hth : sqrt (0 * 0 + 0 * 0 + PI / 2 * (PI / 2)) = PI / 2).
  { apply sqrt_of_square; lra. }
  rewrite Hth, cos_PI2, sin_PI2.
  rewrite Rltb_false by lra.
  assert (Hk : PI / 2 / (PI / 2) = 1) by (field; lra).
  rewrite Hk.
  repeat f_equal; lra.
Qed.

(** The transposition is not particular to the quarter turn: every rotation
    about z by an angle between 1e-6 and pi whose trace is in the general
    branch comes back transposed. *)
Lemma roundtrip_rotation_z (theta : R) :
  1e-6 <= theta < PI ->
  -1 + 1e-6 < trace_of (rotation_z theta) < 3 - 1e-6 ->
  roundtrip_of (rotation_z theta) = transpose (rotation_z theta).
Proof.
  intros [Hlo Hhi] Htrace.
  unfold trace_of, rotation_z, trace in Htrace; cbn [x y z] in Htrace.
  assert (Hsin : 0 < sin theta) by (apply sin_gt_0; lra).
  assert (Hvec : matrixToRotVec (mkVec3 (cos theta) (sin theta) 0)
                                (mkVec3 (- sin theta) (cos theta) 0)
                                (mkVec3 0 0 1) = [0; 0; theta]).
  { unfold matrixToRotVec; cbn [x y z].
    unfold Rgeb. rewrite Rleb_false by lra. rewrite Rleb_false by lra.
    replace ((cos theta + cos theta + 1 - 1.0) / 2.0) with (cos theta) by lra.
    rewrite acos_cos by lra.
    replace 2.0 with 2 by lra.
    replace ((0 - 0) / (2 * sin theta)) with 0 by (field; lra).
    replace ((sin theta - - sin theta) / (2 * sin theta)) with 1 by (field; lra).
    unfold normalize, length; cbn [x y z].
    replace (sqrt (0 * 0 + 0 * 0 + 1 * 1)) with 1
      by (symmetry; apply sqrt_of_square; lra).
    rewrite Rltb_false by lra. cbn [x y z].
    repeat (apply f_equal2; [lra |]); reflexivity. }
  unfold roundtrip_of, rotation_z, roundtrip. rewrite Hvec.
  unfold rotVecToMatrix, transpose; cbn [x y z].
  replace (sqrt (0 * 0 + 0 * 0 + theta * theta)) with theta
    by (symmetry; apply sqrt_of_square; lra).
  rewrite Rltb_false by lra.
  replace (theta / theta) with 1 by (field; lra).
  repeat f_equal; lra.
Qed.

(** C3 (code at the failing input).  The quarter turn about z is a rotation
    matrix whose trace, 1, lies strictly between -1 + 1e-6 and 3 - 1e-6;
    [matrixToRotVec] reads its vectors as columns and [rotVecToMatrix] writes
    the rows of Rodrigues' matrix into its vectors, so the round trip returns
    the transposed matrix, which is not within 1e-6 of the input (two entries
    differ by 2). *)
Theorem roundtrip_quarter_turn_is_transposed :
  is_rotation_matrix quarter_turn_z /\
  -1 + 1e-6 < trace_of quarter_turn_z < 3 - 1e-6 /\
  roundtrip_of quarter_turn_z = transpose quarter_turn_z /\
  ~ mat_within 1e-6 (roundtrip_of quarter_turn_z) quarter_turn_z.
Proof.
  assert (Hrt : roundtrip_of quarter_turn_z = transpose quarter_turn_z).
  { pose proof matrixToRotVec_quarter_turn_z as H.
    unfold roundtrip_of, roundtrip. unfold rotvec_of in H.
    unfold quarter_turn_z in H |- * at 1. rewrite H.
    apply rotVecToMatrix_quarter_turn_z. }
  split; [| split; [| split]].
  - unfold is_rotation_matrix, quarter_turn_z, is_rotation, dot, cross; cbn [x y z].
    repeat split; try lra. f_equal; lra.
  - unfold trace_of, quarter_turn_z, trace; cbn [x y z]. lra.
  - exact Hrt.
  - rewrite Hrt. unfold mat_within, transpose, quarter_turn_z, vec_within; cbn [x y z].
    intros [[_ [H _]] _]. revert H.
    unfold Rabs. destruct (Rcase_abs (-1 - 1)); lra.
Qed.

Lemma length_ge_1 (a b c : R) : 1 <= a * a + b * b + c * c ->
  1 <= sqrt (a * a + b * b + c * c).
Proof.
  intro H. rewrite <- sqrt_1. apply sqrt_le_1_alt, H.
Qed.

Lemma matrixToRotVec_half_turn_4_3_0 :
  exists c : R, 0 < c /\ rotvec_of (half_turn axis_4_3_0) = [2 * c; 3 * c; 0].
Proof.
  unfold rotvec_of, half_turn, axis_4_3_0, matrixToRotVec; cbn [x y z].
  unfold Rgeb, Rgtb.
  rewrite Rleb_false by lra. rewrite Rleb_true by lra.
  rewrite !Rltb_true by lra. cbn [andb].
  assert (Hs : sqrt ((2 * (4 / 5) * (4 / 5) - 1 + 1) / 2) = 4 / 5).
  { apply sqrt_of_square; lra. }
  rewrite Hs.
  unfold normalize, length; cbn [x y z].
  set (l := sqrt _).
  assert (Hl : 1 <= l).
  { subst l. apply length_ge_1. lra. }
  rewrite Rltb_false by lra. cbn [x y z].
  exists (2 / 5 / l * 3.141592653589793). split.
  - apply Rmult_lt_0_compat; [| lra].
    apply Rdiv_lt_0_compat; lra.
  - repeat (apply f_equal2; [field; lra | ]); reflexivity.
Qed.

(** C4 (code at the failing input).  For the unit axis k = (4/5, 3/5, 0) the
    matrix of the half turn about k has trace -1 and takes the singular
    branch; the off-diagonal sums are divided by 2 sqrt((r11+1)/2) where
    the axis needs 4 sqrt((r11+1)/2), so the vector returned is a positive
    multiple of (2, 3, 0), which is not parallel to k. *)
Theorem half_turn_axis_not_recovered :
  dot axis_4_3_0 axis_4_3_0 = 1 /\
  is_rotation_matrix (half_turn axis_4_3_0) /\
  trace_of (half_turn axis_4_3_0) <= -1 + 1e-6 /\
  (exists c : R, 0 < c /\ rotvec_of (half_turn axis_4_3_0) = [2 * c; 3 * c; 0]) /\
  ~ parallel (vec_of_list (rotvec_of (half_turn axis_4_3_0))) axis_4_3_0.
Proof.
  split; [| split; [| split; [| split]]].
  - unfold dot, axis_4_3_0; cbn [x y z]. lra.
  - unfold is_rotation_matrix, half_turn, axis_4_3_0, is_rotation, dot, cross;
      cbn [x y z].
    repeat split; try lra. f_equal; lra.
  - unfold trace_of, half_turn, axis_4_3_0, trace; cbn [x y z]. lra.
  - exact matrixToRotVec_half_turn_4_3_0.
  - destruct matrixToRotVec_half_turn_4_3_0 as [c [Hc ->]].
    unfold parallel, vec_of_list, cross, axis_4_3_0; cbn [x y z nth].
    intro H. injection H as _ _ H. lra.
Qed.

End PoseMathFacts.

(** ** Geometry *)

Section GeometryFacts.

Import Geometry.

Lemma pose_eq (a b : vector6d_t) :
  v0 a = v0 b -> v1 a = v1 b -> v2 a = v2 b ->
  v3 a = v3 b -> v4 a = v4 b -> v5 a = v5 b -> a = b.
Proof.
  destruct a, b; cbn. intros -> -> -> -> -> ->. reflexivity.
Qed.

Ltac pose_arith := apply pose_eq; cbn; lra.

Lemma length_flat_map_const {A B : Type} (f : A -> list B) (n : nat) (l : list A) :
  (forall a, List.length (f a) = n) -> List.length (flat_map f l) = (List.length l * n)%nat.
Proof.
  intro Hf. induction l as [| a l IH]; cbn; [reflexivity |].
  rewrite length_app, Hf, IH. reflexivity.
Qed.

Lemma grid_points_length (center_pose : vector6d_t) :
  List.length (grid_points center_pose) = 9%nat.
Proof. reflexivity. Qed.

Lemma pyramid_targets_length (center_pose : vector6d_t) (direction : string)
    (layers : Z) (base_width top_width height : R) :
  List.length (pyramid_targets center_pose direction layers base_width top_width height)
  = (Z.to_nat layers * 4)%nat.
Proof.
  unfold pyramid_targets.
  rewrite (length_flat_map_const _ 4).
  - rewrite length_seq. reflexivity.
  - intro i. rewrite length_map, length_seq. reflexivity.
Qed.

(** C5.  With the 50 mm step and the centre pose (0,0,0,0,0,0) the grid is the
    list of nine poses (0, dy, dz, 0, 0, 0) with dy, dz in {-50, 0, +50} mm,
    in the order of the nested loops: dz outside, dy inside, so that Y varies
    fastest and Z slowest; X and the orientation are those of the centre.
    (0,0,0,0,0,0) is the centre the run computes from a pose callback that
    answers six zeros. *)
Theorem grid9_at_origin :
  GRID_STEP * 1000 = 50 /\
  Engine.pose_m_rad [0; 0; 0; 0; 0; 0] = zero_pose /\
  grid_points zero_pose
  = map (fun o => mkPose 0 (fst o / 1000) (snd o / 1000) 0 0 0) grid9_offsets_mm.
Proof.
  split; [unfold GRID_STEP; lra |].
  split; [unfold Engine.pose_m_rad, zero_pose; cbn; pose_arith |].
  unfold grid_points, steps, GRID_STEP, grid9_offsets_mm, zero_pose.
  cbn [flat_map map app get set_at v0 v1 v2 v3 v4 v5 fst snd].
  repeat (apply f_equal2; [pose_arith |]). reflexivity.
Qed.

(** C6.  The grid always has 9 points, and the pyramid with [layers >= 1] has
    [layers * 4] of them. *)
Theorem target_count :
  forall (center_pose : vector6d_t) (direction : string) (layers : Z)
         (base_width top_width height : R),
    List.length (grid_points center_pose) = 9%nat /\
    ((1 <= layers)%Z ->
     Z.of_nat (List.length
       (pyramid_targets center_pose direction layers base_width top_width height))
     = (layers * 4)%Z).
Proof.
  intros. split; [apply grid_points_length |].
  intro Hl. rewrite pyramid_targets_length. lia.
Qed.

Lemma target_count_witness :
  (1 <= 3)%Z /\
  Z.of_nat (List.length (pyramid_targets zero_pose "Z+" 3 100 50 50)) = 12%Z.
Proof.
  split; [lia |].
  apply (proj2 (target_count zero_pose "Z+" 3 100 50 50)). lia.
Defined.

(** C1 (code on every input).  The secondary rotation is written at index
    [ax_r2 + 1].  For Z+ and Z- this is index 5 (rz), inside the pose, and no
    write leaves the array.  For Y+, Y-, X+ and X- it is index 6: the write
    goes past the end of the six-cell pose, and when it is reached the
    rotation component orthogonal to the two tilt components (ry for Y, rx
    for X) still has the value of the base point. *)
Theorem secondary_rotation_write_index :
  forall (layers : Z) (tilt_angle : R) (i : nat) (target : vector6d_t),
    let run := fun direction =>
      dither layers tilt_angle (direction_axes direction) i target in
    (stray (run "Z+"%string) = [] /\
     v5 (cells (run "Z+"%string)) = v5 target + secondary_rotation i) /\
    (stray (run "Z-"%string) = [] /\
     v5 (cells (run "Z-"%string)) = v5 target + secondary_rotation i) /\
    (stray (run "Y+"%string) = [(6%nat, secondary_rotation i)] /\
     v4 (cells (run "Y+"%string)) = v4 target) /\
    (stray (run "Y-"%string) = [(6%nat, secondary_rotation i)] /\
     v4 (cells (run "Y-"%string)) = v4 target) /\
    (stray (run "X+"%string) = [(6%nat, secondary_rotation i)] /\
     v3 (cells (run "X+"%string)) = v3 target) /\
    (stray (run "X-"%string) = [(6%nat, secondary_rotation i)] /\
     v3 (cells (run "X-"%string)) = v3 target).
Proof.
  intros. subst run. unfold secondary_rotation.
  repeat split; cbn; reflexivity.
Qed.

(** The dither step with axes that keep every write inside the array yields
    the six cells. *)
Lemma dither_in_bounds (layers : Z) (tilt_angle : R) (a : axes) (i : nat)
    (target : vector6d_t) :
  in_bounds a = true ->
  dither layers tilt_angle a i target
  = Cells (cells (dither layers tilt_angle a i target)).
Proof.
  unfold in_bounds. intro H.
  apply andb_prop in H. destruct H as [H H3].
  apply andb_prop in H. destruct H as [H1 H2].
  unfold dither. cbn [add_at]. rewrite H1. cbn [add_at]. rewrite H2.
  cbn [add_at]. rewrite H3. reflexivity.
Qed.

(** The dither step with axes that send a write past the end of the array
    yields no pose. *)
Lemma dither_out_of_bounds (layers : Z) (tilt_angle : R) (a : axes) (i : nat)
    (target : vector6d_t) :
  in_bounds a = false ->
  exists j d p, dither layers tilt_angle a i target = PastEnd j d p.
Proof.
  unfold in_bounds, dither. intro H. cbn [add_at].
  destruct (ax_r1 a <? 6)%nat; [| cbn [add_at]; eauto].
  cbn [add_at]. destruct (ax_r2 a <? 6)%nat; [| cbn [add_at]; eauto].
  cbn [add_at]. destruct (ax_r2 a + 1 <? 6)%nat; [discriminate | cbn [add_at]; eauto].
Qed.

Lemma direction_axes_cases (direction : string) :
  direction_axes direction = mkAxes 2 0 1 3 4 1.0 \/
  direction_axes direction = mkAxes 2 0 1 3 4 (-1.0) \/
  direction_axes direction = mkAxes 1 0 2 3 5 1.0 \/
  direction_axes direction = mkAxes 1 0 2 3 5 (-1.0) \/
  direction_axes direction = mkAxes 0 1 2 4 5 1.0 \/
  direction_axes direction = mkAxes 0 1 2 4 5 (-1.0).
Proof.
  unfold direction_axes.
  repeat match goal with |- context [String.eqb ?a ?b] => destruct (String.eqb a b) end;
    auto 10.
Qed.

(** C2 (counterexample).  For direction Y+ the dither step writes past the
    end of the array (index 6) before it comes to the shift, so there is no
    dither pose with the shift on the height axis; the shift itself is
    written to index 2, which for Y+ is the second width axis, not the
    height axis. *)
Lemma shift_on_height_axis_fails_for_Y :
  ~ shift_on_height_axis "Y+" 1 0 0 zero_pose.
Proof.
  unfold shift_on_height_axis. cbn. intros [].
Qed.

(** C2 (amended).  The shift is on the height axis, and the two width
    components are unchanged, for exactly the directions for which every
    write of the dither step stays inside the array: Z+ and Z- (and a string
    that is none of the six, which takes the row of Z+).  There the height
    axis is Z, and the dither pose has the x and y of the base point and its
    z plus 0.0001 m.  For X+, X-, Y+ and Y- the step leaves the array and
    yields no dither pose. *)
Theorem dither_translation_shifts_z :
  forall (direction : string) (layers : Z) (tilt_angle : R) (i : nat)
         (target : vector6d_t),
    let a := direction_axes direction in
    (shift_on_height_axis direction layers tilt_angle i target
     <-> in_bounds a = true) /\
    (in_bounds a = true ->
     ax_h a = 2%nat /\ ax_w1 a = 0%nat /\ ax_w2 a = 1%nat /\
     exists d, dither layers tilt_angle a i target = Cells d /\
               v0 d = v0 target /\ v1 d = v1 target /\
               v2 d = v2 target + 0.0001) /\
    (in_bounds (direction_axes "Z+") = true /\
     in_bounds (direction_axes "Z-") = true /\
     in_bounds (direction_axes "Y+") = false /\
     in_bounds (direction_axes "Y-") = false /\
     in_bounds (direction_axes "X+") = false /\
     in_bounds (direction_axes "X-") = false).
Proof.
  intros direction layers tilt_angle i target a.
  split; [| split; [| repeat split]].
  - unfold shift_on_height_axis. fold a.
    destruct (direction_axes_cases direction) as [H | [H | [H | [H | [H | H]]]]];
      fold a in H; rewrite H; cbn; split;
      solve [ intros _; reflexivity | intros []
            | discriminate | intros _; repeat split; reflexivity ].
  - intro Hin.
    destruct (direction_axes_cases direction) as [H | [H | [H | [H | [H | H]]]]];
      fold a in H; rewrite H in Hin |- *; cbn in Hin; try discriminate;
      (repeat (split; [reflexivity |]); eexists; split; [reflexivity |];
       cbn; repeat split; reflexivity).
Qed.

Lemma dither_translation_shifts_z_witness :
  exists d, dither 1 10 (direction_axes "Z+") 0 zero_pose = Cells d /\
            v0 d = 0 /\ v1 d = 0 /\ v2 d = 0 + 0.0001.
Proof.
  destruct (dither_translation_shifts_z "Z+" 1 10 0 zero_pose) as (_ & H & _).
  destruct (H eq_refl) as (_ & _ & _ & d & Hd & H0 & H1 & H2).
  exists d. repeat split; assumption.
Defined.

End GeometryFacts.

(** ** Engine *)

Section EngineFacts.

Import Geometry Engine Accounting.
Local Open Scope engine_scope.

Lemma world_eta (w : world) :
  mkWorld (polls w) (scripts w) (log w) (data_lines w) (captured w) (clock_ms w) (file w) = w.
Proof. destruct w; reflexivity. Qed.

Lemma get_current_pose_m_rad_eq (e : env) (w : world) :
  get_current_pose_m_rad e w
  = Done (seen e (polls w)) (set_polls_clock w (next_poll e (polls w)) (clock_ms w)).
Proof.
  unfold get_current_pose_m_rad, seen, next_poll, set_polls_clock.
  destruct (get_pose_callback e); [reflexivity |].
  rewrite world_eta. reflexivity.
Qed.

Lemma iter_next_poll_some (e : env) (f : nat -> list R) (k n : nat) :
  get_pose_callback e = Some f -> Nat.iter k (next_poll e) n = (n + k)%nat.
Proof.
  intro Hf. induction k as [| k IH]; [cbn; lia |].
  rewrite Nat.iter_succ, IH. unfold next_poll. rewrite Hf. lia.
Qed.

Lemma iter_next_poll_none (e : env) (k n : nat) :
  get_pose_callback e = None -> Nat.iter k (next_poll e) n = n.
Proof.
  intro Hf. induction k as [| k IH]; [reflexivity |].
  rewrite Nat.iter_succ, IH. unfold next_poll. rewrite Hf. reflexivity.
Qed.

Lemma iter_shift {A : Type} (g : A -> A) (k : nat) (a : A) :
  Nat.iter k g (g a) = Nat.iter (S k) g a.
Proof.
  induction k as [| k IH]; [reflexivity |].
  rewrite Nat.iter_succ, IH. reflexivity.
Qed.

(** One turn of the base-move wait that finds the pose out of tolerance. *)
Lemma wait_translation_step_far (e : env) (target : vector6d_t) (t : nat) (w : world) :
  close_to e target (polls w) = false ->
  wait_translation e target (S t) w
  = wait_translation e target t
      (set_polls_clock w (next_poll e (polls w)) (clock_ms w + 100)).
Proof.
  intro Hfar. cbn [wait_translation]. unfold bind at 1.
  rewrite get_current_pose_m_rad_eq.
  unfold close_to in Hfar. rewrite Hfar.
  reflexivity.
Qed.

Lemma wait_translation_step_close (e : env) (target : vector6d_t) (t : nat) (w : world) :
  close_to e target (polls w) = true ->
  wait_translation e target (S t) w
  = Done (S t) (set_polls_clock w (next_poll e (polls w)) (clock_ms w)).
Proof.
  intro Hclose. cbn [wait_translation]. unfold bind at 1.
  rewrite get_current_pose_m_rad_eq.
  unfold close_to in Hclose. rewrite Hclose.
  reflexivity.
Qed.

(** The pose stays out of tolerance for all the attempts: the loop leaves
    with [timeout = 0], having polled and slept [timeout] times. *)
Lemma wait_translation_exhausts (e : env) (target : vector6d_t) :
  forall (timeout : nat) (w : world),
    (forall j, (j < timeout)%nat ->
               close_to e target (Nat.iter j (next_poll e) (polls w)) = false) ->
    wait_translation e target timeout w
    = Done 0%nat (set_polls_clock w (Nat.iter timeout (next_poll e) (polls w))
                                  (clock_ms w + 100 * timeout)).
Proof.
  induction timeout as [| t IH]; intros w Hfar.
  - cbn. unfold ret, set_polls_clock. rewrite Nat.add_0_r, world_eta. reflexivity.
  - rewrite wait_translation_step_far by (apply (Hfar 0%nat); lia).
    rewrite IH.
    + unfold set_polls_clock; cbn [polls clock_ms scripts log data_lines captured file].
      rewrite iter_shift. f_equal. f_equal. lia.
    + intros j Hj. cbn [polls set_polls_clock]. rewrite iter_shift.
      apply Hfar. lia.
Qed.

(** The pose enters tolerance at poll [k] (counted from 0) and not before:
    the loop breaks there, with [timeout - k] attempts left, [k + 1] polls
    made and [k] sleeps. *)
Lemma wait_translation_converges (e : env) (target : vector6d_t) :
  forall (k timeout : nat) (w : world),
    (k < timeout)%nat ->
    (forall j, (j < k)%nat ->
               close_to e target (Nat.iter j (next_poll e) (polls w)) = false) ->
    close_to e target (Nat.iter k (next_poll e) (polls w)) = true ->
    wait_translation e target timeout w
    = Done (timeout - k)%nat
           (set_polls_clock w (Nat.iter (S k) (next_poll e) (polls w))
                            (clock_ms w + 100 * k)).
Proof.
  induction k as [| k IH]; intros timeout w Hk Hfar Hclose.
  - destruct timeout as [| t]; [lia |].
    rewrite wait_translation_step_close by exact Hclose.
    rewrite Nat.sub_0_r, Nat.mul_0_r, Nat.add_0_r. reflexivity.
  - destruct timeout as [| t]; [lia |].
    rewrite wait_translation_step_far by (apply (Hfar 0%nat); lia).
    rewrite (IH t).
    + unfold set_polls_clock; cbn [polls clock_ms scripts log data_lines captured file].
      rewrite iter_shift. f_equal. f_equal. lia.
    + lia.
    + intros j Hj. cbn [polls set_polls_clock]. rewrite iter_shift. apply Hfar. lia.
    + cbn [polls set_polls_clock]. rewrite iter_shift. exact Hclose.
Qed.

Lemma translation_close (cur target : vector6d_t) :
  Rltb (translation_distance cur target) 0.002
  = Rltb ((get cur 0 - get target 0) ^ 2 + (get cur 1 - get target 1) ^ 2
          + (get cur 2 - get target 2) ^ 2) 0.000004.
Proof.
  unfold translation_distance.
  pose proof (pow2_ge_0 (get cur 0 - get target 0)).
  pose proof (pow2_ge_0 (get cur 1 - get target 1)).
  pose proof (pow2_ge_0 (get cur 2 - get target 2)).
  rewrite Rltb_sqrt by lra.
  f_equal; lra.
Qed.

(** C7.  With a pose callback present, let [close n] tell whether the pose of
    the n-th poll of the wait (from 0) is within 0.002 m of the target.
    - If the pose is first within tolerance at poll k < max, the loop leaves
      with [max - k] attempts left (Converged) after exactly k + 1 polls: it
      reports convergence as soon as the distance is below the tolerance.
    - If no poll of the first max ones is within tolerance, the loop leaves
      with 0 attempts left (TimedOut) after max polls.
    - In particular, when the pose is first within tolerance on the third
      poll, ten attempts give Converged after exactly 3 polls and two
      attempts give TimedOut. *)
Theorem wait_loop_polls :
  forall (e : env) (f : nat -> list R) (target : vector6d_t) (w : world),
    get_pose_callback e = Some f ->
    let close := fun n =>
      Rltb (translation_distance (pose_m_rad (f (polls w + n)%nat)) target) 0.002 in
    (forall max k : nat,
        (k < max)%nat ->
        (forall j, (j < k)%nat -> close j = false) -> close k = true ->
        exists w', wait_translation e target max w = Done (max - k)%nat w' /\
                   status_of (max - k) = Converged /\
                   polls w' = (polls w + S k)%nat) /\
    (forall max : nat,
        (forall j, (j < max)%nat -> close j = false) ->
        exists w', wait_translation e target max w = Done 0%nat w' /\
                   status_of 0 = TimedOut /\
                   polls w' = (polls w + max)%nat) /\
    (close 0%nat = false -> close 1%nat = false -> close 2%nat = true ->
     (exists w', wait_translation e target 10 w = Done 8%nat w' /\
                 status_of 8 = Converged /\ polls w' = (polls w + 3)%nat) /\
     (exists w', wait_translation e target 2 w = Done 0%nat w' /\
                 status_of 0 = TimedOut /\ polls w' = (polls w + 2)%nat)).
Proof.
  intros e f target w Hf close.
  assert (Hclose : forall n, close_to e target (Nat.iter n (next_poll e) (polls w)) = close n).
  { intro n. rewrite (iter_next_poll_some e f) by exact Hf.
    unfold close_to, seen, close. rewrite Hf. reflexivity. }
  assert (Hconv : forall max k : nat,
             (k < max)%nat ->
             (forall j, (j < k)%nat -> close j = false) -> close k = true ->
             exists w', wait_translation e target max w = Done (max - k)%nat w' /\
                        status_of (max - k) = Converged /\
                        polls w' = (polls w + S k)%nat).
  { intros max k Hk Hfar Hin.
    eexists. split; [| split].
    - apply wait_translation_converges; [exact Hk | |].
      + intros j Hj. rewrite Hclose. apply Hfar, Hj.
      + rewrite Hclose. exact Hin.
    - unfold status_of. destruct (max - k)%nat eqn:E; [lia | reflexivity].
    - cbn [polls set_polls_clock]. apply (iter_next_poll_some e f), Hf. }
  assert (Hout : forall max : nat,
             (forall j, (j < max)%nat -> close j = false) ->
             exists w', wait_translation e target max w = Done 0%nat w' /\
                        status_of 0 = TimedOut /\
                        polls w' = (polls w + max)%nat).
  { intros max Hfar.
    eexists. split; [| split].
    - apply wait_translation_exhausts.
      intros j Hj. rewrite Hclose. apply Hfar, Hj.
    - reflexivity.
    - cbn [polls set_polls_clock]. apply (iter_next_poll_some e f), Hf. }
  split; [exact Hconv | split; [exact Hout |]].
  intros H0 H1 H2. split.
  - apply (Hconv 10%nat 2%nat); [lia | | exact H2].
    intros j Hj. destruct j as [| [| j]]; [exact H0 | exact H1 | lia].
  - apply (Hout 2%nat).
    intros j Hj. destruct j as [| [| j]]; [exact H0 | exact H1 | lia].
Qed.

Lemma wait_loop_polls_witness :
  (exists w', wait_translation third_poll_env zero_pose 10 initial_world = Done 8%nat w' /\
              status_of 8 = Converged /\ polls w' = 3%nat) /\
  (exists w', wait_translation third_poll_env zero_pose 2 initial_world = Done 0%nat w' /\
              status_of 0 = TimedOut /\ polls w' = 2%nat).
Proof.
  apply (proj2 (proj2 (wait_loop_polls third_poll_env arrives_on_third_poll
                         zero_pose initial_world eq_refl))).
  - rewrite translation_close. cbn. apply Rltb_false. lra.
  - rewrite translation_close. cbn. apply Rltb_false. lra.
  - rewrite translation_close. cbn. apply Rltb_true. lra.
Defined.

(** *** Symbolic execution of the steps *)

Ltac norm :=
  unfold set_polls_clock;
  cbn [polls scripts log data_lines captured clock_ms file
       moving_to timed_out grid_started].

Ltac norm_in H :=
  unfold set_polls_clock in H;
  cbn [polls scripts log data_lines captured clock_ms file
       moving_to timed_out grid_started] in H.

(** Runs the first step of a sequence on a world in constructor form. *)
Ltac step := unfold bind at 1; norm.
Ltac step_log := unfold bind at 1; unfold log_text; unfold write_log at 1; norm.
Ltac step_send := unfold bind at 1; unfold sendScript at 1; norm.

(** A wait only polls and sleeps. *)
Lemma wait_translation_frame (e : env) (target : vector6d_t) :
  forall (timeout : nat) (w : world),
    exists r p c, wait_translation e target timeout w = Done r (set_polls_clock w p c).
Proof.
  induction timeout as [| t IH]; intro w.
  - exists 0%nat, (polls w), (clock_ms w). cbn. unfold ret, set_polls_clock.
    rewrite world_eta. reflexivity.
  - destruct (close_to e target (polls w)) eqn:Hc.
    + rewrite wait_translation_step_close by exact Hc. eauto.
    + rewrite wait_translation_step_far by exact Hc.
      destruct (IH (set_polls_clock w (next_poll e (polls w)) (clock_ms w + 100)))
        as (r & p & c & ->).
      exists r, p, c. reflexivity.
Qed.

Lemma wait_dither_frame (e : env) (target : vector6d_t) :
  forall (timeout : nat) (w : world),
    exists r p c, wait_dither e target timeout w = Done r (set_polls_clock w p c).
Proof.
  induction timeout as [| t IH]; intro w.
  - exists 0%nat, (polls w), (clock_ms w). cbn. unfold ret, set_polls_clock.
    rewrite world_eta. reflexivity.
  - cbn [wait_dither]. unfold bind at 1. rewrite get_current_pose_m_rad_eq.
    destruct (Rltb (translation_distance (seen e (polls w)) target) 0.002
              && Rltb (rotation_distance (seen e (polls w)) target) 0.05).
    + unfold ret. eauto.
    + unfold bind at 1. unfold sleep_ms at 1. norm.
      destruct (IH (set_polls_clock w (next_poll e (polls w)) (clock_ms w + 100)))
        as (r & p & c & Heq).
      exists r, p, c. exact Heq.
Qed.

(** A base-move wait ends as [translation_wait_end] tells. *)
Lemma wait_translation_run (e : env) (target : vector6d_t) :
  forall (timeout : nat) (w : world),
    exists c,
      wait_translation e target timeout w
      = Done (fst (translation_wait_end e target timeout (polls w)))
             (set_polls_clock w (snd (translation_wait_end e target timeout (polls w))) c).
Proof.
  induction timeout as [| t IH]; intro w.
  - exists (clock_ms w). cbn. unfold ret, set_polls_clock.
    rewrite world_eta. reflexivity.
  - cbn [translation_wait_end]. destruct (close_to e target (polls w)) eqn:Hc.
    + rewrite wait_translation_step_close by exact Hc. eexists. reflexivity.
    + rewrite wait_translation_step_far by exact Hc.
      destruct (IH (set_polls_clock w (next_poll e (polls w)) (clock_ms w + 100)))
        as (c & ->).
      exists c. reflexivity.
Qed.

Lemma wait_dither_step (e : env) (target : vector6d_t) (t : nat) (w : world) :
  wait_dither e target (S t) w
  = if settled e target (polls w)
    then Done (S t) (set_polls_clock w (next_poll e (polls w)) (clock_ms w))
    else wait_dither e target t
           (set_polls_clock w (next_poll e (polls w)) (clock_ms w + 100)).
Proof.
  cbn [wait_dither]. unfold bind at 1. rewrite get_current_pose_m_rad_eq.
  unfold settled. destruct (_ && _); reflexivity.
Qed.

(** A dither wait ends as [dither_wait_end] tells. *)
Lemma wait_dither_run (e : env) (target : vector6d_t) :
  forall (timeout : nat) (w : world),
    exists c,
      wait_dither e target timeout w
      = Done (fst (dither_wait_end e target timeout (polls w)))
             (set_polls_clock w (snd (dither_wait_end e target timeout (polls w))) c).
Proof.
  induction timeout as [| t IH]; intro w.
  - exists (clock_ms w). cbn. unfold ret, set_polls_clock.
    rewrite world_eta. reflexivity.
  - rewrite wait_dither_step. cbn [dither_wait_end].
    destruct (settled e target (polls w)).
    + eexists. reflexivity.
    + destruct (IH (set_polls_clock w (next_poll e (polls w)) (clock_ms w + 100)))
        as (c & ->).
      exists c. reflexivity.
Qed.

Lemma trigger_capture_eq (e : env) (prefix : string) (idx : nat) (w : world) :
  std_only e ->
  trigger_capture e prefix idx w
  = Done tt (mkWorld (polls w) (scripts w) (log w ++ capture_log e prefix idx)
                     (data_lines w) (captured w ++ capture_calls e idx)
                     (clock_ms w) (file w)).
Proof.
  intro Hstd. unfold trigger_capture, capture_log, capture_calls, std_only in *.
  destruct (capture_callback e) as [cb |] eqn:Hcb.
  - unfold try_catch_std, call_capture.
    specialize (Hstd cb idx eq_refl).
    destruct (cb idx) as [| [what |]]; norm.
    + rewrite app_nil_r. reflexivity.
    + reflexivity.
    + congruence.
  - unfold ret. rewrite !app_nil_r, world_eta. reflexivity.
Qed.

(** One target of the pyramid run, when the dither step stays inside the
    array: three moves are sent, one record is appended with the pose
    answered to the call that follows the dither wait, the capture is called,
    and nothing stops the loop. *)
Lemma pyramid_point_eq (e : env) (layers : Z) (tilt_angle : R) (a : axes)
    (total i : nat) (target : vector6d_t) (w : world) :
  std_only e -> in_bounds a = true ->
  exists c,
    pyramid_point e layers tilt_angle a total i target w
    = Done tt
        (mkWorld (snd (pyramid_point_polls e layers tilt_angle a i target (polls w)))
           (scripts w ++ pyramid_scripts layers tilt_angle a i [target])
           (log w ++ [LogProcessing (i + 1) total; LogText " - Adjusting Orientation...";
                      LogPointData (i + 1)
                        (seen e (fst (pyramid_point_polls e layers tilt_angle a i target
                                                          (polls w))));
                      LogText "Triggering Capture..."]
                  ++ capture_log e "Capture error: " (i + 1)
                  ++ [LogText " - Restoring..."])
           (data_lines w
            ++ [((i + 1)%nat,
                 seen e (fst (pyramid_point_polls e layers tilt_angle a i target (polls w))))])
           (captured w ++ capture_calls e (i + 1))
           c (file w)).
Proof.
  intros Hstd Hin.
  pose proof (dither_in_bounds layers tilt_angle a i target Hin) as Hd.
  destruct w as [p0 s0 l0 d0 c0 t0 f0]. norm.
  unfold pyramid_point, pyramid_point_polls. cbn [fst snd pyramid_scripts].
  set (p_dither := cells (dither layers tilt_angle a i target)) in *.
  set (T1 := 200%nat). set (T2 := 50%nat). clearbody T1 T2.
  step_log. step_send. step.
  match goal with |- context [wait_translation e target T1 ?w0] =>
    destruct (wait_translation_run e target T1 w0) as (c1 & ->) end.
  norm. set (n1 := snd (translation_wait_end e target T1 p0)). clearbody n1.
  unfold bind at 1. rewrite Hd. unfold written at 1.
  step_log. step_send. step.
  match goal with |- context [wait_dither e p_dither T2 ?w0] =>
    destruct (wait_dither_run e p_dither T2 w0) as (c2 & ->) end.
  norm. set (n2 := snd (dither_wait_end e p_dither T2 n1)). clearbody n2.
  unfold bind at 1. unfold sleep_ms at 1. norm.
  unfold bind at 1. rewrite get_current_pose_m_rad_eq. norm.
  unfold bind at 1. unfold push_data_line at 1. norm.
  step_log. step_log.
  unfold bind at 1. rewrite trigger_capture_eq by exact Hstd. norm.
  step_log. step_send. step.
  match goal with |- context [wait_translation e target T2 ?w0] =>
    destruct (wait_translation_run e target T2 w0) as (c3 & ->) end.
  norm. unfold ret.
  exists c3.
  rewrite <- !app_assoc. cbn [app]. reflexivity.
Qed.

Lemma records_from_fst (e : env) (samples : list nat) :
  forall i, map fst (records_from e i samples) = seq (i + 1) (List.length samples).
Proof.
  induction samples as [| s rest IH]; intro i; cbn; [reflexivity |].
  rewrite IH. reflexivity.
Qed.

Lemma records_from_length (e : env) (samples : list nat) :
  forall i, List.length (records_from e i samples) = List.length samples.
Proof.
  induction samples as [| s rest IH]; intro i; cbn; [reflexivity |].
  rewrite IH. reflexivity.
Qed.

Lemma pyramid_samples_length (e : env) (layers : Z) (tilt_angle : R) (a : axes)
    (targets : list vector6d_t) :
  forall i n, List.length (pyramid_samples e layers tilt_angle a i targets n)
              = List.length targets.
Proof.
  induction targets as [| t rest IH]; intros i n; cbn [pyramid_samples List.length];
    [reflexivity |].
  rewrite IH. reflexivity.
Qed.

(** The motion loop of the pyramid run never stops early: every target gets
    its three moves, its record and its capture call. *)
Lemma pyramid_loop_spec (e : env) (layers : Z) (tilt_angle : R) (a : axes) (total : nat) :
  std_only e ->
  forall (targets : list vector6d_t) (i : nat) (w : world),
    in_bounds a = true \/ targets = [] ->
    exists p c L,
      pyramid_loop e layers tilt_angle a total i targets w
      = Done tt
          (mkWorld p
             (scripts w ++ pyramid_scripts layers tilt_angle a i targets)
             (log w ++ L)
             (data_lines w
              ++ records_from e i (pyramid_samples e layers tilt_angle a i targets (polls w)))
             (captured w ++ flat_map (capture_calls e) (seq (i + 1) (List.length targets)))
             c (file w)) /\
      (forall j, (j < List.length targets)%nat ->
                 incl (capture_log e "Capture error: " (i + j + 1)) L).
Proof.
  intro Hstd. induction targets as [| target rest IH]; intros i w Hin.
  - exists (polls w), (clock_ms w), []. cbn. unfold ret.
    rewrite !app_nil_r, world_eta. split; [reflexivity |]. intros j Hj. lia.
  - destruct Hin as [Hin | Hnil]; [| discriminate].
    cbn [pyramid_loop]. unfold bind.
    destruct (pyramid_point_eq e layers tilt_angle a total i target w Hstd Hin)
      as (c1 & ->).
    match goal with |- context [pyramid_loop _ _ _ _ _ (S i) rest ?w0] =>
      destruct (IH (S i) w0 (or_introl Hin)) as (p2 & c2 & L & -> & Hlog) end.
    cbn [polls scripts log data_lines captured clock_ms file].
    eexists p2, c2, _. split.
    + cbn [pyramid_scripts pyramid_samples records_from List.length seq flat_map].
      rewrite <- !app_assoc. cbn [app].
      replace (S (i + 1)) with (S i + 1)%nat by lia.
      reflexivity.
    + intros j Hj. destruct j as [| j].
      * rewrite Nat.add_0_r. intros x Hx.
        do 4 right. apply in_or_app. left. exact Hx.
      * intros x Hx.
        do 4 right. apply in_or_app. right. right.
        apply (Hlog j); [cbn in Hj; lia |].
        replace (S i + j + 1)%nat with (i + S j + 1)%nat by lia. exact Hx.
Qed.

(** The pyramid run, once the robot is ready and when the dither step stays
    inside the array (or there is no target): it completes, with one record
    per target in the order of the targets, one capture call per target, the
    three moves of each target followed by the move back to the centre, and
    every failure of the capture callback logged. *)
Lemma run_3d_calibration_spec (layers : Z) (base_width top_width height tilt_angle : R)
    (direction : string) (e : env) (w : world) :
  connected e = true -> power_on_ok e = true -> brake_release_ok e = true ->
  std_only e ->
  in_bounds (direction_axes direction) = true \/ (layers <= 0)%Z ->
  let n := (Z.to_nat layers * 4)%nat in
  let center_pose := seen e (polls w) in
  let targets :=
    pyramid_targets center_pose direction layers base_width top_width height in
  let samples :=
    pyramid_samples e layers tilt_angle (direction_axes direction) 0 targets
                    (next_poll e (polls w)) in
  exists wf,
    run_3d_calibration layers base_width top_width height tilt_angle direction e w
    = Done tt wf /\
    List.length samples = n /\
    data_lines wf = data_lines w ++ records_from e 0 samples /\
    captured wf = captured w ++ flat_map (capture_calls e) (seq 1 n) /\
    scripts wf
    = scripts w
      ++ pyramid_scripts layers tilt_angle (direction_axes direction) 0 targets
      ++ [movel center_pose 0.5 0.2] /\
    file wf = (if file_opens e
               then Some ("workspace/calibration_3d_data.txt"%string, data_lines wf)
               else file w) /\
    (forall k, (1 <= k <= n)%nat ->
               incl (capture_log e "Capture error: " k) (log wf)).
Proof.
  intros Hc Hp Hb Hstd Hin n center_pose targets samples.
  assert (Hn : List.length targets = n).
  { subst targets n. apply pyramid_targets_length. }
  assert (Hin' : in_bounds (direction_axes direction) = true \/ targets = []).
  { destruct Hin as [Hin | Hl]; [left; exact Hin | right].
    apply length_zero_iff_nil. rewrite Hn. subst n. lia. }
  assert (Hlen : List.length samples = n).
  { subst samples. rewrite pyramid_samples_length. exact Hn. }
  revert Hlen. subst samples.
  destruct w as [p0 s0 l0 d0 c0 t0 f0]. norm. intro Hlen.
  unfold run_3d_calibration. rewrite Hc, Hp, Hb. cbn [negb].
  step_log. step_log.
  unfold bind at 1. rewrite get_current_pose_m_rad_eq. norm.
  change (seen e p0) with center_pose. fold targets.
  unfold bind at 1.
  match goal with |- context [pyramid_loop e ?l ?t ?a ?tot 0 targets ?w0] =>
    destruct (pyramid_loop_spec e l t a tot Hstd targets 0%nat w0 Hin')
      as (p & c & L & -> & Hlog) end.
  norm.
  rewrite Hn in *.
  unfold bind at 1. unfold save_data at 1.
  destruct (file_opens e); unfold write_log at 1; norm;
    step_log; unfold sendScript; norm;
    (eexists;
     split; [reflexivity |]; norm;
     split; [exact Hlen |];
     split; [reflexivity |];
     split; [reflexivity |];
     split; [rewrite <- app_assoc; reflexivity |];
     split; [reflexivity |];
     intros k Hk x Hx;
     apply in_or_app; left; apply in_or_app; left;
     apply in_or_app; right;
     apply (Hlog (k - 1)%nat); [lia |];
     replace (0 + (k - 1) + 1)%nat with k by lia; exact Hx).
Qed.

(** *** The grid run *)

Lemma grid_point_timeout (e : env) (i : nat) (p : vector6d_t) (w w2 : world) :
  wait_translation e p 100 (moving_to i p w) = Done 0%nat w2 ->
  grid_point e i p w = Done false (timed_out w2).
Proof.
  intro Hwait. destruct w as [p0 s0 l0 d0 c0 t0 f0].
  unfold grid_point. step_log. step_send. step.
  unfold moving_to in Hwait. norm_in Hwait. rewrite Hwait. reflexivity.
Qed.

(** A point whose base move arrives: after the settle time the pose is
    sampled and recorded, the capture is called, and the loop goes on, also
    when the capture callback fails. *)
Lemma grid_point_arrives (e : env) (i : nat) (p : vector6d_t) (w w2 : world) (r : nat) :
  std_only e ->
  wait_translation e p 100 (moving_to i p w) = Done (S r) w2 ->
  grid_point e i p w
  = Done true
      (mkWorld (next_poll e (polls w2)) (scripts w2)
         (log w2 ++ [LogPointData (i + 1) (seen e (polls w2));
                     LogText "Triggering Camera Capture (Callback)..."]
                 ++ capture_log e "Capture callback error: " (i + 1)
                 ++ [LogText "Capture Done."])
         (data_lines w2 ++ [((i + 1)%nat, seen e (polls w2))])
         (captured w2 ++ capture_calls e (i + 1))
         (clock_ms w2 + 500) (file w2)).
Proof.
  intros Hstd Hwait. destruct w as [p0 s0 l0 d0 c0 t0 f0].
  unfold grid_point. step_log. step_send. step.
  unfold moving_to in Hwait. norm_in Hwait. rewrite Hwait. cbn [Nat.leb].
  destruct w2 as [p2 s2 l2 d2 c2 t2 f2]. norm.
  unfold bind at 1. unfold sleep_ms at 1. norm.
  unfold bind at 1. rewrite get_current_pose_m_rad_eq. norm.
  unfold bind at 1. unfold push_data_line at 1. norm.
  step_log. step_log.
  unfold bind at 1. rewrite trigger_capture_eq by exact Hstd. norm.
  step_log. unfold ret.
  rewrite <- !app_assoc. cbn [app]. reflexivity.
Qed.

(** A point that the loop passes leaves one record more, numbered i + 1. *)
Lemma grid_point_passed (e : env) (i : nat) (p : vector6d_t) (w w1 : world) :
  grid_point e i p w = Done true w1 ->
  exists pose, data_lines w1 = data_lines w ++ [((i + 1)%nat, pose)] /\
               file w1 = file w.
Proof.
  destruct w as [p0 s0 l0 d0 c0 t0 f0]. norm.
  unfold grid_point. step_log. step_send. step.
  match goal with |- context [wait_translation e p 100 ?w0] =>
    destruct (wait_translation_frame e p 100 w0) as (r & p' & c & ->) end.
  norm.
  destruct r as [| r]; cbn [Nat.leb].
  - step_log. unfold ret. discriminate.
  - unfold bind at 1. unfold sleep_ms at 1. norm.
    unfold bind at 1. rewrite get_current_pose_m_rad_eq. norm.
    unfold bind at 1. unfold push_data_line at 1. norm.
    step_log. step_log.
    unfold bind at 1. unfold trigger_capture, try_catch_std, call_capture.
    destruct (capture_callback e) as [cb |].
    + destruct (cb (i + 1)%nat) as [| [what |]]; norm;
        [ step_log | unfold write_log at 1; norm; step_log | discriminate ];
        unfold ret; intro H; injection H as <-; norm; eauto.
    + unfold ret at 1. step_log.
      unfold ret; intro H; injection H as <-; norm; eauto.
Qed.

Lemma grid_passes_records (e : env) (i : nat) (pre : list vector6d_t) (w w1 : world) :
  grid_passes e i pre w w1 ->
  exists recs, data_lines w1 = data_lines w ++ recs /\
               map fst recs = seq (i + 1) (List.length pre) /\
               file w1 = file w.
Proof.
  induction 1 as [i w | i p rest w w1 w2 Hp Hrest IH].
  - exists []. rewrite app_nil_r. repeat split.
  - destruct (grid_point_passed e i p w w1 Hp) as (pose & Hd & Hf).
    destruct IH as (recs & Hd' & Hfst & Hf').
    exists (((i + 1)%nat, pose) :: recs). split; [| split].
    + rewrite Hd', Hd, <- app_assoc. reflexivity.
    + cbn. rewrite Hfst. reflexivity.
    + congruence.
Qed.

(** The [break]: after the points of [pre], the wait for [p] runs out, and
    the loop ends there, whatever points follow. *)
Lemma grid_loop_abort (e : env) (p : vector6d_t) (post : list vector6d_t) (w2 : world) :
  forall (i : nat) (pre : list vector6d_t) (w w1 : world),
    grid_passes e i pre w w1 ->
    wait_translation e p 100 (moving_to (i + List.length pre) p w1) = Done 0%nat w2 ->
    grid_loop e i (pre ++ p :: post) w = Done tt (timed_out w2).
Proof.
  intros i pre w w1 Hpass. revert w2.
  induction Hpass as [i w | i p0 rest w w1 w1' Hp Hrest IH]; intros w2 Hwait.
  - cbn [app grid_loop List.length] in *. rewrite Nat.add_0_r in Hwait.
    unfold bind. rewrite (grid_point_timeout e i p w w2 Hwait). reflexivity.
  - cbn [app grid_loop]. unfold bind. rewrite Hp.
    apply IH. cbn [List.length] in Hwait.
    replace (S i + List.length rest)%nat with (i + S (List.length rest))%nat by lia.
    exact Hwait.
Qed.

(** The grid run with a base-move timeout after the points of [pre]. *)
Lemma run_calibration_abort (e : env) (w0 w1 w2 : world)
    (pre post : list vector6d_t) (p : vector6d_t) :
  connected e = true -> power_on_ok e = true -> brake_release_ok e = true ->
  grid_points (seen e (polls w0)) = pre ++ p :: post ->
  grid_passes e 0 pre (grid_started e w0) w1 ->
  wait_translation e p 100 (moving_to (List.length pre) p w1) = Done 0%nat w2 ->
  exists wf,
    run_calibration e w0 = Done tt wf /\
    data_lines wf = data_lines w1 /\
    captured wf = captured w1 /\
    scripts wf = scripts w1 ++ [movel p MOVE_ACCEL MOVE_SPEED;
                                movel (seen e (polls w0)) 0.5 0.2] /\
    file wf = (if file_opens e
               then Some ("workspace/calibration_data.txt"%string, data_lines w1)
               else file w1) /\
    In (LogText "Timeout waiting for robot to reach point") (log wf).
Proof.
  intros Hc Hp Hb Hpts Hpass Hwait.
  assert (Hloop := grid_loop_abort e p post w2 0%nat pre _ w1 Hpass Hwait).
  destruct (wait_translation_frame e p 100 (moving_to (List.length pre) p w1))
    as (r & p' & c & Hframe).
  rewrite Hframe in Hwait. injection Hwait as -> <-.
  destruct w0 as [p0 s0 l0 d0 c0 t0 f0].
  destruct w1 as [p1 s1 l1 d1 c1 t1 f1].
  unfold grid_started in Hloop. norm_in Hloop. norm_in Hpts. norm.
  unfold run_calibration. rewrite Hc, Hp, Hb. cbn [negb].
  step_log. step_log.
  unfold bind at 1. rewrite get_current_pose_m_rad_eq. norm.
  rewrite <- app_assoc. cbn [app].
  rewrite Hpts.
  unfold bind at 1. rewrite Hloop.
  unfold timed_out, moving_to. norm.
  unfold bind at 1. unfold save_data at 1.
  destruct (file_opens e); unfold write_log at 1; norm;
    step_log; unfold sendScript; norm;
    (eexists; split; [reflexivity |]; norm;
     split; [reflexivity |];
     split; [reflexivity |];
     split; [rewrite <- app_assoc; reflexivity |];
     split; [reflexivity |];
     apply in_or_app; left; apply in_or_app; left; apply in_or_app; right;
     left; reflexivity).
Qed.

(** C9.  In the grid run, once the robot is ready: when the points before
    [p] have been processed without a break and the base-move wait for [p]
    uses up its 100 attempts, the run still completes; no script is sent for
    the points after [p] (only the move to [p] and the final move back to the
    centre follow), no record and no capture call is added, and the records
    accumulated so far, one per point passed, are what is written to the
    calibration-data file when it can be opened. *)
Theorem grid_timeout_aborts_and_flushes :
  forall (e : env) (w0 w1 w2 : world) (pre post : list vector6d_t) (p : vector6d_t),
    connected e = true -> power_on_ok e = true -> brake_release_ok e = true ->
    file_opens e = true ->
    grid_points (seen e (polls w0)) = pre ++ p :: post ->
    grid_passes e 0 pre (grid_started e w0) w1 ->
    wait_translation e p 100 (moving_to (List.length pre) p w1) = Done 0%nat w2 ->
    exists wf recs,
      run_calibration e w0 = Done tt wf /\
      data_lines wf = data_lines w0 ++ recs /\
      map fst recs = seq 1 (List.length pre) /\
      captured wf = captured w1 /\
      scripts wf = scripts w1 ++ [movel p MOVE_ACCEL MOVE_SPEED;
                                  movel (seen e (polls w0)) 0.5 0.2] /\
      file wf = Some ("workspace/calibration_data.txt"%string, data_lines w0 ++ recs).
Proof.
  intros e w0 w1 w2 pre post p Hc Hp Hb Hfile Hpts Hpass Hwait.
  destruct (run_calibration_abort e w0 w1 w2 pre post p Hc Hp Hb Hpts Hpass Hwait)
    as (wf & Hrun & Hd & Hcap & Hs & Hf & _).
  destruct (grid_passes_records e 0 pre (grid_started e w0) w1 Hpass)
    as (recs & Hrecs & Hfst & _).
  cbn [grid_started data_lines] in Hrecs.
  exists wf, recs. rewrite Hfile in Hf.
  repeat split; try assumption; congruence.
Qed.

Lemma std_only_no_capture (e : env) : capture_callback e = None -> std_only e.
Proof. intros Hnone cb idx Hcb. congruence. Qed.

(** The run of [stuck_env]: the first point is reached and recorded, the
    second one is never reached. *)
Lemma grid_timeout_aborts_and_flushes_witness :
  exists wf recs,
    run_calibration stuck_env initial_world = Done tt wf /\
    data_lines wf = recs /\
    map fst recs = [1%nat] /\
    List.length (scripts wf) = 3%nat /\
    file wf = Some ("workspace/calibration_data.txt"%string, recs).
Proof.
  pose (c := seen stuck_env 0).
  pose (p1 := set_at (set_at c 1 (get c 1 + - GRID_STEP)) 2 (get c 2 + - GRID_STEP)).
  pose (p2 := set_at (set_at c 1 (get c 1 + 0)) 2 (get c 2 + - GRID_STEP)).
  assert (Hpts : grid_points (seen stuck_env (polls initial_world))
                 = [p1] ++ p2 :: skipn 2 (grid_points c)) by reflexivity.
  assert (Hstd : std_only stuck_env) by (apply std_only_no_capture; reflexivity).
  assert (Hclose1 : close_to stuck_env p1 1 = true).
  { unfold close_to. rewrite translation_close.
    cbn. unfold GRID_STEP. apply Rltb_true. lra. }
  assert (Hfar2 : forall n, close_to stuck_env p2 (S n) = false).
  { intro n. unfold close_to. rewrite translation_close.
    cbn. unfold GRID_STEP. apply Rltb_false. lra. }
  pose (ws := grid_started stuck_env initial_world).
  assert (Hw1 : wait_translation stuck_env p1 100 (moving_to 0 p1 ws)
                = Done 100%nat (set_polls_clock (moving_to 0 p1 ws) 2 0)).
  { apply (wait_translation_converges stuck_env p1 0 100);
      [lia | intros j Hj; lia | exact Hclose1]. }
  pose proof (grid_point_arrives stuck_env 0 p1 ws _ 99 Hstd Hw1) as Hp1.
  match type of Hp1 with _ = Done true ?w => set (w1 := w) in Hp1 end.
  assert (Hwait : wait_translation stuck_env p2 100 (moving_to 1 p2 w1)
                  = Done 0%nat
                      (set_polls_clock (moving_to 1 p2 w1)
                         (Nat.iter 100 (next_poll stuck_env) (polls (moving_to 1 p2 w1)))
                         (clock_ms (moving_to 1 p2 w1) + 100 * 100))).
  { apply wait_translation_exhausts.
    intros j _. rewrite (iter_next_poll_some stuck_env stuck_at_first) by reflexivity.
    apply (Hfar2 (2 + j)%nat). }
  destruct (grid_timeout_aborts_and_flushes stuck_env initial_world w1 _
              [p1] (skipn 2 (grid_points c)) p2 eq_refl eq_refl eq_refl eq_refl Hpts
              (passes_cons _ _ _ _ _ _ _ Hp1 (passes_nil _ _ _)) Hwait)
    as (wf & recs & Hrun & Hd & Hfst & _ & Hs & Hf).
  exists wf, recs. repeat split; try assumption.
  rewrite Hs. reflexivity.
Defined.

(** *** The records of the grid run *)

(** The motion loop of the grid run, point by point: a point whose base move
    arrives is recorded, with the pose answered to the call that follows the
    wait, and its capture is called; the first point whose base move does
    not arrive ends the loop. *)
Lemma grid_loop_run (e : env) :
  std_only e ->
  forall (points : list vector6d_t) (i : nat) (w : world),
    exists wf L,
      grid_loop e i points w = Done tt wf /\
      log wf = log w ++ L /\
      data_lines wf = data_lines w ++ records_from e i (grid_samples e points (polls w)) /\
      captured wf
      = captured w
        ++ flat_map (capture_calls e)
             (seq (i + 1) (List.length (grid_samples e points (polls w)))) /\
      file wf = file w /\
      (List.length (grid_samples e points (polls w)) = List.length points \/
       In (LogText "Timeout waiting for robot to reach point") L) /\
      (forall j, (j < List.length (grid_samples e points (polls w)))%nat ->
                 incl (capture_log e "Capture callback error: " (i + j + 1)) L).
Proof.
  intro Hstd. induction points as [| p rest IH]; intros i w.
  - exists w, []. cbn. unfold ret. rewrite !app_nil_r.
    repeat split; auto. intros j Hj. lia.
  - destruct (wait_translation_run e p 100 (moving_to i p w)) as (c & Hwait).
    cbn [polls moving_to] in Hwait.
    cbn [grid_samples]. cbv zeta.
    remember (translation_wait_end e p 100 (polls w)) as wait eqn:Hr. clear Hr.
    destruct wait as [r n1]. cbn [fst snd] in *.
    cbn [grid_loop]. unfold bind.
    destruct r as [| r]; cbn [Nat.leb].
    + rewrite (grid_point_timeout e i p w _ Hwait).
      eexists. exists [LogMoving (i + 1); LogText "Timeout waiting for robot to reach point"].
      split; [reflexivity |].
      destruct w as [p0 s0 l0 d0 c0 t0 f0].
      unfold timed_out, moving_to. norm. cbn [records_from List.length seq flat_map].
      rewrite <- app_assoc, !app_nil_r.
      repeat split.
      * right. right. left. reflexivity.
      * intros j Hj. lia.
    + rewrite (grid_point_arrives e i p w _ r Hstd Hwait).
      match goal with |- context [grid_loop e (S i) rest ?w1] =>
        destruct (IH (S i) w1) as (wf & L & Hrun & Hlog & Hd & Hcap & Hf & Hall & Hincl) end.
      destruct w as [p0 s0 l0 d0 c0 t0 f0].
      unfold moving_to in *. norm. norm_in Hlog. norm_in Hd. norm_in Hcap. norm_in Hf.
      norm_in Hall. norm_in Hincl.
      exists wf. eexists.
      split; [exact Hrun |].
      split; [rewrite Hlog, <- !app_assoc; cbn [app]; reflexivity |].
      split; [rewrite Hd, <- app_assoc; cbn [records_from app]; reflexivity |].
      split; [rewrite Hcap, <- app_assoc; cbn [List.length seq flat_map];
              replace (S (i + 1)) with (S i + 1)%nat by lia; reflexivity |].
      split; [exact Hf |].
      split.
      * destruct Hall as [Hall | Hall].
        -- left. cbn [List.length]. rewrite Hall. reflexivity.
        -- right. do 3 right. apply in_or_app. right. right. exact Hall.
      * intros j Hj x Hx. destruct j as [| j].
        -- rewrite Nat.add_0_r in Hx.
           do 3 right. apply in_or_app. left. exact Hx.
        -- do 3 right. apply in_or_app. right. right.
           apply (Hincl j); [cbn [List.length] in Hj; lia |].
           replace (S i + j + 1)%nat with (i + S j + 1)%nat by lia. exact Hx.
Qed.

(** The grid run, once the robot is ready: it completes, and holds one
    record for each point reached before the first base-move timeout, whether
    the capture of a point failed or not. *)
Lemma run_calibration_records (e : env) (w : world) :
  connected e = true -> power_on_ok e = true -> brake_release_ok e = true ->
  std_only e ->
  exists wf,
    run_calibration e w = Done tt wf /\
    data_lines wf
    = data_lines w
      ++ records_from e 0
           (grid_samples e (grid_points (seen e (polls w))) (next_poll e (polls w))) /\
    captured wf
    = captured w
      ++ flat_map (capture_calls e)
           (seq 1 (List.length
                     (grid_samples e (grid_points (seen e (polls w)))
                                   (next_poll e (polls w))))) /\
    file wf = (if file_opens e
               then Some ("workspace/calibration_data.txt"%string, data_lines wf)
               else file w) /\
    (List.length (grid_samples e (grid_points (seen e (polls w))) (next_poll e (polls w)))
     = 9%nat \/
     In (LogText "Timeout waiting for robot to reach point") (log wf)) /\
    (forall k,
        (1 <= k <= List.length (grid_samples e (grid_points (seen e (polls w)))
                                              (next_poll e (polls w))))%nat ->
        incl (capture_log e "Capture callback error: " k) (log wf)).
Proof.
  intros Hc Hp Hb Hstd.
  destruct w as [p0 s0 l0 d0 c0 t0 f0]. norm.
  unfold run_calibration. rewrite Hc, Hp, Hb. cbn [negb].
  step_log. step_log.
  unfold bind at 1. rewrite get_current_pose_m_rad_eq. norm.
  unfold bind at 1.
  match goal with |- context [grid_loop e 0 ?pts ?w0] =>
    destruct (grid_loop_run e Hstd pts 0%nat w0)
      as (w1 & L & -> & Hlog & Hd & Hcap & Hf & Hall & Hincl) end.
  norm_in Hlog. norm_in Hd. norm_in Hcap. norm_in Hf. norm_in Hall. norm_in Hincl.
  rewrite grid_points_length in Hall.
  destruct w1 as [p1 s1 l1 d1 c1 t1 f1]. norm_in Hlog. norm_in Hd. norm_in Hcap. norm_in Hf.
  subst l1 d1 c1 f1.
  unfold bind at 1. unfold save_data at 1.
  destruct (file_opens e); unfold write_log at 1; norm;
    step_log; unfold sendScript; norm;
    (eexists; split; [reflexivity |]; norm;
     split; [reflexivity |];
     split; [reflexivity |];
     split; [reflexivity |];
     split;
     [ destruct Hall as [Hall | Hall]; [left; exact Hall | right];
       apply in_or_app; left; apply in_or_app; left; apply in_or_app; right; exact Hall
     | intros k Hk x Hx;
       apply in_or_app; left; apply in_or_app; left; apply in_or_app; right;
       apply (Hincl (k - 1)%nat); [lia |];
       replace (0 + (k - 1) + 1)%nat with k by lia; exact Hx ]).
Qed.

(** *** A pose callback that is absent or answers too few values *)

Lemma seen_unusable (e : env) :
  pose_callback_unusable e -> forall n, seen e n = zero_pose.
Proof.
  unfold pose_callback_unusable, seen. intros H n.
  destruct (get_pose_callback e) as [f |]; [| reflexivity].
  unfold pose_m_rad. specialize (H n). apply Nat.ltb_lt in H. rewrite H. reflexivity.
Qed.

Lemma records_from_zero (e : env) (samples : list nat) :
  (forall n, seen e n = zero_pose) ->
  forall i, records_from e i samples
            = map (fun k => (k, zero_pose)) (seq (i + 1) (List.length samples)).
Proof.
  intro Hz. induction samples as [| s rest IH]; intro i; cbn; [reflexivity |].
  rewrite Hz, IH. reflexivity.
Qed.

(** The first grid point around the zero pose is 0.05 m away from it on two
    axes. *)
Lemma first_grid_point_far (e : env) :
  (forall n, seen e n = zero_pose) ->
  forall n, close_to e (mkPose 0 (0 + - GRID_STEP) (0 + - GRID_STEP) 0 0 0) n = false.
Proof.
  intros Hz n. unfold close_to. rewrite Hz, translation_close.
  cbn. unfold GRID_STEP. apply Rltb_false. lra.
Qed.

(** The grid run without a usable pose callback: the wait for the first
    point runs out and the run ends with no record. *)
Lemma run_calibration_unusable (e : env) (w : world) :
  pose_callback_unusable e ->
  connected e = true -> power_on_ok e = true -> brake_release_ok e = true ->
  exists wf,
    run_calibration e w = Done tt wf /\
    data_lines wf = data_lines w /\
    captured wf = captured w /\
    scripts wf = scripts w ++ [movel (mkPose 0 (- GRID_STEP) (- GRID_STEP) 0 0 0)
                                     MOVE_ACCEL MOVE_SPEED;
                               movel zero_pose 0.5 0.2] /\
    In (LogText "Timeout waiting for robot to reach point") (log wf).
Proof.
  intros Hbad Hc Hp Hb.
  pose proof (seen_unusable e Hbad) as Hz.
  pose (p1 := mkPose 0 (0 + - GRID_STEP) (0 + - GRID_STEP) 0 0 0).
  assert (Hpts : grid_points (seen e (polls w))
                 = [] ++ p1 :: skipn 1 (grid_points zero_pose)).
  { rewrite Hz. reflexivity. }
  assert (Hwait : wait_translation e p1 100 (moving_to 0 p1 (grid_started e w))
                  = Done 0%nat
                      (set_polls_clock (moving_to 0 p1 (grid_started e w))
                         (Nat.iter 100 (next_poll e)
                                   (polls (moving_to 0 p1 (grid_started e w))))
                         (clock_ms (moving_to 0 p1 (grid_started e w)) + 100 * 100))).
  { apply wait_translation_exhausts. intros j _. apply first_grid_point_far, Hz. }
  destruct (run_calibration_abort e w (grid_started e w) _ [] _ p1 Hc Hp Hb Hpts
              (passes_nil _ _ _) Hwait)
    as (wf & Hrun & Hd & Hcap & Hs & _ & Hlog).
  exists wf. rewrite Hz in Hs.
  replace (mkPose 0 (- GRID_STEP) (- GRID_STEP) 0 0 0) with p1
    by (subst p1; apply pose_eq; cbn; lra).
  repeat split; assumption.
Qed.

(** The pyramid run without a usable pose callback, when the dither step
    stays inside the array: every target is moved to and recorded, with the
    zero pose as the measured pose. *)
Lemma run_3d_calibration_unusable (layers : Z)
    (base_width top_width height tilt_angle : R) (direction : string)
    (e : env) (w : world) :
  pose_callback_unusable e ->
  connected e = true -> power_on_ok e = true -> brake_release_ok e = true ->
  std_only e ->
  in_bounds (direction_axes direction) = true ->
  exists wf,
    run_3d_calibration layers base_width top_width height tilt_angle direction e w
    = Done tt wf /\
    data_lines wf
    = data_lines w ++ map (fun k => (k, zero_pose)) (seq 1 (Z.to_nat layers * 4)) /\
    scripts wf
    = scripts w
      ++ pyramid_scripts layers tilt_angle (direction_axes direction) 0
           (pyramid_targets zero_pose direction layers base_width top_width height)
      ++ [movel zero_pose 0.5 0.2].
Proof.
  intros Hbad Hc Hp Hb Hstd Hin.
  pose proof (seen_unusable e Hbad) as Hz.
  destruct (run_3d_calibration_spec layers base_width top_width height tilt_angle
              direction e w Hc Hp Hb Hstd (or_introl Hin))
    as (wf & Hrun & Hlen & Hd & _ & Hs & _).
  exists wf. split; [exact Hrun | split].
  - rewrite Hd, (records_from_zero e _ Hz), Hlen. reflexivity.
  - rewrite Hs, Hz. reflexivity.
Qed.

(** C10 (counterexample).  With no pose callback the grid run does not go
    through its nine points: the zero pose is 0.05 m away from the first
    target on two axes, the base-move wait runs out and the run ends with no
    record. *)
Lemma absent_pose_callback_aborts_grid : ~ grid_run_completes no_pose_env.
Proof.
  intros (wf & Hrun & Hrecs).
  destruct (run_calibration_unusable no_pose_env initial_world I eq_refl eq_refl eq_refl)
    as (wf' & Hrun' & Hd & _).
  rewrite Hrun in Hrun'. injection Hrun' as <-.
  rewrite Hd in Hrecs. discriminate Hrecs.
Qed.

(** C10 (amended).  When the pose callback is absent or answers fewer than
    six values, [get_current_pose_m_rad] completes with the zero pose, so the
    centre pose is the zero pose and every convergence test is made against
    it.  Once the robot is ready, the pyramid run (with a capture callback
    that raises nothing but std::exception, and for a direction whose dither
    step stays inside the array: Z+ or Z-) goes through all its targets and
    records the zero pose for each; the grid run finds its first target out
    of tolerance of the zero pose, runs into the base-move timeout and ends
    with no record, after the move to the first point and the move back to
    the centre. *)
Theorem missing_pose_falls_back_to_zero :
  forall e : env,
    pose_callback_unusable e ->
    (forall w, exists w', get_current_pose_m_rad e w = Done zero_pose w') /\
    (forall target n,
        close_to e target n = Rltb (translation_distance zero_pose target) 0.002) /\
    (connected e = true -> power_on_ok e = true -> brake_release_ok e = true ->
     (std_only e ->
      forall layers base_width top_width height tilt_angle direction w,
      in_bounds (direction_axes direction) = true ->
      exists wf,
        run_3d_calibration layers base_width top_width height tilt_angle direction e w
        = Done tt wf /\
        data_lines wf
        = data_lines w ++ map (fun k => (k, zero_pose)) (seq 1 (Z.to_nat layers * 4)) /\
        scripts wf
        = scripts w
          ++ pyramid_scripts layers tilt_angle (direction_axes direction) 0
               (pyramid_targets zero_pose direction layers base_width top_width height)
          ++ [movel zero_pose 0.5 0.2]) /\
     (forall w, exists wf,
        run_calibration e w = Done tt wf /\
        data_lines wf = data_lines w /\
        captured wf = captured w /\
        scripts wf = scripts w ++ [movel (mkPose 0 (- GRID_STEP) (- GRID_STEP) 0 0 0)
                                         MOVE_ACCEL MOVE_SPEED;
                                   movel zero_pose 0.5 0.2] /\
        In (LogText "Timeout waiting for robot to reach point") (log wf))).
Proof.
  intros e Hbad.
  pose proof (seen_unusable e Hbad) as Hz.
  split; [| split].
  - intro w. rewrite get_current_pose_m_rad_eq, Hz. eauto.
  - intros target n. unfold close_to. rewrite Hz. reflexivity.
  - intros Hc Hp Hb. split.
    + intros Hstd layers base_width top_width height tilt_angle direction w Hin.
      apply run_3d_calibration_unusable; assumption.
    + intro w. apply run_calibration_unusable; assumption.
Qed.

Lemma missing_pose_falls_back_to_zero_witness :
  (exists w', get_current_pose_m_rad no_pose_env initial_world = Done zero_pose w') /\
  (exists wf,
     run_3d_calibration 1 100 50 50 0 "Z+" no_pose_env initial_world = Done tt wf /\
     data_lines wf = [(1%nat, zero_pose); (2%nat, zero_pose);
                      (3%nat, zero_pose); (4%nat, zero_pose)]) /\
  (exists wf,
     run_calibration no_pose_env initial_world = Done tt wf /\
     data_lines wf = [] /\
     In (LogText "Timeout waiting for robot to reach point") (log wf)).
Proof.
  destruct (missing_pose_falls_back_to_zero no_pose_env I) as (Hget & _ & Hruns).
  destruct (Hruns eq_refl eq_refl eq_refl) as (Hpyr & Hgrid).
  split; [apply Hget | split].
  - destruct (Hpyr (std_only_no_capture no_pose_env eq_refl)
                   1%Z 100 50 50 0 "Z+"%string initial_world eq_refl)
      as (wf & Hrun & Hd & _).
    exists wf. split; [exact Hrun | exact Hd].
  - destruct (Hgrid initial_world) as (wf & Hrun & Hd & _ & _ & Hlog).
    exists wf. repeat split; assumption.
Defined.

Lemma flat_map_singleton {A : Type} (f : A -> list A) (l : list A) :
  (forall a, f a = [a]) -> flat_map f l = l.
Proof.
  intro Hf. induction l as [| a l IH]; cbn; [reflexivity |].
  rewrite Hf, IH. reflexivity.
Qed.

(** *** A capture callback that raises *)

Lemma pyramid_point_throws (e : env) (cb : nat -> call_result) (layers : Z)
    (tilt_angle : R) (a : axes) (total i : nat) (target : vector6d_t) (w : world) :
  in_bounds a = true ->
  capture_callback e = Some cb ->
  cb (i + 1)%nat = Raised ForeignException ->
  exists p c l pose,
    pyramid_point e layers tilt_angle a total i target w
    = Thrown ForeignException
        (mkWorld p
           (scripts w ++ [movel target MOVE_ACCEL MOVE_SPEED;
                          movel (cells (dither layers tilt_angle a i target)) 0.5 0.1])
           l
           (data_lines w ++ [((i + 1)%nat, pose)])
           (captured w ++ [(i + 1)%nat])
           c (file w)).
Proof.
  intros Hin Hcb Hraise.
  pose proof (dither_in_bounds layers tilt_angle a i target Hin) as Hd.
  destruct w as [p0 s0 l0 d0 c0 t0 f0]. norm.
  unfold pyramid_point.
  set (p_dither := cells (dither layers tilt_angle a i target)) in *.
  step_log. step_send. step.
  match goal with |- context [wait_translation e target 200 ?w0] =>
    destruct (wait_translation_frame e target 200 w0) as (r1 & p1 & c1 & ->) end.
  norm. unfold bind at 1. rewrite Hd. unfold written at 1.
  step_log. step_send. step.
  match goal with |- context [wait_dither e ?t 50 ?w0] =>
    destruct (wait_dither_frame e t 50 w0) as (r2 & p2 & c2 & ->) end.
  norm. unfold bind at 1. unfold sleep_ms at 1. norm.
  unfold bind at 1. rewrite get_current_pose_m_rad_eq. norm.
  unfold bind at 1. unfold push_data_line at 1. norm.
  step_log. step_log.
  unfold bind at 1. unfold trigger_capture. rewrite Hcb.
  unfold try_catch_std, call_capture. rewrite Hraise. norm.
  do 4 eexists. rewrite <- app_assoc. cbn [app]. reflexivity.
Qed.

Lemma pyramid_targets_nonempty (center_pose : vector6d_t) (direction : string)
    (layers : Z) (base_width top_width height : R) :
  (1 <= layers)%Z ->
  exists target rest,
    pyramid_targets center_pose direction layers base_width top_width height
    = target :: rest.
Proof.
  intro Hl. unfold pyramid_targets.
  destruct (Z.to_nat layers) as [| n] eqn:Hn; [lia |].
  cbn [seq flat_map map app]. eauto.
Qed.

(** The pyramid run whose capture callback throws, at point 1, something
    that is not a std::exception: the exception leaves the run. *)
Lemma pyramid_run_throws (e : env) (cb : nat -> call_result) (layers : Z)
    (base_width top_width height tilt_angle : R) (direction : string) (w : world) :
  connected e = true -> power_on_ok e = true -> brake_release_ok e = true ->
  in_bounds (direction_axes direction) = true ->
  capture_callback e = Some cb ->
  cb 1%nat = Raised ForeignException ->
  (1 <= layers)%Z ->
  exists wf,
    run_3d_calibration layers base_width top_width height tilt_angle direction e w
    = Thrown ForeignException wf.
Proof.
  intros Hc Hp Hb Hin Hcb Hraise Hl.
  destruct w as [p0 s0 l0 d0 c0 t0 f0].
  unfold run_3d_calibration. rewrite Hc, Hp, Hb. cbn [negb].
  step_log. step_log.
  unfold bind at 1. rewrite get_current_pose_m_rad_eq. norm.
  destruct (pyramid_targets_nonempty (seen e p0) direction layers
              base_width top_width height Hl) as (target & rest & ->).
  unfold bind at 1. cbn [pyramid_loop]. unfold bind at 1.
  match goal with |- context [pyramid_point e ?l ?t ?a ?tot 0 target ?w0] =>
    destruct (pyramid_point_throws e cb l t a tot 0 target w0 Hin Hcb Hraise)
      as (p & c & lg & pose & ->) end.
  eexists. reflexivity.
Qed.

(** C8 (counterexample).  The handlers of the two runs are
    [catch (const std::exception &)].  A capture callback that throws
    something else is not absorbed: in a one-layer pyramid run along Z+ the
    exception thrown at point 1 reaches the caller, and the run does not end
    with its four records. *)
Lemma foreign_capture_exception_escapes :
  ~ capture_failure_absorbed foreign_env 1 100 50 50 0 "Z+".
Proof.
  intros (wf & Hrun & _).
  destruct (pyramid_run_throws foreign_env (fun _ => Raised ForeignException)
              1 100 50 50 0 "Z+" initial_world
              eq_refl eq_refl eq_refl eq_refl eq_refl eq_refl ltac:(lia))
    as (wf' & Hthrown).
  rewrite Hrun in Hthrown. discriminate Hthrown.
Qed.

(** C8 (amended).  Let the capture callback raise nothing but exceptions
    derived from std::exception, at any points, and let the robot be ready.
    For each run, let [samples] list the calls of the pose provider whose
    answers are recorded: in the grid run, for each point reached before the
    first base-move timeout, the call that follows the wait of that point; in
    the pyramid run, for each target, the call that follows its dither wait.
    Then
    - the grid run completes (no exception reaches the caller); its records
      are (1, pose 1), (2, pose 2), ... with pose k the answer to the call
      of point k; the capture was called for each of these points; either the
      records are all nine or a base-move timeout is logged (a failing
      capture never ends the loop); and every failure is in the log;
    - the pyramid run, for a direction whose dither step stays inside the
      array, completes with exactly 4 * layers records (k, pose k), with
      pose k the answer to the call of point k; the capture was called for
      every point; the three moves of every target and the move back to the
      centre were sent; and every failure is in the log. *)
Theorem capture_failure_is_absorbed :
  forall (e : env) (cb : nat -> call_result) (w : world),
    capture_callback e = Some cb ->
    std_only e ->
    connected e = true -> power_on_ok e = true -> brake_release_ok e = true ->
    let center_pose := seen e (polls w) in
    let start := next_poll e (polls w) in
    (let samples := grid_samples e (grid_points center_pose) start in
     exists wf,
       run_calibration e w = Done tt wf /\
       data_lines wf = data_lines w ++ records_from e 0 samples /\
       captured wf = captured w ++ seq 1 (List.length samples) /\
       (List.length samples = 9%nat \/
        In (LogText "Timeout waiting for robot to reach point") (log wf)) /\
       (forall k what,
           (1 <= k <= List.length samples)%nat -> cb k = Raised (StdException what) ->
           In (LogCaptureError "Capture callback error: " what) (log wf))) /\
    (forall layers base_width top_width height tilt_angle direction,
       in_bounds (direction_axes direction) = true ->
       let n := (Z.to_nat layers * 4)%nat in
       let targets :=
         pyramid_targets center_pose direction layers base_width top_width height in
       let samples :=
         pyramid_samples e layers tilt_angle (direction_axes direction) 0 targets start in
       exists wf,
         run_3d_calibration layers base_width top_width height tilt_angle direction e w
         = Done tt wf /\
         List.length samples = n /\
         data_lines wf = data_lines w ++ records_from e 0 samples /\
         captured wf = captured w ++ seq 1 n /\
         scripts wf
         = scripts w
           ++ pyramid_scripts layers tilt_angle (direction_axes direction) 0 targets
           ++ [movel center_pose 0.5 0.2] /\
         (forall k what,
             (1 <= k <= n)%nat -> cb k = Raised (StdException what) ->
             In (LogCaptureError "Capture error: " what) (log wf))).
Proof.
  intros e cb w Hcb Hstd Hc Hp Hb center_pose start.
  assert (Hcalls : forall idx, capture_calls e idx = [idx]).
  { intro idx. unfold capture_calls. rewrite Hcb. reflexivity. }
  assert (Hlogs : forall prefix idx what,
             cb idx = Raised (StdException what) ->
             capture_log e prefix idx = [LogCaptureError prefix what]).
  { intros prefix idx what Hraise. unfold capture_log. rewrite Hcb, Hraise. reflexivity. }
  split.
  - intro samples.
    destruct (run_calibration_records e w Hc Hp Hb Hstd)
      as (wf & Hrun & Hd & Hcap & _ & Hall & Hlog).
    fold center_pose start samples in Hd, Hcap, Hall, Hlog.
    exists wf. split; [exact Hrun | split; [exact Hd | split; [| split]]].
    + rewrite Hcap, (flat_map_singleton _ _ Hcalls). reflexivity.
    + exact Hall.
    + intros k what Hk Hraise.
      apply (Hlog k Hk). rewrite (Hlogs _ _ _ Hraise). left. reflexivity.
  - intros layers base_width top_width height tilt_angle direction Hin n targets samples.
    destruct (run_3d_calibration_spec layers base_width top_width height tilt_angle
                direction e w Hc Hp Hb Hstd (or_introl Hin))
      as (wf & Hrun & Hlen & Hd & Hcap & Hs & _ & Hlog).
    exists wf.
    split; [exact Hrun | split; [exact Hlen | split; [exact Hd | split; [| split]]]].
    + rewrite Hcap, (flat_map_singleton _ _ Hcalls). reflexivity.
    + exact Hs.
    + intros k what Hk Hraise.
      apply (Hlog k Hk). rewrite (Hlogs _ _ _ Hraise). left. reflexivity.
Qed.

Lemma std_only_failing_capture (e : env) :
  capture_callback e = Some fails_at_2 -> std_only e.
Proof.
  intros He cb idx Hcb. rewrite He in Hcb. injection Hcb as <-.
  unfold fails_at_2. destruct (idx =? 2)%nat; discriminate.
Qed.

(** A provider that reports the target at the first poll of each wait lets
    every base move arrive at once: point j is sampled at the second call
    made for it. *)
Lemma grid_samples_when_obedient (e : env) (f : nat -> list R) :
  get_pose_callback e = Some f ->
  forall (points : list vector6d_t) (n : nat),
    (forall j, (j < List.length points)%nat ->
               close_to e (nth j points zero_pose) (n + 2 * j) = true) ->
    grid_samples e points n
    = map (fun j => (n + 2 * j + 1)%nat) (seq 0 (List.length points)).
Proof.
  intro Hf.
  assert (Hnext : forall k, next_poll e k = S k).
  { intro k. unfold next_poll. rewrite Hf. reflexivity. }
  induction points as [| p rest IH]; intros n Hclose; [reflexivity |].
  cbn [grid_samples]. cbv zeta.
  assert (Hw : translation_wait_end e p 100 n = (100%nat, S n)).
  { change 100%nat with (S 99) at 1. cbn [translation_wait_end].
    specialize (Hclose 0%nat ltac:(cbn; lia)).
    rewrite Nat.mul_0_r, Nat.add_0_r in Hclose. cbn [nth] in Hclose.
    rewrite Hclose, Hnext. reflexivity. }
  rewrite Hw. cbn [fst snd Nat.leb]. rewrite Hnext.
  rewrite IH.
  - cbn [List.length seq map]. f_equal; [lia |].
    rewrite <- seq_shift, map_map. apply map_ext. intro j. lia.
  - intros j Hj. specialize (Hclose (S j) ltac:(cbn; lia)). cbn [nth] in Hclose.
    replace (S (S n) + 2 * j)%nat with (n + 2 * S j)%nat by lia. exact Hclose.
Qed.

Lemma obedient_failing_is_close :
  forall j, (j < 9)%nat ->
    close_to obedient_failing_env
             (nth j (grid_points (seen obedient_failing_env 0)) zero_pose)
             (1 + 2 * j) = true.
Proof.
  intros j Hj.
  do 9 (destruct j as [| j];
        [unfold close_to; rewrite translation_close; cbn; unfold GRID_STEP;
         apply Rltb_true; lra |]).
  lia.
Qed.

(** The capture callback fails at point 2: of the nine points of the grid,
    with a provider under which every base move arrives, and of the four
    points of a one-layer pyramid along Z+, with a provider that stays at the
    origin. *)
Lemma capture_failure_is_absorbed_witness :
  (exists wf,
     run_calibration obedient_failing_env initial_world = Done tt wf /\
     data_lines wf
     = records_from obedient_failing_env 0 [2; 4; 6; 8; 10; 12; 14; 16; 18]%nat /\
     captured wf = [1; 2; 3; 4; 5; 6; 7; 8; 9]%nat /\
     In (LogCaptureError "Capture callback error: " "camera busy") (log wf)) /\
  (exists wf,
     run_3d_calibration 1 100 50 50 0 "Z+" failing_capture_env initial_world
     = Done tt wf /\
     map fst (data_lines wf) = [1; 2; 3; 4]%nat /\
     captured wf = [1; 2; 3; 4]%nat /\
     In (LogCaptureError "Capture error: " "camera busy") (log wf)).
Proof.
  split.
  - destruct (capture_failure_is_absorbed obedient_failing_env fails_at_2 initial_world
                eq_refl (std_only_failing_capture obedient_failing_env eq_refl)
                eq_refl eq_refl eq_refl)
      as (Hgrid & _).
    destruct Hgrid as (wf & Hrun & Hd & Hcap & _ & Hlog).
    rewrite (grid_samples_when_obedient obedient_failing_env obedient_provider eq_refl)
      in Hd, Hcap, Hlog
      by (intros j Hj; rewrite grid_points_length in Hj;
          apply (obedient_failing_is_close j Hj)).
    rewrite grid_points_length in Hd, Hcap, Hlog.
    exists wf. split; [exact Hrun | split; [exact Hd | split; [exact Hcap |]]].
    apply (Hlog 2%nat); [cbn; lia | reflexivity].
  - destruct (capture_failure_is_absorbed failing_capture_env fails_at_2 initial_world
                eq_refl (std_only_failing_capture failing_capture_env eq_refl)
                eq_refl eq_refl eq_refl)
      as (_ & Hpyr).
    destruct (Hpyr 1%Z 100 50 50 0 "Z+"%string eq_refl)
      as (wf & Hrun & Hlen & Hd & Hcap & _ & Hlog).
    exists wf. split; [exact Hrun | split; [| split; [exact Hcap |]]].
    + rewrite Hd, map_app, records_from_fst, Hlen. reflexivity.
    + apply (Hlog 2%nat); [cbn; lia | reflexivity].
Defined.

End EngineFacts.

(** ** PoseMath: further properties *)

Section PoseMathMore.

Import PoseMath.

Lemma sum_squares_nonneg (a b c : R) : 0 <= a * a + b * b + c * c.
Proof. nra. Qed.

Lemma length_sqr (a : Vec3) : length a * length a = x a * x a + y a * y a + z a * z a.
Proof. unfold length. apply sqrt_sqrt, sum_squares_nonneg. Qed.

Lemma length_normalize (a : Vec3) : length (normalize a) = 1.
Proof.
  unfold normalize.
  destruct (Rltb (length a) 1e-9) eqn:Hl.
  - unfold length; cbn [x y z]. apply sqrt_of_square; lra.
  - unfold Rltb in Hl. destruct (Rlt_dec (length a) 1e-9) as [| Hge]; [discriminate |].
    assert (Hpos : 0 < length a) by lra.
    pose proof (length_sqr a) as Hsq.
    unfold length at 1; cbn [x y z].
    apply sqrt_of_square; [lra |].
    set (l := length a) in *.
    replace (x a / l * (x a / l) + y a / l * (y a / l) + z a / l * (z a / l))
      with ((x a * x a + y a * y a + z a * z a) / (l * l)) by (field; lra).
    rewrite <- Hsq. field. lra.
Qed.

Lemma square_in_range (v : R) : Rabs v <= 1e150 -> v * v <= 1e300.
Proof.
  intro H. pose proof (Rabs_pos v) as Hpos.
  replace (v * v) with (Rabs v * Rabs v)
    by (unfold Rabs; destruct (Rcase_abs v); lra).
  replace 1e300 with (1e150 * 1e150) by lra.
  apply Rmult_le_compat; assumption.
Qed.

Lemma squared_length_in_range (a : Vec3) :
  in_range a -> x a * x a + y a * y a + z a * z a <= 3e300.
Proof.
  intros (Hx & Hy & Hz).
  pose proof (square_in_range _ Hx). pose proof (square_in_range _ Hy).
  pose proof (square_in_range _ Hz). lra.
Qed.

(** X1.  For a vector whose components are at most 1e150 in absolute value,
    the squared length [normalize] computes is at most 3e300, inside the
    range of a double, and the vector returned has length 1: the input
    scaled to length 1, or (0, 0, 1) when the input is shorter than 1e-9. *)
Theorem normalize_is_unit :
  forall a : Vec3,
    in_range a ->
    x a * x a + y a * y a + z a * z a <= 3e300 /\ length (normalize a) = 1.
Proof.
  intros a Hrange. split; [apply squared_length_in_range, Hrange | apply length_normalize].
Qed.

Lemma normalize_is_unit_witness :
  in_range (mkVec3 3 (-4) 0) /\ length (normalize (mkVec3 3 (-4) 0)) = 1.
Proof.
  assert (H : in_range (mkVec3 3 (-4) 0)).
  { unfold in_range; cbn [x y z]. repeat split; apply Rabs_le; lra. }
  split; [exact H | apply (normalize_is_unit (mkVec3 3 (-4) 0) H)].
Defined.

Lemma unit_axis (rx ry rz : R) :
  let theta := sqrt (rx * rx + ry * ry + rz * rz) in
  0 < theta ->
  rx / theta * (rx / theta) + ry / theta * (ry / theta) + rz / theta * (rz / theta) = 1.
Proof.
  intros theta Hpos.
  assert (Hsq : theta * theta = rx * rx + ry * ry + rz * rz).
  { apply sqrt_sqrt, sum_squares_nonneg. }
  replace (rx / theta * (rx / theta) + ry / theta * (ry / theta)
           + rz / theta * (rz / theta))
    with ((rx * rx + ry * ry + rz * rz) / (theta * theta)) by (field; lra).
  rewrite <- Hsq. field. lra.
Qed.

Lemma cos_sin_sqr (t : R) : cos t * cos t + sin t * sin t = 1.
Proof. pose proof (sin2_cos2 t) as H. unfold Rsqr in H. lra. Qed.

(** Rodrigues' vectors for a unit axis form a right-handed orthonormal
    triple. *)
Lemma rodrigues_is_rotation (kx ky kz c s : R) :
  kx * kx + ky * ky + kz * kz = 1 -> c * c + s * s = 1 ->
  is_rotation
    (mkVec3 (kx * kx * (1 - c) + c) (kx * ky * (1 - c) - kz * s) (kx * kz * (1 - c) + ky * s))
    (mkVec3 (kx * ky * (1 - c) + kz * s) (ky * ky * (1 - c) + c) (ky * kz * (1 - c) - kx * s))
    (mkVec3 (kx * kz * (1 - c) - ky * s) (ky * kz * (1 - c) + kx * s) (kz * kz * (1 - c) + c)).
Proof.
  intros Hk Hcs. unfold is_rotation, dot, cross; cbn [x y z].
  repeat split; try nsatz.
  f_equal; nsatz.
Qed.

(** X2.  For a rotation vector whose components are at most 1e150 in
    absolute value, the squared angle [rotVecToMatrix] computes is at most
    3e300, inside the range of a double, and the three vectors it returns
    are orthonormal and right-handed: a rotation matrix, in the small-angle
    branch as in the general one. *)
Theorem rotVecToMatrix_is_rotation :
  forall rx ry rz : R,
    in_range (mkVec3 rx ry rz) ->
    rx * rx + ry * ry + rz * rz <= 3e300 /\
    is_rotation_matrix (rotVecToMatrix rx ry rz).
Proof.
  intros rx ry rz Hrange.
  split; [apply (squared_length_in_range (mkVec3 rx ry rz)), Hrange |].
  unfold rotVecToMatrix.
  destruct (Rltb (sqrt (rx * rx + ry * ry + rz * rz)) 1e-6) eqn:Hsmall.
  - unfold is_rotation_matrix, is_rotation, dot, cross; cbn [x y z].
    repeat split; try lra. f_equal; lra.
  - apply Rltb_nspec_le in Hsmall.
    unfold is_rotation_matrix.
    apply rodrigues_is_rotation; [apply unit_axis; lra | apply cos_sin_sqr].
Qed.

Lemma rotVecToMatrix_is_rotation_witness :
  is_rotation_matrix (rotVecToMatrix 0.3 (-0.4) 1.2).
Proof.
  apply (rotVecToMatrix_is_rotation 0.3 (-0.4) 1.2).
  unfold in_range; cbn [x y z]. repeat split; apply Rabs_le; lra.
Defined.

(** [matrixToRotVec] on Rodrigues' vectors of a unit axis and an angle of the
    general branch: the axis comes back with the opposite sign. *)
Lemma matrixToRotVec_rodrigues (kx ky kz theta : R) :
  kx * kx + ky * ky + kz * kz = 1 ->
  0 < theta < PI ->
  -1 + 1e-6 < 1 + 2 * cos theta < 3 - 1e-6 ->
  matrixToRotVec
    (mkVec3 (kx * kx * (1 - cos theta) + cos theta)
            (kx * ky * (1 - cos theta) - kz * sin theta)
            (kx * kz * (1 - cos theta) + ky * sin theta))
    (mkVec3 (kx * ky * (1 - cos theta) + kz * sin theta)
            (ky * ky * (1 - cos theta) + cos theta)
            (ky * kz * (1 - cos theta) - kx * sin theta))
    (mkVec3 (kx * kz * (1 - cos theta) - ky * sin theta)
            (ky * kz * (1 - cos theta) + kx * sin theta)
            (kz * kz * (1 - cos theta) + cos theta))
  = [- kx * theta; - ky * theta; - kz * theta].
Proof.
  intros Hk Hth Htr.
  assert (Hsin : 0 < sin theta) by (apply sin_gt_0; lra).
  unfold matrixToRotVec; cbn [x y z].
  set (c := cos theta) in *. set (s := sin theta) in *.
  assert (Htrace : kx * kx * (1 - c) + c + (ky * ky * (1 - c) + c)
                   + (kz * kz * (1 - c) + c) = 1 + 2 * c) by nsatz.
  rewrite Htrace.
  unfold Rgeb. rewrite Rleb_false by lra. rewrite Rleb_false by lra.
  replace ((1 + 2 * c - 1.0) / 2.0) with c by lra.
  subst c. rewrite acos_cos by lra.
  set (c := cos theta) in *. fold s.
  replace 2.0 with 2 by lra.
  replace ((ky * kz * (1 - c) - kx * s - (ky * kz * (1 - c) + kx * s)) / (2 * s))
    with (- kx) by (field; lra).
  replace ((kx * kz * (1 - c) - ky * s - (kx * kz * (1 - c) + ky * s)) / (2 * s))
    with (- ky) by (field; lra).
  replace ((kx * ky * (1 - c) - kz * s - (kx * ky * (1 - c) + kz * s)) / (2 * s))
    with (- kz) by (field; lra).
  unfold normalize, length; cbn [x y z].
  replace (sqrt (- kx * - kx + - ky * - ky + - kz * - kz)) with 1
    by (symmetry; apply sqrt_of_square; lra).
  rewrite Rltb_false by lra. cbn [x y z].
  repeat (apply f_equal2; [lra |]); reflexivity.
Qed.

(** X3.  For a rotation vector whose angle (its length) is at least 1e-6,
    below pi and in the general branch of [matrixToRotVec], converting it to
    a matrix with [rotVecToMatrix] and back with [matrixToRotVec] returns the
    opposite vector: the composition is the negation, not the identity. *)
Theorem rotVec_roundtrip_negates :
  forall rx ry rz : R,
    let theta := sqrt (rx * rx + ry * ry + rz * rz) in
    1e-6 <= theta < PI ->
    -1 + 1e-6 < 1 + 2 * cos theta < 3 - 1e-6 ->
    rotvec_of (rotVecToMatrix rx ry rz) = [- rx; - ry; - rz].
Proof.
  intros rx ry rz theta Hth Htr.
  unfold rotVecToMatrix. fold theta. rewrite Rltb_false by lra.
  unfold rotvec_of.
  rewrite matrixToRotVec_rodrigues;
    [| apply unit_axis; fold theta; lra | lra | exact Htr].
  repeat (apply f_equal2; [field; lra |]); reflexivity.
Qed.

Lemma rotVec_roundtrip_negates_witness :
  rotvec_of (rotVecToMatrix 0 0 (PI / 2)) = [- 0; - 0; - (PI / 2)].
Proof.
  pose proof PI2_1 as Hone.
  assert (Hth : sqrt (0 * 0 + 0 * 0 + PI / 2 * (PI / 2)) = PI / 2).
  { apply sqrt_of_square; lra. }
  apply rotVec_roundtrip_negates; rewrite Hth.
  - lra.
  - rewrite cos_PI2. lra.
Defined.

Lemma length_scaled_unit (n : Vec3) (theta : R) :
  length n = 1 -> 0 <= theta ->
  length (vec_of_list [x n * theta; y n * theta; z n * theta]) = theta.
Proof.
  intros Hn Hth. pose proof (length_sqr n) as Hsq. rewrite Hn in Hsq.
  unfold length, vec_of_list; cbn [x y z nth].
  apply sqrt_of_square; [exact Hth |]. nsatz.
Qed.

(** In a rotation matrix the three diagonal entries are not all at or below
    -1: the entry the singular branch selects, the largest, is above -1. *)
Lemma selected_diagonal_above (X Y Z : Vec3) :
  is_rotation X Y Z -> -1 < selected_diagonal X Y Z.
Proof.
  intros (HX & HY & HZ & _ & _ & _ & Hcross).
  unfold dot in HX, HY, HZ. unfold cross in Hcross.
  destruct X as [x1 y1 z1], Y as [x2 y2 z2], Z as [x3 y3 z3]; cbn [x y z] in *.
  injection Hcross as _ _ Hz.
  assert (Hall : ~ (x1 <= -1 /\ y2 <= -1 /\ z3 <= -1)).
  { intros (H1 & H2 & H3).
    assert (E1 : x1 = -1) by nra.
    assert (E2 : y2 = -1) by nra.
    assert (E3 : y1 = 0) by nra.
    subst x1 y2 y1. nra. }
  unfold selected_diagonal, Rgtb; cbn [x y z].
  destruct (Rltb y2 x1) eqn:H21; destruct (Rltb z3 x1) eqn:H31;
    destruct (Rltb z3 y2) eqn:H32; cbn [andb];
    repeat match goal with
           | H : Rltb _ _ = true |- _ => apply Rltb_true_lt in H
           | H : Rltb _ _ = false |- _ => apply Rltb_nspec_le in H
           end;
    apply Rnot_le_lt; intro Hle; apply Hall; repeat split; lra.
Qed.

(** For a cosine strictly between -1 and 1 the sine of the angle [acos]
    returns is positive. *)
Lemma sin_acos_pos (c : R) : -1 < c < 1 -> 0 < sin (acos c).
Proof.
  intro Hc.
  pose proof (acos_bound c) as [Hlo Hhi].
  pose proof (cos_acos c ltac:(lra)) as Hcos.
  apply sin_gt_0.
  - destruct Hlo as [Hlt | Heq]; [exact Hlt |].
    rewrite <- Heq, cos_0 in Hcos. lra.
  - destruct Hhi as [Hlt | Heq]; [exact Hlt |].
    rewrite Heq, cos_PI in Hcos. lra.
Qed.

(** X4.  For a rotation matrix, the length of the vector [matrixToRotVec]
    returns is the angle of its branch: 0 when the trace is at least
    3 - 1e-6, the constant 3.141592653589793 when the trace is at most
    -1 + 1e-6, and acos((trace - 1) / 2) otherwise.  On such an input every
    operation of the function is defined: the diagonal entry under the
    square root of the second branch is above -1, so that the root is
    positive, and in the third branch the cosine is strictly between -1 and
    1 and the sine the axis is divided by is positive. *)
Theorem matrixToRotVec_length_is_angle :
  forall X Y Z : Vec3,
    is_rotation X Y Z ->
    -1 < selected_diagonal X Y Z /\
    (Rgeb (trace X Y Z) (3 - 1e-6) = false ->
     Rleb (trace X Y Z) (-1 + 1e-6) = false ->
     -1 < (trace X Y Z - 1) / 2 < 1 /\ 0 < sin (acos ((trace X Y Z - 1) / 2))) /\
    length (vec_of_list (matrixToRotVec X Y Z))
    = if Rgeb (trace X Y Z) (3 - 1e-6) then 0
      else if Rleb (trace X Y Z) (-1 + 1e-6) then 3.141592653589793
           else acos ((trace X Y Z - 1) / 2).
Proof.
  intros X Y Z Hrot.
  split; [apply selected_diagonal_above, Hrot | split].
  - unfold Rgeb. intros Hhi Hlo.
    apply Rleb_nspec_lt in Hhi. apply Rleb_nspec_lt in Hlo.
    assert (Hc : -1 < (trace X Y Z - 1) / 2 < 1) by lra.
    split; [exact Hc | apply sin_acos_pos, Hc].
  - unfold matrixToRotVec, trace.
    replace (3.0 - 1e-6) with (3 - 1e-6) by lra.
    replace (-1.0 + 1e-6) with (-1 + 1e-6) by lra.
    destruct (Rgeb (x X + y Y + z Z) (3 - 1e-6)).
    + unfold length, vec_of_list; cbn [x y z nth]. apply sqrt_of_square; lra.
    + destruct (Rleb (x X + y Y + z Z) (-1 + 1e-6)).
      * apply length_scaled_unit; [apply length_normalize | lra].
      * replace ((x X + y Y + z Z - 1.0) / 2.0) with ((x X + y Y + z Z - 1) / 2) by lra.
        apply length_scaled_unit; [apply length_normalize | apply acos_bound].
Qed.

Lemma matrixToRotVec_length_is_angle_witness :
  is_rotation (mkVec3 0 1 0) (mkVec3 (-1) 0 0) (mkVec3 0 0 1) /\
  -1 < selected_diagonal (mkVec3 0 1 0) (mkVec3 (-1) 0 0) (mkVec3 0 0 1).
Proof.
  assert (H : is_rotation (mkVec3 0 1 0) (mkVec3 (-1) 0 0) (mkVec3 0 0 1)).
  { unfold is_rotation, dot, cross; cbn [x y z]. repeat split; try lra. f_equal; lra. }
  split; [exact H |].
  apply (proj1 (matrixToRotVec_length_is_angle _ _ _ H)).
Defined.

Lemma cos_lower_bound (a : R) : -2 <= a <= 2 -> 1 - a * a / 2 <= cos a.
Proof.
  intros [Hlo Hhi].
  destruct (pre_cos_bound a 0 Hlo Hhi) as [H _].
  unfold cos_approx, cos_term in H. cbn in H. lra.
Qed.

(** X5.  A rotation vector of length at most 0.001 rad does not survive the
    round trip: [rotVecToMatrix] followed by [matrixToRotVec] returns
    (0, 0, 0), because the matrix is within 1e-6 of trace 3. *)
Theorem small_rotation_is_dropped :
  forall rx ry rz : R,
    sqrt (rx * rx + ry * ry + rz * rz) <= 0.001 ->
    rotvec_of (rotVecToMatrix rx ry rz) = [0; 0; 0].
Proof.
  intros rx ry rz Hsmall.
  set (theta := sqrt (rx * rx + ry * ry + rz * rz)) in *.
  assert (Hnonneg : 0 <= theta) by apply sqrt_pos.
  unfold rotVecToMatrix. fold theta.
  destruct (Rltb theta 1e-6) eqn:Hid.
  - unfold rotvec_of, matrixToRotVec; cbn [x y z].
    unfold Rgeb. rewrite Rleb_true by lra. reflexivity.
  - apply Rltb_nspec_le in Hid.
    pose proof (unit_axis rx ry rz) as Hk. cbv zeta in Hk. fold theta in Hk.
    specialize (Hk ltac:(lra)).
    pose proof (cos_lower_bound theta ltac:(lra)) as Hcos.
    unfold rotvec_of, matrixToRotVec; cbn [x y z].
    set (kx := rx / theta) in *. set (ky := ry / theta) in *.
    set (kz := rz / theta) in *. set (c := cos theta) in *.
    assert (Htrace : kx * kx * (1 - c) + c + (ky * ky * (1 - c) + c)
                     + (kz * kz * (1 - c) + c) = 1 + 2 * c) by nsatz.
    rewrite Htrace.
    unfold Rgeb. rewrite Rleb_true by nra. reflexivity.
Qed.

Lemma small_rotation_is_dropped_witness :
  rotvec_of (rotVecToMatrix 0 0 0.0005) = [0; 0; 0].
Proof.
  apply small_rotation_is_dropped.
  replace (sqrt (0 * 0 + 0 * 0 + 0.0005 * 0.0005)) with 0.0005
    by (symmetry; apply sqrt_of_square; lra).
  lra.
Defined.

End PoseMathMore.

(** ** Geometry: further properties *)

Section GeometryMore.

Import Geometry.

(** X6.  The direction table, for every string: the height axis and the two
    width axes are the three translation indices 0, 1, 2 in some order; the
    two tilt components are the rotations about the two width axes
    (ax_r1 = ax_w1 + 3, ax_r2 = ax_w2 + 3), both in 3..5; the height sign is
    +1 or -1; and a string that is none of the six supported ones gets the
    row of Z+. *)
Theorem direction_table_invariant :
  forall direction : string,
    let a := direction_axes direction in
    (ax_h a < 3 /\ ax_w1 a < 3 /\ ax_w2 a < 3)%nat /\
    (ax_h a <> ax_w1 a /\ ax_h a <> ax_w2 a /\ ax_w1 a <> ax_w2 a) /\
    (ax_r1 a = ax_w1 a + 3 /\ ax_r2 a = ax_w2 a + 3)%nat /\
    (h_sign a = 1 \/ h_sign a = -1) /\
    (~ In direction supported_directions -> a = direction_axes "Z+").
Proof.
  intros direction a. subst a.
  split; [| split; [| split; [| split]]].
  1-4: destruct (direction_axes_cases direction)
         as [H | [H | [H | [H | [H | H]]]]]; rewrite H; cbn;
       repeat split; try lia; try (left; lra); try (right; lra).
  intro Hnot. unfold supported_directions in Hnot. cbn [In] in Hnot.
  unfold direction_axes.
  repeat match goal with
         | |- context [String.eqb direction ?b] =>
             destruct (String.eqb_spec direction b) as [-> | _];
             [exfalso; apply Hnot; auto 10 |]
         end.
  reflexivity.
Qed.

Lemma direction_table_invariant_witness :
  direction_axes "up" = direction_axes "Z+".
Proof.
  apply (proj2 (proj2 (proj2 (proj2 (direction_table_invariant "up"))))).
  unfold supported_directions. cbn [In].
  intros [H | [H | [H | [H | [H | [H | []]]]]]]; discriminate H.
Defined.

Lemma direction_table_sign (direction : string) :
  h_sign (direction_axes direction) = 1 \/ h_sign (direction_axes direction) = -1.
Proof.
  destruct (direction_axes_cases direction)
    as [H | [H | [H | [H | [H | H]]]]]; rewrite H; cbn;
    ((left; lra) || (right; lra)).
Qed.

Lemma get_set_at_same (p : vector6d_t) (i : nat) (v : R) :
  (i < 6)%nat -> get (set_at p i v) i = v.
Proof.
  intro Hi. do 6 (destruct i as [| i]; [reflexivity |]). lia.
Qed.

Lemma get_set_at_other (p : vector6d_t) (i j : nat) (v : R) :
  i <> j -> get (set_at p i v) j = get p j.
Proof.
  intro Hij.
  do 6 (destruct i as [| i];
        [do 6 (destruct j as [| j]; [try reflexivity; congruence |]); reflexivity |]).
  reflexivity.
Qed.

Lemma corner_signs_cases (k : nat) :
  let s := corner_signs k in
  (fst s = 1 \/ fst s = -1) /\ (snd s = 1 \/ snd s = -1).
Proof.
  do 3 (destruct k as [| k]; [cbn; split; ((left; lra) || (right; lra)) |]).
  cbn; split; ((left; lra) || (right; lra)).
Qed.

(** The coordinates of one target, read along the axes of its direction. *)
Lemma target_point_coordinates (center_pose : vector6d_t) (direction : string)
    (layers : Z) (base_width_m top_width_m height_m : R) (i k : nat) :
  let a := direction_axes direction in
  let ratio := layer_ratio layers i in
  let half_w := (base_width_m - (base_width_m - top_width_m) * ratio) / 2 in
  let p := target_point center_pose a layers base_width_m top_width_m height_m i k in
  get p (ax_h a) = get center_pose (ax_h a) + height_m * ratio * h_sign a /\
  get p (ax_w1 a) = get center_pose (ax_w1 a) + fst (corner_signs k) * half_w /\
  get p (ax_w2 a) = get center_pose (ax_w2 a) + snd (corner_signs k) * half_w /\
  v3 p = v3 center_pose /\ v4 p = v4 center_pose /\ v5 p = v5 center_pose.
Proof.
  intros a ratio half_w p. subst a p half_w ratio.
  destruct (direction_axes_cases direction)
    as [H | [H | [H | [H | [H | H]]]]]; rewrite H;
    unfold target_point; cbn [ax_h ax_w1 ax_w2 ax_r1 ax_r2 h_sign get set_at
                               v0 v1 v2 v3 v4 v5];
    repeat split; try reflexivity; lra.
Qed.

(** X7.  Every target of the pyramid keeps the orientation (rx, ry, rz) of
    the centre pose, for every direction string and every parameter. *)
Theorem pyramid_targets_keep_orientation :
  forall (center_pose : vector6d_t) (direction : string) (layers : Z)
         (base_width top_width height : R) (p : vector6d_t),
    In p (pyramid_targets center_pose direction layers base_width top_width height) ->
    v3 p = v3 center_pose /\ v4 p = v4 center_pose /\ v5 p = v5 center_pose.
Proof.
  intros center_pose direction layers base_width top_width height p Hin.
  unfold pyramid_targets in Hin.
  apply in_flat_map in Hin. destruct Hin as (i & _ & Hin).
  apply in_map_iff in Hin. destruct Hin as (k & <- & _).
  apply (target_point_coordinates center_pose direction layers).
Qed.

Lemma pyramid_targets_keep_orientation_witness :
  v3 (mkPose 0.05 (-0.05) 0 0 0 0) = v3 zero_pose /\
  v4 (mkPose 0.05 (-0.05) 0 0 0 0) = v4 zero_pose /\
  v5 (mkPose 0.05 (-0.05) 0 0 0 0) = v5 zero_pose.
Proof.
  apply (pyramid_targets_keep_orientation zero_pose "Z+" 1 100 50 50).
  unfold pyramid_targets. cbn [Z.to_nat Pos.to_nat Pos.iter_op Nat.add seq flat_map map app].
  do 3 right. left.
  unfold target_point, layer_ratio. cbn. apply pose_eq; cbn; lra.
Defined.

(** The ratio of a layer of the pyramid lies between 0 and 1. *)
Lemma layer_ratio_bounds (layers : Z) (i : nat) :
  (i < Z.to_nat layers)%nat -> 0 <= layer_ratio layers i <= 1.
Proof.
  intro Hi. unfold layer_ratio.
  destruct (1 <? layers)%Z eqn:Hl; [| lra].
  apply Z.ltb_lt in Hl.
  assert (H0 : 0 <= IZR (Z.of_nat i)) by (apply IZR_le; lia).
  assert (H1 : IZR (Z.of_nat i) <= IZR (layers - 1)) by (apply IZR_le; lia).
  assert (HL : 0 < IZR (layers - 1)) by (apply IZR_lt; lia).
  split.
  - apply Rmult_le_pos; [exact H0 | left; apply Rinv_0_lt_compat, HL].
  - apply Rmult_le_reg_r with (r := IZR (layers - 1)); [exact HL |].
    unfold Rdiv. rewrite Rmult_assoc, Rinv_l by lra. lra.
Qed.

(** X8.  The envelope of the pyramid.  With 0 <= top_width <= base_width and
    height >= 0 (in mm), every target differs from the centre pose by at
    most base_width / 2 along each of the two width axes and by at most
    height along the height axis (all in metres). *)
Theorem pyramid_targets_envelope :
  forall (center_pose : vector6d_t) (direction : string) (layers : Z)
         (base_width top_width height : R) (p : vector6d_t),
    0 <= top_width <= base_width -> 0 <= height ->
    In p (pyramid_targets center_pose direction layers base_width top_width height) ->
    let a := direction_axes direction in
    Rabs (get p (ax_w1 a) - get center_pose (ax_w1 a)) <= base_width / 1000 / 2 /\
    Rabs (get p (ax_w2 a) - get center_pose (ax_w2 a)) <= base_width / 1000 / 2 /\
    Rabs (get p (ax_h a) - get center_pose (ax_h a)) <= height / 1000.
Proof.
  intros center_pose direction layers base_width top_width height p Hw Hh Hin.
  cbv zeta.
  unfold pyramid_targets in Hin.
  apply in_flat_map in Hin. destruct Hin as (i & Hi & Hin).
  apply in_map_iff in Hin. destruct Hin as (k & <- & _).
  apply in_seq in Hi.
  pose proof (layer_ratio_bounds layers i ltac:(lia)) as Hr.
  destruct (target_point_coordinates center_pose direction layers
              (base_width / 1000.0) (top_width / 1000.0) (height / 1000.0) i k)
    as (Hph & Hp1 & Hp2 & _).
  rewrite Hph, Hp1, Hp2.
  set (r := layer_ratio layers i) in *.
  destruct (corner_signs_cases k) as [[Hs1 | Hs1] [Hs2 | Hs2]];
    rewrite Hs1, Hs2;
    (destruct (direction_table_sign direction) as [Hsg | Hsg]; rewrite Hsg;
     repeat split; apply Rabs_le; split; nra).
Qed.

Lemma example_target_in :
  In (mkPose 0.05 (-0.05) 0 0 0 0) (pyramid_targets zero_pose "Z+" 1 100 50 50).
Proof.
  unfold pyramid_targets. cbn [Z.to_nat Pos.to_nat Pos.iter_op Nat.add seq flat_map map app].
  do 3 right. left.
  unfold target_point, layer_ratio. cbn. apply pose_eq; cbn; lra.
Qed.

Lemma pyramid_targets_envelope_witness :
  Rabs (get (mkPose 0.05 (-0.05) 0 0 0 0) 0 - get zero_pose 0) <= 100 / 1000 / 2 /\
  Rabs (get (mkPose 0.05 (-0.05) 0 0 0 0) 1 - get zero_pose 1) <= 100 / 1000 / 2 /\
  Rabs (get (mkPose 0.05 (-0.05) 0 0 0 0) 2 - get zero_pose 2) <= 50 / 1000.
Proof.
  apply (pyramid_targets_envelope zero_pose "Z+" 1 100 50 50);
    [lra | lra | exact example_target_in].
Defined.

Lemma layer_ratio_first (layers : Z) : layer_ratio layers 0 = 0.
Proof.
  unfold layer_ratio. destruct (1 <? layers)%Z; [| lra].
  cbn. unfold Rdiv. apply Rmult_0_l.
Qed.

Lemma layer_ratio_last (layers : Z) :
  (2 <= layers)%Z -> layer_ratio layers (Z.to_nat (layers - 1)) = 1.
Proof.
  intro Hl. unfold layer_ratio.
  assert (H : (1 <? layers)%Z = true) by (apply Z.ltb_lt; lia).
  rewrite H, Z2Nat.id by lia.
  apply Rinv_r. apply not_0_IZR. lia.
Qed.

(** X9.  The two ends of the pyramid.  In the first layer (i = 0) every
    corner is at the height of the centre pose and at base_width / 2 from it
    on both width axes.  With at least two layers, in the last layer
    (i = layers - 1) every corner is at height * h_sign from the centre
    along the height axis and at top_width / 2 on both width axes.  With a
    single layer only the first case occurs: the top width and the height
    play no part. *)
Theorem pyramid_first_and_last_layer :
  forall (center_pose : vector6d_t) (direction : string) (layers : Z)
         (base_width_m top_width_m height_m : R) (k : nat),
    let a := direction_axes direction in
    let target := target_point center_pose a layers base_width_m top_width_m height_m in
    (get (target 0%nat k) (ax_h a) = get center_pose (ax_h a) /\
     get (target 0%nat k) (ax_w1 a)
     = get center_pose (ax_w1 a) + fst (corner_signs k) * (base_width_m / 2) /\
     get (target 0%nat k) (ax_w2 a)
     = get center_pose (ax_w2 a) + snd (corner_signs k) * (base_width_m / 2)) /\
    ((2 <= layers)%Z ->
     let top := Z.to_nat (layers - 1) in
     get (target top k) (ax_h a) = get center_pose (ax_h a) + height_m * h_sign a /\
     get (target top k) (ax_w1 a)
     = get center_pose (ax_w1 a) + fst (corner_signs k) * (top_width_m / 2) /\
     get (target top k) (ax_w2 a)
     = get center_pose (ax_w2 a) + snd (corner_signs k) * (top_width_m / 2)).
Proof.
  intros center_pose direction layers base_width_m top_width_m height_m k a target.
  subst a target. split.
  - destruct (target_point_coordinates center_pose direction layers
                base_width_m top_width_m height_m 0 k) as (Hh & H1 & H2 & _).
    rewrite Hh, H1, H2, layer_ratio_first. repeat split; lra.
  - intros Hl top. subst top.
    destruct (target_point_coordinates center_pose direction layers
                base_width_m top_width_m height_m (Z.to_nat (layers - 1)) k)
      as (Hh & H1 & H2 & _).
    rewrite Hh, H1, H2, (layer_ratio_last layers Hl). repeat split; lra.
Qed.

Lemma pyramid_first_and_last_layer_witness :
  get (target_point zero_pose (direction_axes "Z-") 3 0.1 0.05 0.05 2 0) 2
  = get zero_pose 2 + 0.05 * h_sign (direction_axes "Z-") /\
  get (target_point zero_pose (direction_axes "Z-") 3 0.1 0.05 0.05 2 0) 0
  = get zero_pose 0 + fst (corner_signs 0) * (0.05 / 2) /\
  get (target_point zero_pose (direction_axes "Z-") 3 0.1 0.05 0.05 2 0) 1
  = get zero_pose 1 + snd (corner_signs 0) * (0.05 / 2).
Proof.
  apply (proj2 (pyramid_first_and_last_layer zero_pose "Z-" 3 0.1 0.05 0.05 0)).
  lia.
Defined.

(** X10.  The tilt of the dither pose decays with the layer.  In layer 0 it
    is the full tilt angle (converted to radians by the factor 57.29578);
    with at least two layers it is 0.4 times that in the last layer; and for
    a tilt angle >= 0 it lies between these two values in every layer of the
    pyramid. *)
Theorem tilt_decay :
  forall (layers : Z) (tilt_angle : R),
    tilt_magnitude layers tilt_angle 0 = tilt_angle / 57.29578 /\
    ((2 <= layers)%Z ->
     tilt_magnitude layers tilt_angle (Z.to_nat (layers - 1))
     = 0.4 * (tilt_angle / 57.29578)) /\
    (forall layer_idx : nat,
        0 <= tilt_angle -> (layer_idx < Z.to_nat layers)%nat ->
        0.4 * (tilt_angle / 57.29578)
        <= tilt_magnitude layers tilt_angle layer_idx
        <= tilt_angle / 57.29578).
Proof.
  intros layers tilt_angle.
  assert (Hfold : forall idx,
             tilt_magnitude layers tilt_angle idx
             = tilt_angle / 57.29578 * (1.0 - layer_ratio layers idx * 0.6)).
  { intro idx. reflexivity. }
  split; [| split].
  - rewrite Hfold, layer_ratio_first. lra.
  - intro Hl. rewrite Hfold, (layer_ratio_last layers Hl). lra.
  - intros idx Ht Hidx. rewrite Hfold.
    pose proof (layer_ratio_bounds layers idx Hidx) as Hr.
    assert (Hpos : 0 <= tilt_angle / 57.29578) by lra.
    split; nra.
Qed.

Lemma tilt_decay_witness :
  tilt_magnitude 3 10 (Z.to_nat (3 - 1)) = 0.4 * (10 / 57.29578) /\
  0.4 * (10 / 57.29578) <= tilt_magnitude 3 10 1 <= 10 / 57.29578.
Proof.
  destruct (tilt_decay 3 10) as (_ & Hlast & Hbounds).
  split; [apply Hlast; lia | apply Hbounds; [lra | cbn; lia]].
Defined.

(** X11.  The grid around any centre pose: the nine points are the centre
    moved by (dy, dz) mm in Y and Z, dz in the outer loop; x and the
    orientation are those of the centre, and the fifth point is the centre
    pose itself. *)
Theorem grid_points_around_centre :
  forall c : vector6d_t,
    grid_points c
    = map (fun o => mkPose (v0 c) (v1 c + fst o / 1000) (v2 c + snd o / 1000)
                           (v3 c) (v4 c) (v5 c))
          grid9_offsets_mm /\
    nth 4 (grid_points c) zero_pose = c.
Proof.
  intro c. split.
  - unfold grid_points, steps, GRID_STEP, grid9_offsets_mm.
    cbn [flat_map map app get set_at v0 v1 v2 v3 v4 v5 fst snd].
    repeat (apply f_equal2; [apply pose_eq; cbn; lra |]). reflexivity.
  - unfold grid_points, steps. cbn [flat_map map app nth get set_at].
    destruct c as [c0 c1 c2 c3 c4 c5]. apply pose_eq; cbn; lra.
Qed.

Lemma corner_index_cases (i : nat) :
  (i mod 4 = 0 \/ i mod 4 = 1 \/ i mod 4 = 2 \/ i mod 4 = 3)%nat.
Proof.
  pose proof (Nat.mod_upper_bound i 4 ltac:(lia)). lia.
Qed.

(** X12.  The tilt written by the dither step, for every direction whose
    dither step stays inside the array (Z+ and Z-, where ax_r1 is rx and
    ax_r2 is ry) and every point: once the per-corner sign modifier is
    applied, the component ax_r1 receives -sign_w1 * tilt and the component
    ax_r2 receives -sign_w2 * tilt, where (sign_w1, sign_w2) are the signs of
    the corner on the two width axes; each component turns against the side
    of the corner on the width axis of the same rank. *)
Theorem dither_tilt_by_corner :
  forall (direction : string) (layers : Z) (tilt_angle : R) (i : nat)
         (target : vector6d_t),
    let a := direction_axes direction in
    in_bounds a = true ->
    let tilt := tilt_magnitude layers tilt_angle (i / 4) in
    exists d,
      dither layers tilt_angle a i target = Cells d /\
      get d (ax_r1 a) = get target (ax_r1 a) - fst (corner_signs (i mod 4)) * tilt /\
      get d (ax_r2 a) = get target (ax_r2 a) - snd (corner_signs (i mod 4)) * tilt.
Proof.
  intros direction layers tilt_angle i target a Hin tilt. subst tilt.
  unfold dither.
  set (t := tilt_magnitude layers tilt_angle (i / 4)).
  destruct (direction_axes_cases direction) as [H | [H | [H | [H | [H | H]]]]];
    fold a in H; rewrite H in Hin |- *; cbn in Hin; try discriminate;
    destruct (corner_index_cases i) as [Hc | [Hc | [Hc | Hc]]]; rewrite Hc;
    cbn; (eexists; split; [reflexivity | cbn; split; lra]).
Qed.

Lemma dither_tilt_by_corner_witness :
  exists d,
    dither 1 10 (direction_axes "Z+") 1 zero_pose = Cells d /\
    get d 3 = get zero_pose 3 - fst (corner_signs (1 mod 4)) * tilt_magnitude 1 10 (1 / 4) /\
    get d 4 = get zero_pose 4 - snd (corner_signs (1 mod 4)) * tilt_magnitude 1 10 (1 / 4).
Proof.
  apply (dither_tilt_by_corner "Z+" 1 10 1 zero_pose). reflexivity.
Defined.

End GeometryMore.

(** ** Engine: further properties *)

Section EngineMore.

Import Geometry Engine Accounting.
Local Open Scope engine_scope.

Lemma run_calibration_not_ready (e : env) (w : world) :
  connected e = false \/ power_on_ok e = false \/ brake_release_ok e = false ->
  exists msg, run_calibration e w
              = Done tt (mkWorld (polls w) (scripts w) (log w ++ [LogText msg])
                                 (data_lines w) (captured w) (clock_ms w) (file w)).
Proof.
  intro H. unfold run_calibration.
  destruct (connected e); cbn [negb]; [| eexists; reflexivity].
  destruct (power_on_ok e); cbn [negb]; [| eexists; reflexivity].
  destruct (brake_release_ok e); cbn [negb]; [| eexists; reflexivity].
  destruct H as [H | [H | H]]; discriminate.
Qed.

Lemma run_3d_calibration_not_ready (layers : Z)
    (base_width top_width height tilt_angle : R) (direction : string)
    (e : env) (w : world) :
  connected e = false \/ power_on_ok e = false \/ brake_release_ok e = false ->
  exists msg, run_3d_calibration layers base_width top_width height tilt_angle direction e w
              = Done tt (mkWorld (polls w) (scripts w) (log w ++ [LogText msg])
                                 (data_lines w) (captured w) (clock_ms w) (file w)).
Proof.
  intro H. unfold run_3d_calibration.
  destruct (connected e); cbn [negb]; [| eexists; reflexivity].
  destruct (power_on_ok e); cbn [negb]; [| eexists; reflexivity].
  destruct (brake_release_ok e); cbn [negb]; [| eexists; reflexivity].
  destruct H as [H | [H | H]]; discriminate.
Qed.

(** X13.  When the robot is not ready (the links are missing, the power-on
    fails or the brake release fails), both runs end at once: one message is
    logged and nothing else happens; no pose is polled, no script is sent, no
    capture is called, nothing is recorded and no file is written. *)
Theorem runs_stop_when_not_ready :
  forall (e : env) (w : world),
    connected e = false \/ power_on_ok e = false \/ brake_release_ok e = false ->
    (exists msg wf,
        run_calibration e w = Done tt wf /\
        log wf = log w ++ [LogText msg] /\ erase_log wf = erase_log w) /\
    (forall layers base_width top_width height tilt_angle direction,
      exists msg wf,
        run_3d_calibration layers base_width top_width height tilt_angle direction e w
        = Done tt wf /\
        log wf = log w ++ [LogText msg] /\ erase_log wf = erase_log w).
Proof.
  intros e w H. split.
  - destruct (run_calibration_not_ready e w H) as (msg & Hrun).
    exists msg. eexists. split; [exact Hrun | split; reflexivity].
  - intros layers base_width top_width height tilt_angle direction.
    destruct (run_3d_calibration_not_ready layers base_width top_width height
                tilt_angle direction e w H) as (msg & Hrun).
    exists msg. eexists. split; [exact Hrun | split; reflexivity].
Qed.

Lemma runs_stop_when_not_ready_witness :
  exists msg wf,
    run_calibration (mkEnv true false true None None true) initial_world = Done tt wf /\
    log wf = log initial_world ++ [LogText msg] /\
    erase_log wf = erase_log initial_world.
Proof.
  apply (proj1 (runs_stop_when_not_ready (mkEnv true false true None None true)
                  initial_world (or_intror (or_introl eq_refl)))).
Defined.

(** *** Sleeping time *)

Lemma sleeps_ret {A : Type} (a : A) : sleeps_at_most (ret a) 0.
Proof. intro w. exists w. split; [reflexivity | lia]. Qed.

Lemma sleeps_bind {A B : Type} (m : M A) (k : A -> M B) (c1 c2 : nat) :
  sleeps_at_most m c1 -> (forall a, sleeps_at_most (k a) c2) ->
  sleeps_at_most (bind m k) (c1 + c2).
Proof.
  intros Hm Hk w. destruct (Hm w) as (w1 & H1 & Hb1). unfold bind.
  destruct (m w) as [a w' | ex w' |]; cbn [world_of] in H1;
    [injection H1 as -> | injection H1 as -> | discriminate].
  - destruct (Hk a w1) as (w2 & H2 & Hb2). exists w2. split; [exact H2 | lia].
  - exists w1. split; [reflexivity | lia].
Qed.

Lemma sleeps_weaken {A : Type} (m : M A) (c c' : nat) :
  sleeps_at_most m c -> (c <= c')%nat -> sleeps_at_most m c'.
Proof.
  intros Hm Hc w. destruct (Hm w) as (w' & H & Hb). exists w'. split; [exact H | lia].
Qed.

Lemma sleeps_if {A : Type} (b : bool) (m1 m2 : M A) (c1 c2 : nat) :
  sleeps_at_most m1 c1 -> sleeps_at_most m2 c2 ->
  sleeps_at_most (if b then m1 else m2) (c1 + c2).
Proof.
  intros H1 H2. destruct b; [apply (sleeps_weaken _ c1) | apply (sleeps_weaken _ c2)];
    auto; lia.
Qed.

Ltac sleeps_prim := intro w; eexists; split; [reflexivity | cbn; lia].

Lemma sleeps_write_log (x : log_entry) : sleeps_at_most (write_log x) 0.
Proof. sleeps_prim. Qed.

Lemma sleeps_log_text (x : string) : sleeps_at_most (log_text x) 0.
Proof. apply sleeps_write_log. Qed.

Lemma sleeps_sendScript (c : script) : sleeps_at_most (sendScript c) 0.
Proof. sleeps_prim. Qed.

Lemma sleeps_push_data_line (idx : nat) (pose : vector6d_t) :
  sleeps_at_most (push_data_line idx pose) 0.
Proof. sleeps_prim. Qed.

Lemma sleeps_sleep_ms (ms : nat) : sleeps_at_most (sleep_ms ms) ms.
Proof. sleeps_prim. Qed.

Lemma sleeps_written (p : vector6d_t) : sleeps_at_most (written (Cells p)) 0.
Proof. sleeps_prim. Qed.

Lemma sleeps_get_current_pose_m_rad (e : env) :
  sleeps_at_most (get_current_pose_m_rad e) 0.
Proof. intro w. rewrite get_current_pose_m_rad_eq. eexists. split; [reflexivity | cbn; lia]. Qed.

Lemma sleeps_trigger_capture (e : env) (prefix : string) (idx : nat) :
  sleeps_at_most (trigger_capture e prefix idx) 0.
Proof.
  intro w. unfold trigger_capture, try_catch_std, call_capture.
  destruct (capture_callback e) as [cb |];
    [| eexists; split; [reflexivity | cbn; lia]].
  destruct (cb idx) as [| [what |]]; eexists; (split; [reflexivity | cbn; lia]).
Qed.

Lemma sleeps_save_data (e : env) (f s1 s2 : string) :
  sleeps_at_most (save_data e f s1 s2) 0.
Proof.
  intro w. unfold save_data.
  destruct (file_opens e); eexists; (split; [reflexivity | cbn; lia]).
Qed.

Create HintDb sleeps.

#[local] Hint Resolve sleeps_ret sleeps_write_log sleeps_log_text sleeps_sendScript
  sleeps_push_data_line sleeps_sleep_ms sleeps_written sleeps_get_current_pose_m_rad
  sleeps_trigger_capture sleeps_save_data : sleeps.

Ltac sleeps_steps :=
  repeat first [ solve [auto with sleeps]
               | eapply sleeps_bind; [solve [auto with sleeps] | intro]
               | eapply sleeps_if ].

Lemma sleeps_wait_translation (e : env) (target : vector6d_t) (timeout : nat) :
  sleeps_at_most (wait_translation e target timeout) (100 * timeout).
Proof.
  induction timeout as [| t IH]; cbn [wait_translation].
  - apply (sleeps_weaken _ 0); [apply sleeps_ret | lia].
  - eapply sleeps_weaken.
    + eapply sleeps_bind; [apply sleeps_get_current_pose_m_rad | intro cur].
      eapply sleeps_if; [apply sleeps_ret |].
      eapply sleeps_bind; [apply sleeps_sleep_ms | intros _; exact IH].
    + lia.
Qed.

Lemma sleeps_wait_dither (e : env) (target : vector6d_t) (timeout : nat) :
  sleeps_at_most (wait_dither e target timeout) (100 * timeout).
Proof.
  induction timeout as [| t IH]; cbn [wait_dither].
  - apply (sleeps_weaken _ 0); [apply sleeps_ret | lia].
  - eapply sleeps_weaken.
    + eapply sleeps_bind; [apply sleeps_get_current_pose_m_rad | intro cur].
      eapply sleeps_if; [apply sleeps_ret |].
      eapply sleeps_bind; [apply sleeps_sleep_ms | intros _; exact IH].
    + lia.
Qed.

#[local] Hint Resolve sleeps_wait_translation sleeps_wait_dither : sleeps.

Lemma sleeps_grid_point (e : env) (i : nat) (p : vector6d_t) :
  sleeps_at_most (grid_point e i p) (100 * 100 + 500).
Proof.
  unfold grid_point. eapply sleeps_weaken; [sleeps_steps | lia].
Qed.

Lemma sleeps_grid_loop (e : env) (points : list vector6d_t) :
  forall i, sleeps_at_most (grid_loop e i points)
                           (List.length points * (100 * 100 + 500)).
Proof.
  induction points as [| p rest IH]; intro i; cbn [grid_loop List.length].
  - apply (sleeps_weaken _ 0); [apply sleeps_ret | lia].
  - eapply sleeps_weaken.
    + eapply sleeps_bind; [apply sleeps_grid_point | intro continue].
      eapply sleeps_if; [apply IH | apply sleeps_ret].
    + lia.
Qed.

Lemma sleeps_pyramid_point (e : env) (layers : Z) (tilt_angle : R) (a : axes)
    (total i : nat) (target : vector6d_t) :
  in_bounds a = true ->
  sleeps_at_most (pyramid_point e layers tilt_angle a total i target)
                 ((200 + 50 + 50) * 100 + 1500).
Proof.
  intro Hin. unfold pyramid_point.
  rewrite (dither_in_bounds layers tilt_angle a i target Hin).
  eapply sleeps_weaken; [sleeps_steps | lia].
Qed.

Lemma sleeps_pyramid_loop (e : env) (layers : Z) (tilt_angle : R) (a : axes)
    (total : nat) (targets : list vector6d_t) :
  in_bounds a = true ->
  forall i, sleeps_at_most (pyramid_loop e layers tilt_angle a total i targets)
                           (List.length targets * ((200 + 50 + 50) * 100 + 1500)).
Proof.
  intro Hin.
  induction targets as [| t rest IH]; intro i; cbn [pyramid_loop List.length].
  - apply (sleeps_weaken _ 0); [apply sleeps_ret | lia].
  - eapply sleeps_weaken.
    + eapply sleeps_bind; [apply sleeps_pyramid_point, Hin | intros _; apply IH].
    + lia.
Qed.

(** X14.  The blocking time of the runs is bounded, whatever the callbacks
    answer and whether the run completes or ends by an exception: the grid
    run sleeps at most 9 * (100 * 100 + 500) ms (94.5 s), and the pyramid
    run, for a direction whose dither step stays inside the array (Z+ or Z-),
    at most (200 + 50 + 50) * 100 + 1500 ms (31.5 s) per target, for its
    4 * layers targets. *)
Theorem runs_sleep_bounded :
  forall e : env,
    sleeps_at_most (run_calibration e) (9 * (100 * 100 + 500)) /\
    (forall layers base_width top_width height tilt_angle direction,
        in_bounds (direction_axes direction) = true ->
        sleeps_at_most
          (run_3d_calibration layers base_width top_width height tilt_angle direction e)
          (Z.to_nat layers * 4 * ((200 + 50 + 50) * 100 + 1500))).
Proof.
  intro e. split.
  - unfold run_calibration.
    destruct (negb (connected e));
      [apply (sleeps_weaken _ 0); [auto with sleeps | lia] |].
    destruct (negb (power_on_ok e));
      [apply (sleeps_weaken _ 0); [auto with sleeps | lia] |].
    destruct (negb (brake_release_ok e));
      [apply (sleeps_weaken _ 0); [auto with sleeps | lia] |].
    eapply sleeps_weaken.
    + eapply sleeps_bind; [auto with sleeps | intro].
      eapply sleeps_bind; [auto with sleeps | intro].
      eapply sleeps_bind; [auto with sleeps | intro center_pose].
      eapply sleeps_bind;
        [eapply sleeps_weaken;
         [apply sleeps_grid_loop | rewrite grid_points_length; apply Nat.le_refl]
        | intro].
      sleeps_steps.
    + lia.
  - intros layers base_width top_width height tilt_angle direction Hin.
    unfold run_3d_calibration.
    destruct (negb (connected e));
      [apply (sleeps_weaken _ 0); [auto with sleeps | lia] |].
    destruct (negb (power_on_ok e));
      [apply (sleeps_weaken _ 0); [auto with sleeps | lia] |].
    destruct (negb (brake_release_ok e));
      [apply (sleeps_weaken _ 0); [auto with sleeps | lia] |].
    eapply sleeps_weaken.
    + eapply sleeps_bind; [auto with sleeps | intro].
      eapply sleeps_bind; [auto with sleeps | intro].
      eapply sleeps_bind; [auto with sleeps | intro center_pose].
      eapply sleeps_bind;
        [eapply sleeps_weaken;
         [apply sleeps_pyramid_loop, Hin
         | rewrite pyramid_targets_length; apply Nat.le_refl]
        | intro].
      sleeps_steps.
    + lia.
Qed.

Lemma runs_sleep_bounded_witness :
  sleeps_at_most (run_3d_calibration 1 100 50 50 5 "Z-" no_pose_env)
                 (Z.to_nat 1 * 4 * ((200 + 50 + 50) * 100 + 1500)).
Proof.
  apply (proj2 (runs_sleep_bounded no_pose_env) 1%Z 100 50 50 5 "Z-"%string).
  reflexivity.
Defined.

(** *** The file *)

Lemma keeps_ret {A : Type} (a : A) : keeps_file (ret a).
Proof. intro w. exists w. split; reflexivity. Qed.

Lemma keeps_bind {A B : Type} (m : M A) (k : A -> M B) :
  keeps_file m -> (forall a, keeps_file (k a)) -> keeps_file (bind m k).
Proof.
  intros Hm Hk w. destruct (Hm w) as (w1 & H1 & Hf1). unfold bind.
  destruct (m w) as [a w' | ex w' |]; cbn [world_of] in H1;
    [injection H1 as -> | injection H1 as -> | discriminate].
  - destruct (Hk a w1) as (w2 & H2 & Hf2). exists w2. split; [exact H2 | congruence].
  - exists w1. split; [reflexivity | exact Hf1].
Qed.

Lemma keeps_if {A : Type} (b : bool) (m1 m2 : M A) :
  keeps_file m1 -> keeps_file m2 -> keeps_file (if b then m1 else m2).
Proof. destruct b; auto. Qed.

Ltac keeps_prim := intro w; eexists; split; reflexivity.

Lemma keeps_write_log (x : log_entry) : keeps_file (write_log x).
Proof. keeps_prim. Qed.

Lemma keeps_log_text (x : string) : keeps_file (log_text x).
Proof. keeps_prim. Qed.

Lemma keeps_sendScript (c : script) : keeps_file (sendScript c).
Proof. keeps_prim. Qed.

Lemma keeps_push_data_line (idx : nat) (pose : vector6d_t) :
  keeps_file (push_data_line idx pose).
Proof. keeps_prim. Qed.

Lemma keeps_sleep_ms (ms : nat) : keeps_file (sleep_ms ms).
Proof. keeps_prim. Qed.

Lemma keeps_written (p : vector6d_t) : keeps_file (written (Cells p)).
Proof. keeps_prim. Qed.

Lemma keeps_get_current_pose_m_rad (e : env) : keeps_file (get_current_pose_m_rad e).
Proof. intro w. rewrite get_current_pose_m_rad_eq. eexists. split; reflexivity. Qed.

Lemma keeps_trigger_capture (e : env) (prefix : string) (idx : nat) :
  keeps_file (trigger_capture e prefix idx).
Proof.
  intro w. unfold trigger_capture, try_catch_std, call_capture.
  destruct (capture_callback e) as [cb |]; [| eexists; split; reflexivity].
  destruct (cb idx) as [| [what |]]; eexists; split; reflexivity.
Qed.

Lemma keeps_save_data_closed (e : env) (f s1 s2 : string) :
  file_opens e = false -> keeps_file (save_data e f s1 s2).
Proof.
  intros Hf w. unfold save_data. rewrite Hf. eexists. split; reflexivity.
Qed.

Create HintDb keeps.

#[local] Hint Resolve keeps_ret keeps_write_log keeps_log_text keeps_sendScript
  keeps_push_data_line keeps_sleep_ms keeps_written keeps_get_current_pose_m_rad
  keeps_trigger_capture keeps_save_data_closed : keeps.

Ltac keeps_steps :=
  repeat first [ solve [auto with keeps]
               | apply keeps_bind; [solve [auto with keeps] | intro]
               | apply keeps_if ].

Lemma keeps_wait_translation (e : env) (target : vector6d_t) (timeout : nat) :
  keeps_file (wait_translation e target timeout).
Proof.
  induction timeout as [| t IH]; cbn [wait_translation]; [apply keeps_ret |].
  apply keeps_bind; [apply keeps_get_current_pose_m_rad | intro cur].
  apply keeps_if; [apply keeps_ret |].
  apply keeps_bind; [apply keeps_sleep_ms | intros _; exact IH].
Qed.

Lemma keeps_wait_dither (e : env) (target : vector6d_t) (timeout : nat) :
  keeps_file (wait_dither e target timeout).
Proof.
  induction timeout as [| t IH]; cbn [wait_dither]; [apply keeps_ret |].
  apply keeps_bind; [apply keeps_get_current_pose_m_rad | intro cur].
  apply keeps_if; [apply keeps_ret |].
  apply keeps_bind; [apply keeps_sleep_ms | intros _; exact IH].
Qed.

#[local] Hint Resolve keeps_wait_translation keeps_wait_dither : keeps.

Lemma keeps_grid_loop (e : env) (points : list vector6d_t) :
  forall i, keeps_file (grid_loop e i points).
Proof.
  induction points as [| p rest IH]; intro i; cbn [grid_loop]; [apply keeps_ret |].
  apply keeps_bind; [unfold grid_point; keeps_steps | intro continue].
  apply keeps_if; [apply IH | apply keeps_ret].
Qed.

Lemma keeps_pyramid_loop (e : env) (layers : Z) (tilt_angle : R) (a : axes)
    (total : nat) (targets : list vector6d_t) :
  in_bounds a = true ->
  forall i, keeps_file (pyramid_loop e layers tilt_angle a total i targets).
Proof.
  intro Hin.
  induction targets as [| t rest IH]; intro i; cbn [pyramid_loop]; [apply keeps_ret |].
  apply keeps_bind; [| intros _; apply IH].
  unfold pyramid_point. rewrite (dither_in_bounds layers tilt_angle a i t Hin).
  keeps_steps.
Qed.

#[local] Hint Resolve keeps_grid_loop : keeps.

(** X15.  When the data file cannot be opened, neither run touches the file,
    whatever the callbacks do and whether the run completes or ends by an
    exception; and the pyramid run (robot ready, capture raising nothing but
    std::exception) still completes, with its 4 * layers records kept in
    memory and the move back to the centre as its last script.  The pyramid
    run is taken along a direction whose dither step stays inside the array
    (Z+ or Z-). *)
Theorem file_failure_is_not_fatal :
  forall e : env,
    file_opens e = false ->
    keeps_file (run_calibration e) /\
    (forall layers base_width top_width height tilt_angle direction,
        in_bounds (direction_axes direction) = true ->
        keeps_file
          (run_3d_calibration layers base_width top_width height tilt_angle direction e)) /\
    (connected e = true -> power_on_ok e = true -> brake_release_ok e = true ->
     std_only e ->
     forall layers base_width top_width height tilt_angle direction w,
     in_bounds (direction_axes direction) = true ->
     exists wf,
       run_3d_calibration layers base_width top_width height tilt_angle direction e w
       = Done tt wf /\
       List.length (data_lines wf) = (List.length (data_lines w) + Z.to_nat layers * 4)%nat /\
       last (scripts wf) (movel zero_pose 0 0) = movel (seen e (polls w)) 0.5 0.2 /\
       file wf = file w).
Proof.
  intros e Hf. split; [| split].
  - unfold run_calibration. keeps_steps.
  - intros layers base_width top_width height tilt_angle direction Hin.
    unfold run_3d_calibration.
    pose proof (keeps_pyramid_loop e layers tilt_angle (direction_axes direction)) as Hloop.
    keeps_steps.
  - intros Hc Hp Hb Hstd layers base_width top_width height tilt_angle direction w Hin.
    destruct (run_3d_calibration_spec layers base_width top_width height tilt_angle
                direction e w Hc Hp Hb Hstd (or_introl Hin))
      as (wf & Hrun & Hlen & Hd & _ & Hs & Hfile & _).
    exists wf. split; [exact Hrun | split; [| split]].
    + rewrite Hd, length_app, records_from_length, Hlen. reflexivity.
    + rewrite Hs, app_assoc. apply last_last.
    + rewrite Hf in Hfile. exact Hfile.
Qed.

Lemma file_failure_is_not_fatal_witness :
  keeps_file (run_calibration (mkEnv true true true None None false)) /\
  keeps_file (run_3d_calibration 1 100 50 50 5 "Z+"
                (mkEnv true true true None None false)).
Proof.
  destruct (file_failure_is_not_fatal (mkEnv true true true None None false) eq_refl)
    as (Hgrid & Hpyr & _).
  split; [exact Hgrid |].
  apply (Hpyr 1%Z 100 50 50 5 "Z+"%string). reflexivity.
Defined.

(** *** The grid run when every base move arrives *)

Ltac norm :=
  unfold set_polls_clock;
  cbn [polls scripts log data_lines captured clock_ms file
       moving_to timed_out grid_started].

Ltac step := unfold bind at 1; norm.
Ltac step_log := unfold bind at 1; unfold log_text; unfold write_log at 1; norm.
Ltac step_send := unfold bind at 1; unfold sendScript at 1; norm.

Lemma grid_loop_complete (e : env) :
  forall (i : nat) (points : list vector6d_t) (w w1 : world),
    grid_passes e i points w w1 -> grid_loop e i points w = Done tt w1.
Proof.
  induction 1 as [i w | i p rest w w1 w2 Hp Hrest IH]; cbn [grid_loop].
  - reflexivity.
  - unfold bind. rewrite Hp. exact IH.
Qed.

Lemma grid_passes_scripts (e : env) :
  forall (i : nat) (points : list vector6d_t) (w w1 : world),
    grid_passes e i points w w1 ->
    scripts w1 = scripts w ++ map (fun p => movel p MOVE_ACCEL MOVE_SPEED) points.
Proof.
  induction 1 as [i w | i p rest w w1 w2 Hp Hrest IH]; cbn [map].
  - rewrite app_nil_r. reflexivity.
  - rewrite IH. clear IH Hrest.
    assert (Hs : scripts w1 = scripts w ++ [movel p MOVE_ACCEL MOVE_SPEED]).
    { revert Hp. destruct w as [p0 s0 l0 d0 c0 t0 f0]. norm.
      unfold grid_point. step_log. step_send. step.
      match goal with |- context [wait_translation e p 100 ?w0] =>
        destruct (wait_translation_frame e p 100 w0) as (r & p' & c & ->) end.
      norm. destruct r as [| r]; cbn [Nat.leb].
      - step_log. unfold ret. discriminate.
      - unfold bind at 1. unfold sleep_ms at 1. norm.
        unfold bind at 1. rewrite get_current_pose_m_rad_eq. norm.
        unfold bind at 1. unfold push_data_line at 1. norm.
        step_log. step_log.
        unfold bind at 1. unfold trigger_capture, try_catch_std, call_capture.
        destruct (capture_callback e) as [cb |].
        + destruct (cb (i + 1)%nat) as [| [what |]]; norm;
            [ step_log | unfold write_log at 1; norm; step_log | discriminate ];
            unfold ret; intro H; injection H as <-; reflexivity.
        + unfold ret at 1. step_log.
          unfold ret; intro H; injection H as <-; reflexivity. }
    rewrite Hs, <- app_assoc. reflexivity.
Qed.

(** X16.  The grid run when no base move times out.  Once the robot is ready,
    if the nine points are processed without a break, the run completes with
    nine new records numbered 1 to 9, has sent the nine base moves in the
    order of the grid followed by the move back to the centre, and writes
    the records to the calibration-data file (when it opens). *)
Theorem grid_run_completes_when_moves_arrive :
  forall (e : env) (w w1 : world),
    connected e = true -> power_on_ok e = true -> brake_release_ok e = true ->
    let center_pose := seen e (polls w) in
    grid_passes e 0 (grid_points center_pose) (grid_started e w) w1 ->
    exists wf recs,
      run_calibration e w = Done tt wf /\
      data_lines wf = data_lines w ++ recs /\
      map fst recs = seq 1 9 /\
      scripts wf
      = scripts w
        ++ map (fun p => movel p MOVE_ACCEL MOVE_SPEED) (grid_points center_pose)
        ++ [movel center_pose 0.5 0.2] /\
      file wf = (if file_opens e
                 then Some ("workspace/calibration_data.txt"%string, data_lines w ++ recs)
                 else file w).
Proof.
  intros e w w1 Hc Hp Hb center_pose Hpass.
  pose proof (grid_loop_complete e _ _ _ _ Hpass) as Hloop.
  destruct (grid_passes_records e _ _ _ _ Hpass) as (recs & Hd & Hfst & Hfile).
  pose proof (grid_passes_scripts e _ _ _ _ Hpass) as Hs.
  revert Hloop Hd Hfile Hs. subst center_pose.
  destruct w as [p0 s0 l0 d0 c0 t0 f0]. destruct w1 as [p1 s1 l1 d1 c1 t1 f1].
  unfold grid_started. norm. intros Hloop -> -> ->.
  rewrite grid_points_length in Hfst.
  assert (Hrun : run_calibration e (mkWorld p0 s0 l0 d0 c0 t0 f0)
                 = (save_data e "workspace/calibration_data.txt"
                      "Calibration data saved to: " "Failed to open file for writing: " ;;;
                    log_text "Calibration finished. Returning to center..." ;;;
                    sendScript (movel (seen e p0) 0.5 0.2))
                     (mkWorld p1
                        (s0 ++ map (fun p => movel p MOVE_ACCEL MOVE_SPEED)
                                   (grid_points (seen e p0)))
                        l1 (d0 ++ recs) c1 t1 f0)).
  { unfold run_calibration. rewrite Hc, Hp, Hb. cbn [negb].
    step_log. step_log.
    unfold bind at 1. rewrite get_current_pose_m_rad_eq. norm.
    rewrite <- app_assoc. cbn [app].
    unfold bind at 1. rewrite Hloop. reflexivity. }
  rewrite Hrun. clear Hrun Hloop Hpass.
  unfold bind at 1. unfold save_data at 1.
  destruct (file_opens e); unfold write_log at 1; norm;
    step_log; unfold sendScript; norm;
    (eexists; exists recs;
     split; [reflexivity |]; norm;
     split; [reflexivity |];
     split; [exact Hfst |];
     split; [rewrite <- app_assoc; reflexivity | reflexivity]).
Qed.

(** A provider that reports the target at the first poll of each wait lets
    every point pass. *)
Lemma grid_passes_when_obedient (e : env) (f : nat -> list R) :
  get_pose_callback e = Some f -> std_only e ->
  forall (points : list vector6d_t) (i : nat) (w : world),
    (forall j, (j < List.length points)%nat ->
               close_to e (nth j points zero_pose) (polls w + 2 * j) = true) ->
    exists w1, grid_passes e i points w w1 /\ polls w1 = (polls w + 2 * List.length points)%nat.
Proof.
  intros Hf Hstd. induction points as [| p rest IH]; intros i w Hclose.
  - exists w. split; [constructor | cbn; lia].
  - assert (Hnext : forall n, next_poll e n = S n).
    { intro n. unfold next_poll. rewrite Hf. reflexivity. }
    assert (Hw : wait_translation e p 100 (moving_to i p w)
                 = Done 100%nat (set_polls_clock (moving_to i p w)
                                   (Nat.iter 1 (next_poll e) (polls (moving_to i p w)))
                                   (clock_ms (moving_to i p w) + 100 * 0))).
    { apply (wait_translation_converges e p 0 100); [lia | intros j Hj; lia |].
      cbn [Nat.iter nat_rect polls moving_to].
      specialize (Hclose 0%nat ltac:(cbn; lia)).
      rewrite Nat.mul_0_r, Nat.add_0_r in Hclose. exact Hclose. }
    pose proof (grid_point_arrives e i p w _ 99 Hstd Hw) as Hp.
    match type of Hp with _ = Done true ?w' => set (w1 := w') in Hp end.
    assert (Hpolls : polls w1 = (polls w + 2)%nat).
    { subst w1. cbn [polls set_polls_clock moving_to Nat.iter nat_rect].
      rewrite !Hnext. lia. }
    destruct (IH (S i) w1) as (w2 & Hrest & Hpolls2).
    { intros j Hj. rewrite Hpolls.
      specialize (Hclose (S j) ltac:(cbn; lia)). cbn [nth] in Hclose.
      replace (polls w + 2 + 2 * j)%nat with (polls w + 2 * S j)%nat by lia.
      exact Hclose. }
    exists w2. split; [econstructor; eassumption |].
    rewrite Hpolls2, Hpolls. cbn [List.length]. lia.
Qed.

Lemma obedient_provider_is_close :
  forall j, (j < 9)%nat ->
    close_to obedient_env (nth j (grid_points (seen obedient_env 0)) zero_pose)
             (1 + 2 * j) = true.
Proof.
  intros j Hj.
  do 9 (destruct j as [| j];
        [unfold close_to; rewrite translation_close; cbn; unfold GRID_STEP;
         apply Rltb_true; lra |]).
  lia.
Qed.

Lemma grid_run_completes_when_moves_arrive_witness :
  exists wf recs,
    run_calibration obedient_env initial_world = Done tt wf /\
    data_lines wf = recs /\
    map fst recs = seq 1 9 /\
    List.length (scripts wf) = 10%nat /\
    file wf = Some ("workspace/calibration_data.txt"%string, recs).
Proof.
  destruct (grid_passes_when_obedient obedient_env obedient_provider eq_refl
              (std_only_no_capture obedient_env eq_refl)
              (grid_points (seen obedient_env 0)) 0
              (grid_started obedient_env initial_world))
    as (w1 & Hpass & _).
  { intros j Hj. rewrite grid_points_length in Hj.
    apply (obedient_provider_is_close j Hj). }
  destruct (grid_run_completes_when_moves_arrive obedient_env initial_world w1
              eq_refl eq_refl eq_refl Hpass)
    as (wf & recs & Hrun & Hd & Hfst & Hs & Hf).
  exists wf, recs. repeat split; try assumption.
  rewrite Hs. reflexivity.
Defined.

(** *** An exception that is not a std::exception *)

(** X17.  An exception of the capture callback that is not derived from
    std::exception is not absorbed.  In the pyramid run (robot ready, at
    least one layer, a direction whose dither step stays inside the array),
    when the callback throws one at point 1, the run ends by that exception
    right there: the base move and the dither move of point 1 have been sent
    and its record appended, but no restoring move and no move back to the
    centre follows, and the file is not written. *)
Theorem foreign_exception_leaves_the_run :
  forall (e : env) (cb : nat -> call_result) (layers : Z)
         (base_width top_width height tilt_angle : R) (direction : string) (w : world),
    connected e = true -> power_on_ok e = true -> brake_release_ok e = true ->
    in_bounds (direction_axes direction) = true ->
    capture_callback e = Some cb ->
    cb 1%nat = Raised ForeignException ->
    (1 <= layers)%Z ->
    exists wf pose,
      run_3d_calibration layers base_width top_width height tilt_angle direction e w
      = Thrown ForeignException wf /\
      List.length (scripts wf) = (List.length (scripts w) + 2)%nat /\
      data_lines wf = data_lines w ++ [(1%nat, pose)] /\
      captured wf = captured w ++ [1%nat] /\
      file wf = file w.
Proof.
  intros e cb layers base_width top_width height tilt_angle direction w
         Hc Hp Hb Hin Hcb Hraise Hl.
  destruct w as [p0 s0 l0 d0 c0 t0 f0].
  unfold run_3d_calibration. rewrite Hc, Hp, Hb. cbn [negb].
  step_log. step_log.
  unfold bind at 1. rewrite get_current_pose_m_rad_eq. norm.
  destruct (pyramid_targets_nonempty (seen e p0) direction layers
              base_width top_width height Hl) as (target & rest & ->).
  unfold bind at 1. cbn [pyramid_loop]. unfold bind at 1.
  match goal with |- context [pyramid_point e ?l ?t ?a ?tot 0 target ?w0] =>
    destruct (pyramid_point_throws e cb l t a tot 0 target w0 Hin Hcb Hraise)
      as (p & c & lg & pose & ->) end.
  norm. eexists. exists pose.
  split; [reflexivity |]. norm.
  repeat split. rewrite length_app. reflexivity.
Qed.

Lemma foreign_exception_leaves_the_run_witness :
  exists wf pose,
    run_3d_calibration 1 100 50 50 0 "Z+" foreign_env initial_world
    = Thrown ForeignException wf /\
    List.length (scripts wf) = 2%nat /\
    data_lines wf = [(1%nat, pose)] /\
    captured wf = [1%nat] /\
    file wf = None.
Proof.
  apply (foreign_exception_leaves_the_run foreign_env (fun _ => Raised ForeignException)
           1 100 50 50 0 "Z+" initial_world eq_refl eq_refl eq_refl eq_refl eq_refl eq_refl).
  lia.
Defined.

(** *** The write past the end of the dither pose *)

Lemma pyramid_point_undefined (e : env) (layers : Z) (tilt_angle : R) (a : axes)
    (total i : nat) (target : vector6d_t) (w : world) :
  in_bounds a = false ->
  pyramid_point e layers tilt_angle a total i target w = Undefined.
Proof.
  intro Hout.
  destruct (dither_out_of_bounds layers tilt_angle a i target Hout) as (j & d & p & Hd).
  destruct w as [p0 s0 l0 d0 c0 t0 f0].
  unfold pyramid_point.
  step_log. step_send. step.
  match goal with |- context [wait_translation e target 200 ?w0] =>
    destruct (wait_translation_frame e target 200 w0) as (r1 & p1 & c1 & ->) end.
  norm. unfold bind at 1. rewrite Hd. reflexivity.
Qed.

(** X29.  For X+, X-, Y+ and Y- the pyramid run does not get past its first
    point.  Once the robot is ready and there is at least one layer, whatever
    the callbacks answer and whatever the other parameters are, the run
    comes to the write past the end of the dither pose, and from there on
    the behaviour of the program is undefined. *)
Theorem dither_write_past_end_is_reached :
  forall (e : env) (layers : Z) (base_width top_width height tilt_angle : R)
         (direction : string) (w : world),
    connected e = true -> power_on_ok e = true -> brake_release_ok e = true ->
    In direction ["X+"; "X-"; "Y+"; "Y-"]%string ->
    (1 <= layers)%Z ->
    run_3d_calibration layers base_width top_width height tilt_angle direction e w
    = Undefined.
Proof.
  intros e layers base_width top_width height tilt_angle direction w Hc Hp Hb Hdir Hl.
  assert (Hout : in_bounds (direction_axes direction) = false).
  { cbn [In] in Hdir.
    destruct Hdir as [<- | [<- | [<- | [<- | []]]]]; reflexivity. }
  destruct w as [p0 s0 l0 d0 c0 t0 f0].
  unfold run_3d_calibration. rewrite Hc, Hp, Hb. cbn [negb].
  step_log. step_log.
  unfold bind at 1. rewrite get_current_pose_m_rad_eq. norm.
  destruct (pyramid_targets_nonempty (seen e p0) direction layers
              base_width top_width height Hl) as (target & rest & ->).
  unfold bind at 1. cbn [pyramid_loop]. unfold bind at 1.
  rewrite pyramid_point_undefined by exact Hout. reflexivity.
Qed.

Lemma dither_write_past_end_is_reached_witness :
  run_3d_calibration 2 100 50 50 5 "Y-" no_pose_env initial_world = Undefined.
Proof.
  apply (dither_write_past_end_is_reached no_pose_env 2 100 50 50 5 "Y-" initial_world
           eq_refl eq_refl eq_refl).
  - cbn [In]. do 3 right. left. reflexivity.
  - lia.
Defined.

Lemma pyramid_scripts_length (layers : Z) (tilt_angle : R) (a : axes)
    (targets : list vector6d_t) :
  forall i, List.length (pyramid_scripts layers tilt_angle a i targets)
            = (3 * List.length targets)%nat.
Proof.
  induction targets as [| t rest IH]; intro i; cbn [pyramid_scripts List.length app].
  - reflexivity.
  - rewrite IH. lia.
Qed.

(** X18.  The scripts of the pyramid run (robot ready, capture raising
    nothing but std::exception), for a direction whose dither step stays
    inside the array (Z+ or Z-): three moves per target and one move back to
    the centre, 3 * 4 * layers + 1 in all.  With layers <= 0 there is no
    target, whatever the direction: the run polls the centre pose, records
    nothing, and its only script is the move back to the centre. *)
Theorem pyramid_run_scripts :
  forall (e : env) (layers : Z) (base_width top_width height tilt_angle : R)
         (direction : string) (w : world),
    connected e = true -> power_on_ok e = true -> brake_release_ok e = true ->
    std_only e ->
    in_bounds (direction_axes direction) = true \/ (layers <= 0)%Z ->
    exists wf,
      run_3d_calibration layers base_width top_width height tilt_angle direction e w
      = Done tt wf /\
      List.length (scripts wf)
      = (List.length (scripts w) + 3 * (Z.to_nat layers * 4) + 1)%nat /\
      ((layers <= 0)%Z ->
       scripts wf = scripts w ++ [movel (seen e (polls w)) 0.5 0.2] /\
       data_lines wf = data_lines w /\ captured wf = captured w).
Proof.
  intros e layers base_width top_width height tilt_angle direction w Hc Hp Hb Hstd Hin.
  destruct (run_3d_calibration_spec layers base_width top_width height tilt_angle
              direction e w Hc Hp Hb Hstd Hin)
    as (wf & Hrun & Hlen & Hd & Hcap & Hs & _).
  exists wf. split; [exact Hrun | split].
  - rewrite Hs, !length_app, pyramid_scripts_length, pyramid_targets_length.
    cbn [List.length]. lia.
  - intro Hl.
    assert (Hn : Z.to_nat layers = 0%nat) by lia.
    unfold pyramid_targets in Hs, Hd. rewrite Hn in *.
    cbn in Hs, Hd, Hcap.
    rewrite app_nil_r in Hd, Hcap.
    repeat split; assumption.
Qed.

Lemma pyramid_run_scripts_witness :
  exists wf,
    run_3d_calibration 2 100 50 50 5 "Z-" no_pose_env initial_world = Done tt wf /\
    List.length (scripts wf) = 25%nat.
Proof.
  destruct (pyramid_run_scripts no_pose_env 2 100 50 50 5 "Z-" initial_world
              eq_refl eq_refl eq_refl (std_only_no_capture no_pose_env eq_refl)
              (or_introl eq_refl))
    as (wf & Hrun & Hlen & _).
  exists wf. split; [exact Hrun | exact Hlen].
Defined.

(** *** The dither wait *)

(** X19.  What the result of the dither wait tells.  The wait completes with
    some number r <= timeout of attempts left.  If r > 0, the poll at which
    it stopped (the poll number timeout - r of the wait) showed a pose within
    0.002 m in translation and within 0.05 rad in rotation of the target, and
    no earlier poll did.  If r = 0, none of the timeout polls did: a pose
    that is in place but still turned the wrong way by 0.05 rad or more does
    not end the wait. *)
Theorem wait_dither_result :
  forall (e : env) (target : vector6d_t) (timeout : nat) (w : world),
    exists r w',
      wait_dither e target timeout w = Done r w' /\
      (r <= timeout)%nat /\
      (forall j, (j < timeout - r)%nat ->
                 settled e target (Nat.iter j (next_poll e) (polls w)) = false) /\
      ((0 < r)%nat ->
       let n := Nat.iter (timeout - r) (next_poll e) (polls w) in
       translation_distance (seen e n) target < 0.002 /\
       rotation_distance (seen e n) target < 0.05).
Proof.
  intros e target. induction timeout as [| t IH]; intro w.
  - exists 0%nat, w. split; [reflexivity | split; [lia | split]].
    + intros j Hj. lia.
    + intro H. lia.
  - rewrite wait_dither_step.
    destruct (settled e target (polls w)) eqn:Hs.
    + do 2 eexists. split; [reflexivity | split; [lia | split]].
      * intros j Hj. lia.
      * intros _. rewrite Nat.sub_diag. cbn [Nat.iter nat_rect].
        unfold settled in Hs. apply andb_prop in Hs. destruct Hs as [H1 H2].
        apply Rltb_true_lt in H1. apply Rltb_true_lt in H2. split; assumption.
    + destruct (IH (set_polls_clock w (next_poll e (polls w)) (clock_ms w + 100)))
        as (r & w' & Hrun & Hr & Hfar & Hnear).
      cbn [polls set_polls_clock] in Hfar, Hnear.
      exists r, w'. split; [exact Hrun | split; [lia | split]].
      * intros j Hj. destruct j as [| j]; [exact Hs |].
        rewrite <- iter_shift. apply Hfar. lia.
      * intro Hpos. specialize (Hnear Hpos). cbv zeta in Hnear |- *.
        replace (S t - r)%nat with (S (t - r)) by lia.
        rewrite <- iter_shift. exact Hnear.
Qed.

Lemma wait_dither_result_witness :
  exists r w',
    wait_dither third_poll_env zero_pose 5 initial_world = Done r w' /\ (r <= 5)%nat.
Proof.
  destruct (wait_dither_result third_poll_env zero_pose 5 initial_world)
    as (r & w' & Hrun & Hle & _).
  exists r, w'. split; [exact Hrun | exact Hle].
Defined.

End EngineMore.

(** ** Controller *)

Section ControllerFacts.

Import Geometry Controller.

Lemma connect_keeps_pointers (ip : string) (k : sdk) (c : controller) :
  pointers_behind_flag c -> pointers_behind_flag (snd (connect ip k c)).
Proof.
  unfold pointers_behind_flag, connect. intro Hinv.
  destruct (new_dashboard k); cbn; [| exact Hinv].
  destruct (new_primary k); cbn; [| intro H; destruct (Hinv H) as (? & ? & ?); auto].
  destruct (new_rtsi k); cbn; [| intro H; destruct (Hinv H) as (? & ? & ?); auto].
  destruct (dashboard_connect k) as [db_ok |]; cbn; [| auto].
  destruct (primary_connect k) as [pri_ok |]; cbn; [| auto].
  destruct (rtsi_connect k) as [rtsi_ok |]; cbn; [| auto].
  destruct (db_ok && pri_ok); cbn; [| auto].
  destruct (dashboard_powerOn k); cbn; [| auto].
  destruct (dashboard_brakeRelease k); cbn; auto.
Qed.

Lemma apply_operation_keeps_pointers (o : operation) (c : controller) :
  pointers_behind_flag c ->
  exists c', apply_operation o c = Some c' /\ pointers_behind_flag c'.
Proof.
  intro Hinv. destruct o; cbn [apply_operation].
  - eexists. split; [reflexivity | apply connect_keeps_pointers, Hinv].
  - eexists. split; [reflexivity |]. unfold pointers_behind_flag, disconnect; cbn.
    discriminate.
  - eexists. split; [reflexivity |]. exact Hinv.
  - unfold jog.
    destruct (is_connected c) eqn:Hc; cbn [negb orb].
    + destruct (Hinv Hc) as (Hd & Hp & Hr). rewrite Hp, Hr. cbn [negb].
      destruct (List.length pose <? 6)%nat.
      * eexists. split; [reflexivity | exact Hinv].
      * eexists. split; [reflexivity |].
        unfold pointers_behind_flag in *; cbn. exact Hinv.
    + eexists. split; [reflexivity | exact Hinv].
  - unfold moveTo. destruct (negb (is_connected c) || negb (primary c));
      (eexists; split; [reflexivity | exact Hinv]).
  - unfold stop. destruct (negb (primary c));
      (eexists; split; [reflexivity | exact Hinv]).
Qed.

(** X20.  Whatever calls are made on a fresh controller, with whatever
    answers of the SDK (exceptions included), [is_connected] is only true
    when the three pointers [dashboard], [primary] and [rtsi] are set; so no
    call dereferences a null pointer, in particular not the unguarded
    [rtsi->getActualTCPPose()] of [jog]. *)
Theorem controller_never_dereferences_null :
  forall ops : list operation,
    exists c, run_operations ops initial = Some c /\
              (is_connected c = true ->
               dashboard c = true /\ primary c = true /\ rtsi c = true).
Proof.
  assert (H : forall ops c, pointers_behind_flag c ->
                exists c', run_operations ops c = Some c' /\ pointers_behind_flag c').
  { induction ops as [| o rest IH]; intros c Hinv; cbn [run_operations].
    - eauto.
    - destruct (apply_operation_keeps_pointers o c Hinv) as (c' & -> & Hinv').
      apply IH, Hinv'. }
  intro ops. apply H. unfold pointers_behind_flag, initial; cbn. discriminate.
Qed.

Lemma controller_never_dereferences_null_witness :
  exists c,
    run_operations [OpConnect "10.0.0.1" sdk_ok;
                    OpJog 0 1 10 [0; 0; 0; 0; 0; 0] true] initial = Some c /\
    dashboard c = true /\ primary c = true /\ rtsi c = true.
Proof.
  destruct (controller_never_dereferences_null
              [OpConnect "10.0.0.1" sdk_ok; OpJog 0 1 10 [0; 0; 0; 0; 0; 0] true])
    as (c & Hrun & Hinv).
  exists c. split; [exact Hrun |]. apply Hinv.
  cbn in Hrun. injection Hrun as <-. reflexivity.
Defined.

(** X21.  The result of [connect].  It returns true exactly when no call
    throws and both the dashboard and the primary port connect; the answer
    of the RTSI connection and the values returned by [powerOn] and
    [brakeRelease] play no part.  A true result sets [is_connected]; no
    result ever clears it: a controller that was connected still says so
    after a failed reconnect. *)
Theorem connect_result :
  forall (ip : string) (k : sdk) (c : controller),
    (fst (connect ip k c) = true <->
     (new_dashboard k = Returns tt /\ new_primary k = Returns tt /\
      new_rtsi k = Returns tt /\
      dashboard_connect k = Returns true /\ primary_connect k = Returns true /\
      rtsi_connect k <> Throws /\
      dashboard_powerOn k <> Throws /\ dashboard_brakeRelease k <> Throws)) /\
    (fst (connect ip k c) = true -> is_connected (snd (connect ip k c)) = true) /\
    (is_connected c = true -> is_connected (snd (connect ip k c)) = true).
Proof.
  intros ip k c. unfold connect.
  destruct (new_dashboard k) as [[] |]; cbn;
    [| split; [split; [discriminate | intros (H & _); discriminate] | split; auto; discriminate]].
  destruct (new_primary k) as [[] |]; cbn;
    [| split; [split; [discriminate | intros (_ & H & _); discriminate] | split; auto; discriminate]].
  destruct (new_rtsi k) as [[] |]; cbn;
    [| split; [split; [discriminate | intros (_ & _ & H & _); discriminate] | split; auto; discriminate]].
  destruct (dashboard_connect k) as [db_ok |]; cbn;
    [| split; [split; [discriminate | intros (_ & _ & _ & H & _); discriminate] | split; auto; discriminate]].
  destruct (primary_connect k) as [pri_ok |]; cbn;
    [| split; [split; [discriminate | intros (_ & _ & _ & _ & H & _); discriminate] | split; auto; discriminate]].
  destruct (rtsi_connect k) as [rtsi_ok |]; cbn;
    [| split; [split; [discriminate | intros (_ & _ & _ & _ & _ & H & _); congruence] | split; auto; discriminate]].
  destruct db_ok, pri_ok; cbn;
    try (split; [split; [discriminate | intros (_ & _ & _ & H1 & H2 & _); discriminate]
                | split; auto; discriminate]).
  destruct (dashboard_powerOn k) as [po |]; cbn;
    [| split; [split; [discriminate | intros (_ & _ & _ & _ & _ & _ & H & _); congruence] | split; auto]].
  destruct (dashboard_brakeRelease k) as [br |]; cbn;
    [| split; [split; [discriminate | intros (_ & _ & _ & _ & _ & _ & _ & H); congruence] | split; auto]].
  split; [| split; auto].
  split; [intros _ | reflexivity].
  repeat split; discriminate.
Qed.

Lemma connect_result_witness :
  is_connected (snd (connect "10.0.0.2" sdk_refused (snd (connect "10.0.0.1" sdk_ok initial))))
  = true.
Proof.
  apply (proj2 (proj2 (connect_result "10.0.0.2" sdk_refused
                         (snd (connect "10.0.0.1" sdk_ok initial))))).
  apply (proj1 (proj2 (connect_result "10.0.0.1" sdk_ok initial))).
  reflexivity.
Defined.

(** X22.  After [disconnect], whatever the controller was: [jog] (both
    versions) and [moveTo] return false and send nothing, while [stop]
    still sends stopj(2.0) as soon as a primary port object exists, and
    returns the answer of the port. *)
Theorem disconnected_controller_only_stops :
  forall (c : controller) (axis direction : Z) (distance_mm : R) (pose : list R)
         (x y z rx ry rz : R) (accepted : bool),
    let d := disconnect c in
    jog axis direction distance_mm pose accepted d = Value (false, d) /\
    jog6 axis direction distance_mm accepted d = (false, d) /\
    moveTo x y z rx ry rz accepted d = (false, d) /\
    (primary c = true ->
     fst (stop accepted d) = accepted /\
     sent (snd (stop accepted d)) = sent c ++ [StopJ 2.0]) /\
    (primary c = false -> stop accepted d = (false, d)).
Proof.
  intros. subst d. unfold jog, jog6, moveTo, stop, disconnect; cbn.
  split; [reflexivity | split; [reflexivity | split; [reflexivity | split]]].
  - intro Hp. rewrite Hp. cbn. split; reflexivity.
  - intro Hp. rewrite Hp. reflexivity.
Qed.

Lemma disconnected_controller_only_stops_witness :
  fst (stop true (disconnect (snd (connect "10.0.0.1" sdk_ok initial)))) = true /\
  sent (snd (stop true (disconnect (snd (connect "10.0.0.1" sdk_ok initial)))))
  = sent (snd (connect "10.0.0.1" sdk_ok initial)) ++ [StopJ 2.0].
Proof.
  apply (disconnected_controller_only_stops (snd (connect "10.0.0.1" sdk_ok initial))
           0 1 10 [] 0 0 0 0 0 0 true).
  reflexivity.
Defined.

Lemma setSpeed_range (percent : R) :
  0.01 <= Rmax 0.01 (Rmin 1.0 (percent / 100.0)) <= 1.
Proof.
  unfold Rmax, Rmin.
  destruct (Rle_dec 1.0 (percent / 100.0)); destruct (Rle_dec 0.01 _); lra.
Qed.

Lemma sendScript_keeps_speed (cmd : command) (c : controller) :
  speed_in_range c ->
  (forall v, command_speed cmd = Some v -> v = global_speed c) ->
  speed_in_range
    (mkController (robot_ip c) (dashboard c) (primary c) (rtsi c) (is_connected c)
                  (global_speed c) (sent c ++ [cmd]) (speed_scaling c)).
Proof.
  intros [Hg Hs] Hcmd. unfold speed_in_range; cbn. split; [exact Hg |].
  intros cmd' v Hin Hv. apply in_app_or in Hin. destruct Hin as [Hin | [<- | []]].
  - eapply Hs; eassumption.
  - rewrite (Hcmd v Hv). exact Hg.
Qed.

Lemma apply_operation_keeps_speed (o : operation) (c c' : controller) :
  speed_in_range c -> apply_operation o c = Some c' -> speed_in_range c'.
Proof.
  intros Hinv Hop. destruct o; cbn [apply_operation] in Hop.
  - injection Hop as <-. unfold connect.
    destruct (new_dashboard k); [| exact Hinv].
    destruct (new_primary k); [| exact Hinv].
    destruct (new_rtsi k); [| exact Hinv].
    destruct (dashboard_connect k) as [db_ok |]; [| exact Hinv].
    destruct (primary_connect k) as [pri_ok |]; [| exact Hinv].
    destruct (rtsi_connect k) as [rtsi_ok |]; [| exact Hinv].
    destruct (db_ok && pri_ok); [| exact Hinv].
    destruct (dashboard_powerOn k); [| exact Hinv].
    destruct (dashboard_brakeRelease k); exact Hinv.
  - injection Hop as <-. exact Hinv.
  - injection Hop as <-. destruct Hinv as [_ Hs].
    split; [apply setSpeed_range | exact Hs].
  - unfold jog in Hop.
    destruct (negb (is_connected c) || negb (primary c));
      [injection Hop as <-; exact Hinv |].
    destruct (negb (rtsi c)); [discriminate |].
    destruct (List.length pose <? 6)%nat; [injection Hop as <-; exact Hinv |].
    unfold sendScript in Hop. cbn [snd] in Hop. injection Hop as <-.
    apply sendScript_keeps_speed; [exact Hinv |].
    intros v Hv. injection Hv as <-. reflexivity.
  - injection Hop as <-. unfold moveTo.
    destruct (negb (is_connected c) || negb (primary c)); [exact Hinv |].
    unfold sendScript. cbn [snd].
    apply sendScript_keeps_speed; [exact Hinv |].
    intros v Hv. injection Hv as <-. reflexivity.
  - injection Hop as <-. unfold stop.
    destruct (negb (primary c)); [exact Hinv |].
    unfold sendScript. cbn [snd].
    apply sendScript_keeps_speed; [exact Hinv |]. intros v Hv. discriminate.
Qed.

(** X23.  The speed is clamped.  [setSpeed] stores percent / 100 limited to
    [0.01, 1]: a request within 1..100 percent is stored as it is, one
    below 1 percent (zero and negative values included) as 0.01, one above
    100 percent as 1.  Hence, whatever calls are made on a fresh controller
    (whose speed is 0.5), every move script it sends carries a speed v with
    0.01 <= v <= 1. *)
Theorem speed_is_clamped :
  (forall (percent : R) (c : controller),
      let v := global_speed (setSpeed percent c) in
      0.01 <= v <= 1 /\
      (1 <= percent <= 100 -> v = percent / 100) /\
      (percent <= 1 -> v = 0.01) /\
      (100 <= percent -> v = 1)) /\
  (forall (ops : list operation) (c : controller),
      run_operations ops initial = Some c ->
      0.01 <= global_speed c <= 1 /\
      forall cmd v, In cmd (sent c) -> command_speed cmd = Some v -> 0.01 <= v <= 1).
Proof.
  split.
  - intros percent c v. subst v. unfold setSpeed; cbn [global_speed].
    split; [apply setSpeed_range |].
    unfold Rmax, Rmin.
    destruct (Rle_dec 1.0 (percent / 100.0)); destruct (Rle_dec 0.01 _);
      repeat split; intros; lra.
  - assert (H : forall ops c0 c, speed_in_range c0 ->
                  run_operations ops c0 = Some c -> speed_in_range c).
    { induction ops as [| o rest IH]; intros c0 c Hinv Hrun; cbn [run_operations] in Hrun.
      - injection Hrun as <-. exact Hinv.
      - destruct (apply_operation o c0) as [c1 |] eqn:Hop; [| discriminate].
        apply (IH c1 c); [| exact Hrun].
        apply (apply_operation_keeps_speed o c0 c1 Hinv Hop). }
    intros ops c Hrun. apply (H ops initial c); [| exact Hrun].
    unfold speed_in_range, initial; cbn. split; [lra |]. intros cmd v [].
Qed.

Lemma speed_is_clamped_witness :
  global_speed (setSpeed 250 initial) = 1 /\
  global_speed (setSpeed (-5) initial) = 0.01 /\
  global_speed (setSpeed 40 initial) = 40 / 100.
Proof.
  destruct speed_is_clamped as [H _].
  split; [| split].
  - apply (H 250 initial). lra.
  - apply (H (-5) initial). lra.
  - apply (H 40 initial). lra.
Defined.

(** X24.  The offsets of a jog.  On a connected controller (pose available)
    both versions of [jog] send one movel(pose_add(...)) script with
    a = 0.5 and the current speed, and return the answer of the port.  For
    an axis 0, 1 or 2 the two versions send the same offsets: direction *
    distance / 1000 on that axis and 0 elsewhere.  For an axis 3, 4 or 5 the
    version of elite_ext.cpp sends six zeros, while the other version puts
    the offset on that rotation component.  For any other axis both send six
    zeros. *)
Theorem jog_offsets :
  forall (axis direction : Z) (distance_mm : R) (pose : list R) (accepted : bool)
         (c : controller),
    is_connected c = true -> primary c = true -> rtsi c = true ->
    (6 <= List.length pose)%nat ->
    let offset := IZR direction * (distance_mm / 1000) in
    let sends := fun offsets =>
      (accepted,
       mkController (robot_ip c) (dashboard c) (primary c) (rtsi c) (is_connected c)
                    (global_speed c)
                    (sent c ++ [MoveLAdd offsets 0.5 (global_speed c)])
                    (speed_scaling c)) in
    ((0 <= axis < 3)%Z ->
     jog axis direction distance_mm pose accepted c
     = Value (sends (set_at zero_pose (Z.to_nat axis) offset)) /\
     jog6 axis direction distance_mm accepted c
     = sends (set_at zero_pose (Z.to_nat axis) offset)) /\
    ((3 <= axis < 6)%Z ->
     jog axis direction distance_mm pose accepted c = Value (sends zero_pose) /\
     jog6 axis direction distance_mm accepted c
     = sends (set_at zero_pose (Z.to_nat axis) offset)) /\
    ((axis < 0 \/ 6 <= axis)%Z ->
     jog axis direction distance_mm pose accepted c = Value (sends zero_pose) /\
     jog6 axis direction distance_mm accepted c = sends zero_pose).
Proof.
  intros axis direction distance_mm pose accepted c Hc Hp Hr Hlen offset sends.
  subst offset sends. unfold jog, jog6, sendScript.
  rewrite Hc, Hp, Hr. cbn [negb orb].
  assert (Hl : (List.length pose <? 6)%nat = false) by (apply Nat.ltb_ge; lia).
  rewrite Hl.
  replace (distance_mm / 1000.0) with (distance_mm / 1000) by lra.
  split; [| split]; intro Hax.
  - assert (H3 : ((0 <=? axis) && (axis <? 3))%Z = true)
      by (apply andb_true_intro; split; [apply Z.leb_le | apply Z.ltb_lt]; lia).
    assert (H6 : ((0 <=? axis) && (axis <? 6))%Z = true)
      by (apply andb_true_intro; split; [apply Z.leb_le | apply Z.ltb_lt]; lia).
    rewrite H3, H6. split; reflexivity.
  - assert (H3 : ((0 <=? axis) && (axis <? 3))%Z = false)
      by (apply andb_false_intro2; apply Z.ltb_ge; lia).
    assert (H6 : ((0 <=? axis) && (axis <? 6))%Z = true)
      by (apply andb_true_intro; split; [apply Z.leb_le | apply Z.ltb_lt]; lia).
    rewrite H3, H6. split; reflexivity.
  - assert (H3 : ((0 <=? axis) && (axis <? 3))%Z = false).
    { destruct Hax; [apply andb_false_intro1; apply Z.leb_gt
                    | apply andb_false_intro2; apply Z.ltb_ge]; lia. }
    assert (H6 : ((0 <=? axis) && (axis <? 6))%Z = false).
    { destruct Hax; [apply andb_false_intro1; apply Z.leb_gt
                    | apply andb_false_intro2; apply Z.ltb_ge]; lia. }
    rewrite H3, H6. split; reflexivity.
Qed.

Lemma jog_offsets_witness :
  let c := snd (connect "10.0.0.1" sdk_ok initial) in
  sent (snd (match jog 4 1 10 [0; 0; 0; 0; 0; 0] true c with
             | Value r => r
             | NullDeref => (false, c)
             end))
  = [MoveLAdd zero_pose 0.5 0.5] /\
  sent (snd (jog6 4 1 10 true c))
  = [MoveLAdd (set_at zero_pose 4 (IZR 1 * (10 / 1000))) 0.5 0.5].
Proof.
  intro c.
  destruct (jog_offsets 4 1 10 [0; 0; 0; 0; 0; 0] true c
              eq_refl eq_refl eq_refl ltac:(cbn; lia)) as (_ & H & _).
  destruct (H ltac:(lia)) as [-> ->]. split; reflexivity.
Defined.

(** X25.  Units across the pose interfaces.  [getPosition] multiplies the
    pose of the robot (m, rad) by 1000 and 57.29578; the pose helper of the
    calibration runs divides by the same constants, and so does [moveTo].
    Hence, with RTSI up and a pose of six values, the calibration helper
    applied to the answer of [getPosition] gives back the pose of the robot,
    and [moveTo] applied to it sends a movel to that very pose.  When RTSI is
    missing or down, or the pose is short, [getPosition] answers the empty
    list, which the calibration helper turns into the zero pose. *)
Theorem pose_units_round_trip :
  forall (p0 p1 p2 p3 p4 p5 : R) (more : list R) (accepted : bool) (c : controller),
    let pose := p0 :: p1 :: p2 :: p3 :: p4 :: p5 :: more in
    let robot := mkPose p0 p1 p2 p3 p4 p5 in
    (rtsi c = true ->
     Engine.pose_m_rad (getPosition true pose c) = robot /\
     (is_connected c = true -> primary c = true ->
      forall x y z rx ry rz,
        getPosition true pose c = [x; y; z; rx; ry; rz] ->
        sent (snd (moveTo x y z rx ry rz accepted c))
        = sent c ++ [MoveL robot 0.5 (global_speed c)])) /\
    (forall rtsi_up short,
        rtsi c = false \/ rtsi_up = false \/ (List.length short < 6)%nat ->
        getPosition rtsi_up short c = [] /\
        Engine.pose_m_rad (getPosition rtsi_up short c) = zero_pose).
Proof.
  intros p0 p1 p2 p3 p4 p5 more accepted c pose robot. subst pose robot. split.
  - intro Hr. unfold getPosition. rewrite Hr. cbn. split.
    + apply pose_eq; cbn; lra.
    + intros Hc Hp x y z rx ry rz Heq.
      injection Heq as <- <- <- <- <- <-.
      unfold moveTo, Controller.sendScript. rewrite Hc, Hp. cbn.
      do 2 f_equal. f_equal. apply pose_eq; cbn; lra.
  - intros rtsi_up short H.
    assert (Hempty : getPosition rtsi_up short c = []).
    { unfold getPosition. destruct H as [-> | [-> | H]].
      - reflexivity.
      - destruct (negb (rtsi c)); reflexivity.
      - apply Nat.ltb_lt in H. rewrite H.
        destruct (negb (rtsi c) || negb rtsi_up); reflexivity. }
    rewrite Hempty. split; reflexivity.
Qed.

Lemma pose_units_round_trip_witness :
  let c := snd (connect "10.0.0.1" sdk_ok initial) in
  Engine.pose_m_rad (getPosition true [0.3; 0.1; 0.5; 0; 3; 0] c)
  = mkPose 0.3 0.1 0.5 0 3 0 /\
  Engine.pose_m_rad (getPosition false [0.3; 0.1; 0.5; 0; 3; 0] c) = zero_pose.
Proof.
  intro c.
  destruct (pose_units_round_trip 0.3 0.1 0.5 0 3 0 [] true c) as [Hup Hdown].
  split.
  - apply Hup. reflexivity.
  - apply (Hdown false [0.3; 0.1; 0.5; 0; 3; 0]). right. left. reflexivity.
Defined.

End ControllerFacts.

(** ** Vision *)

Section VisionFacts.

Import Vision.

(** X26.  The clamped region lies inside the image.  For an image with at
    least one column and one row, whatever region is asked for: the corner
    (x, y) is a pixel of the image, x + width <= cols and y + height <= rows,
    and the width and height do not exceed those asked for.  A width and a
    height of at least 1 stay at least 1, and a region already inside the
    image is left as it is.  A width or height <= 0 is not raised: it comes
    out as it went in. *)
Theorem clamp_roi_inside :
  forall (cols rows : Z) (r : roi),
    (1 <= cols)%Z -> (1 <= rows)%Z ->
    let c := clamp_roi cols rows r in
    (0 <= roi_x c < cols /\ 0 <= roi_y c < rows /\
     roi_x c + roi_width c <= cols /\ roi_y c + roi_height c <= rows /\
     roi_width c <= roi_width r /\ roi_height c <= roi_height r)%Z /\
    ((1 <= roi_width r)%Z -> (1 <= roi_width c)%Z) /\
    ((1 <= roi_height r)%Z -> (1 <= roi_height c)%Z) /\
    ((0 <= roi_x r /\ 0 <= roi_y r /\ 1 <= roi_width r /\ 1 <= roi_height r /\
      roi_x r + roi_width r <= cols /\ roi_y r + roi_height r <= rows)%Z -> c = r) /\
    ((roi_width r <= 0)%Z -> roi_width c = roi_width r) /\
    ((roi_height r <= 0)%Z -> roi_height c = roi_height r).
Proof.
  intros cols rows [x y w h] Hc Hr. unfold clamp_roi; cbn.
  repeat split; try lia.
  intros (Hx & Hy & Hw & Hh & Hxw & Hyh). f_equal; lia.
Qed.

Lemma clamp_roi_inside_witness :
  (0 <= roi_x (clamp_roi 640 480 (mkRoi 700 (-5) 100 100)) < 640)%Z /\
  (roi_x (clamp_roi 640 480 (mkRoi 700 (-5) 100 100))
   + roi_width (clamp_roi 640 480 (mkRoi 700 (-5) 100 100)) <= 640)%Z /\
  (1 <= roi_width (clamp_roi 640 480 (mkRoi 700 (-5) 100 100)))%Z.
Proof.
  destruct (clamp_roi_inside 640 480 (mkRoi 700 (-5) 100 100)) as (Hin & Hw & _);
    [lia | lia |].
  destruct Hin as (Hx & _ & Hxw & _).
  split; [exact Hx | split; [exact Hxw | apply Hw; cbn; lia]].
Defined.

(** X27.  The region of [template_matching] is never empty on a non-empty
    image: it lies inside the image and is at least one pixel wide and high,
    whatever is asked for; a request with a width or height <= 0 selects the
    whole image. *)
Theorem template_roi_nonempty :
  forall (cols rows : Z) (r : roi),
    (1 <= cols)%Z -> (1 <= rows)%Z ->
    let t := template_roi cols rows r in
    (0 <= roi_x t /\ 0 <= roi_y t /\ 1 <= roi_width t /\ 1 <= roi_height t /\
     roi_x t + roi_width t <= cols /\ roi_y t + roi_height t <= rows)%Z /\
    ((roi_width r <= 0 \/ roi_height r <= 0)%Z -> t = mkRoi 0 0 cols rows).
Proof.
  intros cols rows [x y w h] Hc Hr. unfold template_roi; cbn.
  destruct (w <=? 0)%Z eqn:Hw; destruct (h <=? 0)%Z eqn:Hh; cbn;
    try apply Z.leb_le in Hw; try apply Z.leb_le in Hh;
    try apply Z.leb_gt in Hw; try apply Z.leb_gt in Hh;
    unfold clamp_roi; cbn; (split; [lia |]); intro H; try reflexivity; lia.
Qed.

Lemma template_roi_nonempty_witness :
  template_roi 640 480 (mkRoi 10 10 0 50) = mkRoi 0 0 640 480.
Proof.
  apply (proj2 (template_roi_nonempty 640 480 (mkRoi 10 10 0 50)
                  ltac:(lia) ltac:(lia))).
  left. cbn. lia.
Defined.

Lemma scan_row_in (sqdiff : bool) (threshold : R) (rx ry y : Z) (row : list R) :
  forall (x mx my : Z) (v : R),
    In (mx, my, v) (scan_row sqdiff threshold rx ry y x row) <->
    exists k : nat,
      nth_error row k = Some v /\ match_found sqdiff threshold v = true /\
      mx = (x + Z.of_nat k + rx)%Z /\ my = (y + ry)%Z.
Proof.
  induction row as [| val rest IH]; intros x mx my v; cbn [scan_row].
  - split; [intros [] | intros (k & Hk & _)]. destruct k; discriminate.
  - rewrite in_app_iff, IH. split.
    + intros [Hhere | (k & Hk & Hf & Hx & Hy)].
      * destruct (match_found sqdiff threshold val) eqn:Hf; [| destruct Hhere].
        destruct Hhere as [Heq | []]. injection Heq as <- <- <-.
        exists 0%nat. cbn. repeat split; [exact Hf | lia].
      * exists (S k). cbn. repeat split; [exact Hk | exact Hf | lia | exact Hy].
    + intros (k & Hk & Hf & Hx & Hy). destruct k as [| k]; cbn in Hk.
      * injection Hk as ->. left. rewrite Hf. left. subst. f_equal. f_equal. lia.
      * right. exists k. repeat split; [exact Hk | exact Hf | lia | exact Hy].
Qed.

Lemma scan_rows_in (sqdiff : bool) (threshold : R) (rx ry : Z) (result : list (list R)) :
  forall (y mx my : Z) (v : R),
    In (mx, my, v) (scan_rows sqdiff threshold rx ry y result) <->
    exists (j k : nat) (row : list R),
      nth_error result j = Some row /\ nth_error row k = Some v /\
      match_found sqdiff threshold v = true /\
      mx = (Z.of_nat k + rx)%Z /\ my = (y + Z.of_nat j + ry)%Z.
Proof.
  induction result as [| row rest IH]; intros y mx my v; cbn [scan_rows].
  - split; [intros [] | intros (j & k & r & Hj & _)]. destruct j; discriminate.
  - rewrite in_app_iff, scan_row_in, IH. split.
    + intros [(k & Hk & Hf & Hx & Hy) | (j & k & r & Hj & Hk & Hf & Hx & Hy)].
      * exists 0%nat, k, row. cbn. repeat split; try assumption; lia.
      * exists (S j), k, r. cbn [nth_error]. repeat split; try assumption; lia.
    + intros (j & k & r & Hj & Hk & Hf & Hx & Hy). destruct j as [| j]; cbn in Hj.
      * injection Hj as ->. left. exists k. repeat split; try assumption; lia.
      * right. exists j, k, r. repeat split; try assumption; lia.
Qed.

(** X28.  The matches of [template_matching].  In the multiple-match branch a
    triple (x, y, score) is reported exactly when score is the entry of the
    result matrix at row y - roi_y and column x - roi_x and passes the test
    of the method (score <= 1 - threshold for the two SQDIFF methods,
    score >= threshold for the others).  The single-match branch reports at
    most one triple; when the entry at the place given by minMaxLoc holds
    the extreme value, the place it reports is one the multiple-match branch
    reports too, but for the SQDIFF methods with the score 1 - value where
    the multiple-match branch gives the value itself. *)
Theorem template_matches :
  forall (sqdiff : bool) (threshold : R) (r : roi) (result : list (list R)),
    (forall mx my v,
        In (mx, my, v) (multiple_matches sqdiff threshold r result) <->
        exists (j k : nat) (row : list R),
          nth_error result j = Some row /\ nth_error row k = Some v /\
          (if sqdiff then v <= 1 - threshold else threshold <= v) /\
          mx = (Z.of_nat k + roi_x r)%Z /\ my = (Z.of_nat j + roi_y r)%Z) /\
    (forall min_val max_val min_loc max_loc,
        (List.length (single_match sqdiff threshold r min_val max_val min_loc max_loc)
         <= 1)%nat /\
        forall (j k : nat) (row : list R) (mx my : Z) (score : R),
          nth_error result j = Some row ->
          nth_error row k = Some (if sqdiff then min_val else max_val) ->
          (if sqdiff then min_loc else max_loc) = (Z.of_nat k, Z.of_nat j) ->
          In (mx, my, score)
             (single_match sqdiff threshold r min_val max_val min_loc max_loc) ->
          score = (if sqdiff then 1 - min_val else max_val) /\
          In (mx, my, if sqdiff then min_val else max_val)
             (multiple_matches sqdiff threshold r result)).
Proof.
  intros sqdiff threshold r result.
  assert (Hfound : forall v, match_found sqdiff threshold v = true <->
                             (if sqdiff then v <= 1 - threshold else threshold <= v)).
  { intro v. unfold match_found, Rgeb, Rleb. destruct sqdiff.
    - destruct (Rle_dec v (1.0 - threshold)); split; intro; try reflexivity;
        try discriminate; lra.
    - destruct (Rle_dec threshold v); split; intro; try reflexivity;
        try discriminate; lra. }
  assert (Hmulti : forall mx my v,
             In (mx, my, v) (multiple_matches sqdiff threshold r result) <->
             exists (j k : nat) (row : list R),
               nth_error result j = Some row /\ nth_error row k = Some v /\
               (if sqdiff then v <= 1 - threshold else threshold <= v) /\
               mx = (Z.of_nat k + roi_x r)%Z /\ my = (Z.of_nat j + roi_y r)%Z).
  { intros mx my v. unfold multiple_matches. rewrite scan_rows_in.
    split; intros (j & k & row & Hj & Hk & Hf & Hx & Hy); exists j, k, row;
      repeat split; try assumption; try (apply Hfound; assumption); lia. }
  split; [exact Hmulti |].
  intros min_val max_val min_loc max_loc. split.
  - unfold single_match. destruct (Rgeb _ threshold); cbn; lia.
  - intros j k row mx my score Hj Hk Hloc Hin.
    unfold single_match in Hin. rewrite Hloc in Hin.
    unfold Rgeb, Rleb in Hin.
    destruct (Rle_dec threshold (if sqdiff then 1.0 - min_val else max_val))
      as [Hconf |]; [| destruct Hin].
    destruct Hin as [Heq | []]. cbn [fst snd] in Heq. injection Heq as <- <- <-.
    split; [destruct sqdiff; lra |].
    apply Hmulti. exists j, k, row. repeat split; try assumption.
    destruct sqdiff; lra.
Qed.

Lemma template_matches_witness :
  In (12%Z, 21%Z, 0.1)
     (multiple_matches true 0.8 (mkRoi 10 20 5 5) [[0.9; 0.5; 0.7]; [0.6; 0.95; 0.1]]).
Proof.
  apply (proj1 (template_matches true 0.8 (mkRoi 10 20 5 5)
                  [[0.9; 0.5; 0.7]; [0.6; 0.95; 0.1]])).
  exists 1%nat, 2%nat, [0.6; 0.95; 0.1]. cbn. repeat split; try reflexivity. lra.
Defined.

End VisionFacts.
